(** * Registry synchronisation tools: a shallow embedding

    The development follows the two tools of the repository:

    - [tools/sync_registry_models.py], class [ModelDownloader]
      (module [Sync] below);
    - [tools/add_new_model.py], class [HFModelDownloader]
      (module [AddNew] below).

    Python dictionaries with a fixed set of keys become records, a key
    that may be absent becomes an [option] field, the file system is a
    finite map from paths to file contents, and the network is an oracle
    that answers every request.  Exceptions that a function lets escape
    are an explicit result constructor. *)

From Stdlib Require Import ZArith List Ascii String Lia Permutation.
From stdpp Require Import base option list strings pretty gmap.



(** ** Strings and paths *)

Module Str.

(** Python's [s.startswith(p)]. *)
Fixpoint starts_with (p s : string) : bool :=
  match p, s with
  | EmptyString, _ => true
  | String a p', String b s' => Ascii.eqb a b && starts_with p' s'
  | String _ _, EmptyString => false
  end.

(** Python's [needle in hay] on [str]. *)
Fixpoint str_in (needle hay : string) : bool :=
  if starts_with needle hay then true
  else match hay with
       | EmptyString => false
       | String _ rest => str_in needle rest
       end.

(** The characters after the last ["/"], as [Path.name] and
    [os.path.basename] give them; [acc] holds the component being read. *)
Fixpoint last_component (acc p : string) : string :=
  match p with
  | EmptyString => acc
  | String c rest =>
      if Ascii.eqb c "/"%char then last_component EmptyString rest
      else last_component (acc +:+ String c EmptyString) rest
  end.

Definition path_name (p : string) : string := last_component EmptyString p.

(** [base / rel] of [pathlib] for a relative [rel] made of plain names.
    For other paths the two differ: [pathlib] drops empty and [.]
    components and takes an absolute [rel] as it is. *)
Definition path_join (base rel : string) : string := base +:+ "/" +:+ rel.

(** Truth value of an optional string: [None] and the empty string are falsy. *)
Definition truthy (o : option string) : bool :=
  match o with
  | Some (String _ _) => true
  | _ => false
  end.

End Str.

(** ** The registry document *)

Record Source := {
  platform : string;
  author : string;
  repository : string;
  branch : option string;
  release : option string
}.

Record Status := {
  downloaded : option bool;
  verified : option bool;
  download_date : option string
}.

(** A model record.  The keys the tools index directly ([id], [name],
    [type], [source], [local_path]) are always there.  [files_required]
    and [files_optional] are [files.required] and [files.optional]; an
    absent key reads as the empty list.  [size_mb] is [specs.size_mb]. *)
Record Model := {
  id : string;
  name : string;
  type : string;
  source : Source;
  local_path : string;
  files_required : list string;
  files_optional : list string;
  status : option Status;
  size_mb : option Z
}.

Record Statistics := {
  total_models : Z;
  by_type : gmap string Z;
  by_source : gmap string Z;
  total_size_mb : Z;
  downloaded_models : Z;
  pending_models : Z
}.

Record Registry := {
  models : list Model;
  statistics : option Statistics;
  last_updated : string
}.

(** [m.get('status', {}).get('downloaded', False)] *)
Definition get_downloaded (m : Model) : bool :=
  match status m with
  | Some s => default false (downloaded s)
  | None => false
  end.

(** ** Source URL resolution *)

Module Sync_url.

(** [ModelDownloader._get_download_url]; [None] is the [ValueError] of an
    unsupported platform. *)
Definition _get_download_url (model : Model) (file_path : string) : option string :=
  let src := source model in
  if String.eqb (platform src) "huggingface" then
    let repo := author src +:+ "/" +:+ repository src in
    Some ("https://huggingface.co/" +:+ repo +:+ "/resolve/main/" +:+ file_path)
  else if String.eqb (platform src) "github" then
    let author := author src in
    let repo := repository src in
    let branch := default "main" (branch src) in
    if String.eqb repo "openWakeWord" then
      let release := default "latest" (release src) in
      if negb (String.eqb release "latest") then
        Some ("https://github.com/" +:+ author +:+ "/" +:+ repo
                +:+ "/releases/download/" +:+ release +:+ "/" +:+ file_path)
      else
        Some ("https://github.com/" +:+ author +:+ "/" +:+ repo
                +:+ "/raw/" +:+ branch +:+ "/models/" +:+ file_path)
    else
      Some ("https://raw.githubusercontent.com/" +:+ author +:+ "/" +:+ repo
              +:+ "/" +:+ branch +:+ "/" +:+ file_path)
  else None.

End Sync_url.

Module AddNew_url.

(** [HFModelDownloader.build_file_url]; the keyword argument [branch]
    defaults to ['main']. *)
Definition build_file_url (owner model file_path : string) (branch : option string) : string :=
  "https://huggingface.co/" +:+ owner +:+ "/" +:+ model +:+ "/resolve/"
    +:+ default "main" branch +:+ "/" +:+ file_path.

End AddNew_url.

(** The URL shapes as the specification words them, for comparison with
    the resolver of the code. *)
Module UrlSpec.

(** Specification side: [https://<host>/<author>/<repository>/resolve/<branch>/<f>],
    with the record's branch and [main] when it is unset. *)
Definition huggingface_url (m : Model) (f : string) : string :=
  "https://huggingface.co/" +:+ author (source m) +:+ "/" +:+ repository (source m)
    +:+ "/resolve/" +:+ default "main" (branch (source m)) +:+ "/" +:+ f.

(** Specification side: the release-asset path for the tag and the base
    name of the file. *)
Definition release_asset_url (m : Model) (tag f : string) : string :=
  "https://github.com/" +:+ author (source m) +:+ "/" +:+ repository (source m)
    +:+ "/releases/download/" +:+ tag +:+ "/" +:+ Str.path_name f.

End UrlSpec.

(** ** The outside world: file system and network *)

(** The [content-length] header as [int(...)] sees it: absent, not a
    number (with the text of the [ValueError] that [int] raises), or a
    number. *)
Inductive ContentLength :=
| CLAbsent
| CLInvalid (e : string)
| CLValue (n : Z).

(** What the server sends back: the URL of the response ([response.url]:
    the URL requested as the library encodes it, or the one a redirect
    led to), the status line, the header the code reads, the chunks
    [iter_content] yields and, when the connection breaks after them, the
    text of the exception [iter_content] raises. *)
Record Response := {
  response_url : string;
  status_code : Z;
  reason : string;
  content_length : ContentLength;
  body : list string;
  stream_error : option string
}.

Inductive Reply :=
| NoResponse (e : string)
| Got (r : Response).

Record Request := {
  req_url : string;
  req_authorization : option string
}.

(** The parts of the process environment the tools read.  [server]
    answers the [n]-th request of a run; [open_error] and [write_error]
    say when [open(dest, 'wb')] and the [i]-th [f.write] on [dest] raise. *)
Record Env := {
  hf_token : option string;
  models_dir : string;
  today : string;
  server : nat -> Request -> Reply;
  open_error : string -> option string;
  write_error : string -> nat -> option string
}.

(** Files by path, and the requests sent so far. *)
Record World := {
  fs : gmap string string;
  requests : list Request
}.

Inductive Exc :=
| HTTPError (code : Z) (e : string)
| RequestException (e : string)
| OtherException (e : string).

Module Http.

(** [Response.raise_for_status] of the requests library: an [HTTPError]
    for a status in 400..599, with the text the library builds from the
    status, the reason and the URL of the response. *)
Definition raise_for_status (r : Response) : option Exc :=
  if (400 <=? status_code r)%Z && (status_code r <? 500)%Z then
    Some (HTTPError (status_code r)
            (pretty (status_code r) +:+ " Client Error: " +:+ reason r
               +:+ " for url: " +:+ response_url r))
  else if (500 <=? status_code r)%Z && (status_code r <? 600)%Z then
    Some (HTTPError (status_code r)
            (pretty (status_code r) +:+ " Server Error: " +:+ reason r
               +:+ " for url: " +:+ response_url r))
  else None.

(** The text of the [HTTPError] for a status in 400..599. *)
Definition http_error_text (r : Response) : string :=
  pretty (status_code r)
    +:+ (if (status_code r <? 500)%Z then " Client Error: " else " Server Error: ")
    +:+ reason r +:+ " for url: " +:+ response_url r.

(** [int(response.headers.get('content-length', 0))] *)
Definition total_size (r : Response) : Exc + Z :=
  match content_length r with
  | CLAbsent => inr 0%Z
  | CLInvalid e => inl (OtherException e)
  | CLValue n => inr n
  end.

(** The header dictionary of both fetchers: the token goes with every URL
    that has ["huggingface.co"] somewhere in it. *)
Definition auth_header (E : Env) (url : string) : option string :=
  if Str.truthy (hf_token E) && Str.str_in "huggingface.co" url
  then Some ("Bearer " +:+ default EmptyString (hf_token E))
  else None.

(** [requests.get(url, headers=headers, stream=True, timeout=30)] followed
    by [response.raise_for_status()]; the request is logged. *)
Definition get (E : Env) (w : World) (url : string) : World * (Exc + Response) :=
  let rq := {| req_url := url; req_authorization := auth_header E url |} in
  let w1 := {| fs := fs w; requests := requests w ++ [rq] |} in
  match server E (length (requests w)) rq with
  | NoResponse e => (w1, inl (RequestException e))
  | Got r =>
      match raise_for_status r with
      | Some ex => (w1, inl ex)
      | None => (w1, inr r)
      end
  end.

(** The loop [for chunk in response.iter_content(...)] writing to the open
    file: the content written so far and the exception that stopped it.
    [skip_empty] is the [if chunk:] guard. *)
Fixpoint write_chunks (E : Env) (skip_empty : bool) (dest : string) (i : nat)
    (chunks : list string) (stream_err : option string) (content : string)
    : string * option Exc :=
  match chunks with
  | [] => (content, RequestException <$> stream_err)
  | chunk :: rest =>
      if skip_empty && String.eqb chunk EmptyString then
        write_chunks E skip_empty dest i rest stream_err content
      else
        match write_error E dest i with
        | Some e => (content, Some (OtherException e))
        | None => write_chunks E skip_empty dest (S i) rest stream_err (content +:+ chunk)
        end
  end.

(** [with open(dest, 'wb') as f: <loop>]: the file is created empty (or
    truncated), then filled; it keeps what was written when the loop
    raises. *)
Definition save_body (E : Env) (skip_empty : bool) (w : World) (dest : string)
    (r : Response) : World * option Exc :=
  match open_error E dest with
  | Some e => (w, Some (OtherException e))
  | None =>
      let '(content, ex) := write_chunks E skip_empty dest 0 (body r) (stream_error r) EmptyString in
      ({| fs := <[dest := content]> (fs w); requests := requests w |}, ex)
  end.

(** [if dest_path.exists(): dest_path.unlink()] *)
Definition unlink_if_exists (w : World) (dest : string) : World :=
  match fs w !! dest with
  | Some _ => {| fs := delete dest (fs w); requests := requests w |}
  | None => w
  end.

End Http.

(** ** [tools/sync_registry_models.py] *)

(** What a run prints, without the decoration. *)
Inductive Line :=
| LModelNotFound (model_id : string)
| LDownloadingModel (name platform type : string)
| LAlreadyDownloaded
| LNoFiles (model_id : string)
| LDownloadingFiles (n : nat)
| LFileOk (message : string)
| LFileFailed (message : string)
| LSuccess (success_count total : nat)
| LFailedRequired (failed_files : list string).

(** A call returns a value or lets an exception escape. *)
Inductive Result (A : Type) :=
| Ret (a : A)
| Raise (e : string).
Arguments Ret {A} a.
Arguments Raise {A} e.

(** The downloader object and what it acts on: the registry in memory,
    the registry file, the world, and the lines printed. *)
Record State := {
  registry : Registry;
  registry_file : Registry;
  world : World;
  out : list Line
}.

Definition Task : Type := string * bool.
Definition Outcome : Type := Task * (bool * string).

Module Sync.

Import Str Http Sync_url.

Section Downloader.

Context (E : Env).

(** [ModelDownloader._save_registry]: the document in memory is dumped to
    the file as it is. *)
Definition _save_registry (st : State) : State :=
  {| registry := registry st; registry_file := registry st;
     world := world st; out := out st |}.

(** [ModelDownloader._download_file].  [dest_path.parent.mkdir(...)] has
    no step here: the file system holds files only, and the directory of
    the destination is taken to be there or creatable. *)
Definition _download_file (w : World) (url dest : string) : World * (bool * string) :=
  match fs w !! dest with
  | Some _ => (w, (true, "Already exists: " +:+ path_name dest))
  | None =>
      let '(w1, got) := get E w url in
      let '(w2, raised) :=
        match got with
        | inl ex => (w1, Some ex)
        | inr r =>
            match total_size r with
            | inl ex => (w1, Some ex)
            | inr _ => save_body E true w1 dest r
            end
        end in
      match raised with
      | None => (w2, (true, "Downloaded: " +:+ path_name dest))
      | Some (HTTPError _ e) | Some (RequestException e) =>
          (unlink_if_exists w2 dest,
           (false, "Failed to download " +:+ path_name dest +:+ ": " +:+ e))
      | Some (OtherException e) =>
          (unlink_if_exists w2 dest,
           (false, "Error downloading " +:+ path_name dest +:+ ": " +:+ e))
      end
  end.

(** [next((m for m in self.registry['models'] if m['id'] == model_id), None)] *)
Definition find_model (reg : Registry) (model_id : string) : option Model :=
  List.find (fun m => String.eqb (id m) model_id) (models reg).

(** A mutation of the record [find_model] returned: the record is shared
    with the registry, so the first record with that id changes. *)
Fixpoint update_model (model_id : string) (f : Model -> Model) (ms : list Model) : list Model :=
  match ms with
  | [] => []
  | m :: rest =>
      if String.eqb (id m) model_id then f m :: rest
      else m :: update_model model_id f rest
  end.

Definition with_status (s : option Status) (m : Model) : Model :=
  {| id := id m; name := name m; type := type m; source := source m;
     local_path := local_path m; files_required := files_required m;
     files_optional := files_optional m; status := s; size_mb := size_mb m |}.

(** [if 'status' not in model: model['status'] = {}] *)
Definition ensure_status (m : Model) : Model :=
  match status m with
  | Some _ => m
  | None => with_status (Some {| downloaded := None; verified := None; download_date := None |}) m
  end.

(** The three assignments of the success branch. *)
Definition mark_downloaded (m : Model) : Model :=
  with_status (Some {| downloaded := Some true; verified := Some true;
                       download_date := Some (today E) |}) m.

Definition with_models (ms : list Model) (reg : Registry) : Registry :=
  {| models := ms; statistics := statistics reg; last_updated := last_updated reg |}.

Definition mutate_model (model_id : string) (f : Model -> Model) (st : State) : State :=
  {| registry := with_models (update_model model_id f (models (registry st))) (registry st);
     registry_file := registry_file st; world := world st; out := out st |}.

Definition print (ls : list Line) (st : State) : State :=
  {| registry := registry st; registry_file := registry_file st;
     world := world st; out := out st ++ ls |}.

Definition with_world (w : World) (st : State) : State :=
  {| registry := registry st; registry_file := registry_file st;
     world := w; out := out st |}.

(** The task list: every required file, then the optional ones when asked for. *)
Definition files_to_download (model : Model) (include_optional : bool) : list Task :=
  map (fun file => (file, true)) (files_required model)
    ++ (if include_optional then map (fun file => (file, false)) (files_optional model) else []).

(** The submission loop.  Each fetch runs when it is submitted, one after
    the other; [None] is the [ValueError] of the URL resolver, raised
    before the task is submitted.  The pool of the code runs the fetches
    side by side: fetches with different destinations touch different
    files, so for them the order is immaterial; two tasks with one
    destination can interleave in the pool in ways this loop does not
    have. *)
Fixpoint submit_all (w : World) (model : Model) (local_path : string)
    (tasks : list Task) : World * option (list Outcome) :=
  match tasks with
  | [] => (w, Some [])
  | (file_path, is_required) :: rest =>
      match _get_download_url model file_path with
      | None => (w, None)
      | Some url =>
          let '(w1, res) := _download_file w url (path_join local_path file_path) in
          let '(w2, more) := submit_all w1 model local_path rest in
          (w2, cons ((file_path, is_required), res) <$> more)
      end
  end.

(** [as_completed(futures)]: the futures in the order they finish.  The
    order is the scheduler's; [order] picks, at each step, which of the
    futures still running finishes next. *)
Fixpoint as_completed {A} (order : list nat) (futures : list A) (n : nat) : list A :=
  match n, futures with
  | S n', x :: _ =>
      let k := (hd 0 order) `mod` length futures in
      nth k futures x :: as_completed (tl order) (take k futures ++ drop (S k) futures) n'
  | _, _ => []
  end.

(** The loop over completed downloads: [success_count], [failed_files]
    and the lines printed. *)
Fixpoint process_completed (done : list Outcome) (success_count : nat)
    (failed_files : list string) (lines : list Line) : nat * list string * list Line :=
  match done with
  | [] => (success_count, failed_files, lines)
  | ((file_path, is_required), (success, message)) :: rest =>
      if success then
        process_completed rest (S success_count) failed_files (lines ++ [LFileOk message])
      else
        process_completed rest success_count
          (if is_required then failed_files ++ [file_path] else failed_files)
          (lines ++ [LFileFailed message])
  end.

(** [ModelDownloader.download_model].  [local_path.mkdir(...)] has no
    step here: the file system holds files only, and a run in which the
    directory of the model cannot be created is outside the embedding. *)
Definition download_model (st : State) (model_id : string) (force include_optional : bool)
    (order : list nat) : State * Result bool :=
  match find_model (registry st) model_id with
  | None => (print [LModelNotFound model_id] st, Ret false)
  | Some model =>
      let st := print [LDownloadingModel (name model) (platform (source model)) (type model)] st in
      if negb force && get_downloaded model then
        (print [LAlreadyDownloaded] st, Ret true)
      else
        let local_path := path_join (models_dir E) (local_path model) in
        let tasks := files_to_download model include_optional in
        match tasks with
        | [] => (print [LNoFiles model_id] st, Ret false)
        | _ :: _ =>
            let st := print [LDownloadingFiles (length tasks)] st in
            match submit_all (world st) model local_path tasks with
            | (w, None) =>
                (with_world w st, Raise ("Unsupported platform: " +:+ platform (source model)))
            | (w, Some outcomes) =>
                let st := with_world w st in
                let '(success_count, failed_files, lines) :=
                  process_completed (as_completed order outcomes (length outcomes)) 0 [] [] in
                let st := print lines st in
                let st := mutate_model model_id ensure_status st in
                match failed_files with
                | [] =>
                    let st := mutate_model model_id mark_downloaded st in
                    let st := _save_registry st in
                    (print [LSuccess success_count (length tasks)] st, Ret true)
                | _ :: _ =>
                    (print [LFailedRequired failed_files] st, Ret false)
                end
            end
        end
  end.

End Downloader.

End Sync.

(** ** [tools/add_new_model.py] *)

(** What [download_file] prints, without the decoration. *)
Inductive ALine :=
| AOk (name : string)
| ANotFound (name : string)
| AHttp (name : string) (code : Z)
| AError (name e : string).

Module AddNew.

Import Str Http AddNew_url.

Section Downloader.

Context (E : Env).

(** [HFModelDownloader._save_registry]: stamps [last_updated], then dumps
    the document. *)
Definition _save_registry (st : State) : State :=
  let reg := {| models := models (registry st); statistics := statistics (registry st);
                last_updated := today E |} in
  {| registry := reg; registry_file := reg; world := world st; out := out st |}.

(** [HFModelDownloader.download_file] *)
Definition download_file (w : World) (url dest : string) (show_progress : bool)
    : World * bool * list ALine :=
  let '(w1, got) := get E w url in
  let '(w2, raised, printed) :=
    match got with
    | inl ex => (w1, Some ex, [])
    | inr r =>
        match total_size r with
        | inl ex => (w1, Some ex, [])
        | inr total =>
            if show_progress && (0 <? total)%Z then
              let '(w2, ex) := save_body E true w1 dest r in (w2, ex, [])
            else
              let '(w2, ex) := save_body E false w1 dest r in
              (w2, ex, if negb show_progress then [AOk (path_name dest)] else [])
        end
    end in
  match raised with
  | None => (w2, true, printed)
  | Some (HTTPError code _) =>
      if (code =? 404)%Z then
        (w2, false, if negb show_progress then [ANotFound (path_name dest)] else [])
      else
        (w2, false, [AHttp (path_name dest) code])
  | Some (RequestException e) | Some (OtherException e) =>
      (w2, false, [AError (path_name dest) e])
  end.

(** [by_type[k] += 1] under the guard [if k in by_type]. *)
Definition count_key (k : string) (counts : gmap string Z) : gmap string Z :=
  match counts !! k with
  | Some n => <[k := (n + 1)%Z]> counts
  | None => counts
  end.

Definition by_type_zero : gmap string Z :=
  <["asr" := 0%Z]> (<["wakeword" := 0%Z]> (<["vad" := 0%Z]> (<["tts" := 0%Z]> (<["nlp" := 0%Z]> ∅)))).

Definition by_source_zero : gmap string Z :=
  <["huggingface" := 0%Z]> (<["github" := 0%Z]> (<["local" := 0%Z]> ∅)).

(** [sum(1 for m in models if m.get('status', {}).get('downloaded', False))] *)
Definition count_downloaded (ms : list Model) : Z :=
  foldr (fun m acc => ((if get_downloaded m then 1 else 0) + acc)%Z) 0%Z ms.

(** The statistics [_update_statistics] writes, as a function of the models. *)
Definition compute_statistics (ms : list Model) : Statistics :=
  let downloaded := count_downloaded ms in
  {| total_models := Z.of_nat (length ms);
     by_type := foldl (fun acc m => count_key (type m) acc) by_type_zero ms;
     by_source := foldl (fun acc m => count_key (platform (source m)) acc) by_source_zero ms;
     total_size_mb := foldr (fun m acc => (default 0 (size_mb m) + acc)%Z) 0%Z ms;
     downloaded_models := downloaded;
     pending_models := (Z.of_nat (length ms) - downloaded)%Z |}.

(** [HFModelDownloader._update_statistics]: every key of the statistics
    is assigned from [models]. *)
Definition _update_statistics (st : State) : State :=
  {| registry := {| models := models (registry st);
                    statistics := Some (compute_statistics (models (registry st)));
                    last_updated := last_updated (registry st) |};
     registry_file := registry_file st; world := world st; out := out st |}.

End Downloader.

End AddNew.

(** ** Words of the specification that the code has no function for *)

Module SpecWords.

(** The host of a URL: what stands between ["://"] and the next ["/"]. *)
Fixpoint upto_slash (s : string) : string :=
  match s with
  | EmptyString => EmptyString
  | String c rest => if Ascii.eqb c "/"%char then EmptyString else String c (upto_slash rest)
  end.

Fixpoint url_host (url : string) : string :=
  match url with
  | EmptyString => EmptyString
  | String c rest =>
      if Str.starts_with "://" url then upto_slash (String.substring 3 (String.length url) url)
      else url_host rest
  end.

(** The registry as a reader of the file finds it: the statistics can be
    recomputed from the models when they are what [_update_statistics]
    computes. *)
Definition statistics_fresh (reg : Registry) : Prop :=
  statistics reg = Some (AddNew.compute_statistics (models reg)).

(** A fetch outcome that counts against the model: a required file that
    was not fetched. *)
Definition required_failure (o : Outcome) : Prop :=
  snd (fst o) = true /\ fst (snd o) = false.

Global Instance required_failure_dec (o : Outcome) : Decision (required_failure o).
Proof. unfold required_failure. apply _. Defined.

(** The failed required files of a list of outcomes. *)
Definition failed_required (outcomes : list Outcome) : list string :=
  (fun o : Outcome => fst (fst o)) <$> filter required_failure outcomes.

(** The line printed for one outcome. *)
Definition outcome_line (o : Outcome) : Line :=
  if fst (snd o) then LFileOk (snd (snd o)) else LFileFailed (snd (snd o)).

(** The number of fetches that succeeded. *)
Definition successes (outcomes : list Outcome) : nat :=
  length (filter (fun o : Outcome => fst (snd o) = true) outcomes).

End SpecWords.

(** ** The end of a run in closed form *)

Module Closed.

Import Sync SpecWords.

(** What [download_model] leaves and returns once the pool is done: the
    state and result it computes from the world [w] and the [outcomes] of
    the fetches, written with [failed_required], [successes] and
    [outcome_line] in place of the loop.  [download_model_cases] below
    proves that this is what the code computes. *)
Definition settled (E : Env) (st : State) (model : Model) (model_id : string)
    (include_optional : bool) (order : list nat) (w : World) (outcomes : list Outcome)
    : State * Result bool :=
  let total := length (files_to_download model include_optional) in
  let done := as_completed order outcomes (length outcomes) in
  let st := print [LDownloadingModel (name model) (platform (source model)) (type model)] st in
  let st := print [LDownloadingFiles total] st in
  let st := with_world w st in
  let st := print (outcome_line <$> done) st in
  let st := mutate_model model_id ensure_status st in
  match failed_required done with
  | [] =>
      (print [LSuccess (successes done) total]
         (_save_registry (mutate_model model_id (mark_downloaded E) st)), Ret true)
  | _ :: _ => (print [LFailedRequired (failed_required done)] st, Ret false)
  end.

End Closed.

(** ** Concrete registries, servers and disks used by the examples *)

Module Fixtures.

Definition ok_response (url : string) (chunks : list string) : Response :=
  {| response_url := url; status_code := 200; reason := "OK";
     content_length := CLAbsent; body := chunks; stream_error := None |}.

Definition error_response (url : string) (code : Z) (why : string) : Response :=
  {| response_url := url; status_code := code; reason := why;
     content_length := CLAbsent; body := []; stream_error := None |}.

(** An environment with the server [srv], without redirects: the URL of
    a response is the URL requested. *)
Definition env_with (token : option string) (srv : nat -> Request -> Reply) : Env :=
  {| hf_token := token; models_dir := "models"; today := "2026-01-15";
     server := srv;
     open_error := fun _ => None; write_error := fun _ _ => None |}.

Definition env_ok : Env :=
  env_with (Some "hf_secret") (fun _ rq => Got (ok_response (req_url rq) ["on"; "nx"])).

Definition env_status (code : Z) (why : string) : Env :=
  env_with None (fun _ rq => Got (error_response (req_url rq) code why)).

(** The connection breaks after the first chunk of the body. *)
Definition env_broken_stream : Env :=
  env_with None (fun _ rq =>
    Got {| response_url := req_url rq; status_code := 200; reason := "OK";
           content_length := CLAbsent;
           body := ["{ trunc"]; stream_error := Some "Connection broken: IncompleteRead" |}).

Definition tokenizer_url : string :=
  "https://huggingface.co/Xenova/whisper-tiny/resolve/main/tokenizer.json".

Definition normalizer_url : string :=
  "https://huggingface.co/Xenova/whisper-tiny/resolve/main/normalizer.json".

(** The remote has everything but the file at [missing]. *)
Definition env_missing (missing : string) : Env :=
  env_with None (fun _ rq =>
    if String.eqb (req_url rq) missing
    then Got (error_response (req_url rq) 404 "Not Found")
    else Got (ok_response (req_url rq) ["{}"])).

Definition env_tokenizer_404 : Env := env_missing tokenizer_url.

Definition hf_source (b : option string) : Source :=
  {| platform := "huggingface"; author := "Xenova"; repository := "whisper-tiny";
     branch := b; release := None |}.

Definition whisper_tiny (b : option string) (is_downloaded : bool) : Model :=
  {| id := "whisper-tiny"; name := "Whisper Tiny"; type := "asr";
     source := hf_source b;
     local_path := "huggingface/Xenova/whisper-tiny";
     files_required := ["config.json"; "tokenizer.json"];
     files_optional := ["normalizer.json"];
     status := Some {| downloaded := Some is_downloaded; verified := Some is_downloaded;
                       download_date := Some "2025-11-02" |};
     size_mb := Some 39%Z |}.

Definition github_model (repo : string) (rel : option string) (fs : list string) : Model :=
  {| id := "hey-jarvis"; name := "Hey Jarvis"; type := "wakeword";
     source := {| platform := "github"; author := "dscripka"; repository := repo;
                  branch := None; release := rel |};
     local_path := "github/dscripka/" +:+ repo;
     files_required := fs; files_optional := [];
     status := None; size_mb := None |}.

Definition local_model : Model :=
  {| id := "silero"; name := "Silero"; type := "vad";
     source := {| platform := "local"; author := "me"; repository := "silero";
                  branch := None; release := None |};
     local_path := "local/silero";
     files_required := []; files_optional := [];
     status := None; size_mb := None |}.

(** A registry whose statistics are those of its models. *)
Definition registry_of (ms : list Model) : Registry :=
  {| models := ms; statistics := Some (AddNew.compute_statistics ms);
     last_updated := "2025-11-02" |}.

Definition start (ms : list Model) (files : gmap string string) : State :=
  {| registry := registry_of ms; registry_file := registry_of ms;
     world := {| fs := files; requests := [] |}; out := [] |}.

Definition config_path : string := "models/huggingface/Xenova/whisper-tiny/config.json".
Definition tokenizer_path : string := "models/huggingface/Xenova/whisper-tiny/tokenizer.json".

Definition normalizer_path : string := "models/huggingface/Xenova/whisper-tiny/normalizer.json".

Definition only_config : gmap string string := {[ config_path := "{}" ]}.
Definition both_files : gmap string string :=
  <[ tokenizer_path := "{}" ]> only_config.

(** The fetches of a run that asks for the optional file too, on an empty
    disk, when the remote lacks [normalizer.json]. *)
Definition optional_missing_fetches : World * option (list Outcome) :=
  Eval vm_compute in
    Sync.submit_all (env_missing normalizer_url) {| fs := ∅; requests := [] |}
      (whisper_tiny None false) "models/huggingface/Xenova/whisper-tiny"
      (Sync.files_to_download (whisper_tiny None false) true).

End Fixtures.

(** ** The rest of [tools/sync_registry_models.py] *)

(** What [verify_model] prints, without the decoration. *)
Inductive VerifyLine :=
| VModelNotFound (model_id : string)
| VMissing (model_id : string) (missing_files : list string)
| VAllPresent (model_id : string).

(** What [download_all] prints around the runs of the models: nothing
    found, or the closing count. *)
Inductive FleetReport :=
| NoModelsFound (model_type : option string)
| Downloaded (success_count total : nat).

(** What [show_stats] prints. *)
Record StatsReport := {
  shown_total : nat;
  shown_downloaded : nat;
  shown_pending : Z;
  shown_size_mb : Z;
  shown_by_type : gmap string Z;
  shown_by_source : gmap string Z
}.

Module SyncFleet.

Import Str Sync.

Section Downloader.

Context (E : Env).

(** [ModelDownloader.list_models] *)
Definition list_models (reg : Registry) (filter_type filter_status : option string)
    : list Model :=
  let models := models reg in
  let models :=
    if truthy filter_type
    then List.filter (fun m => String.eqb (type m) (default EmptyString filter_type)) models
    else models in
  match filter_status with
  | Some s =>
      if String.eqb s "downloaded" then List.filter (fun m => get_downloaded m) models
      else if String.eqb s "pending" then List.filter (fun m => negb (get_downloaded m)) models
      else models
  | None => models
  end.

(** The loop of [verify_model] that collects the required files not on disk. *)
Definition missing_files (w : World) (local_path : string) (required_files : list string)
    : list string :=
  List.filter (fun file => negb (bool_decide (is_Some (fs w !! path_join local_path file))))
    required_files.

(** [ModelDownloader.verify_model]: it reads the registry and the disk and
    prints; the value returned and the lines. *)
Definition verify_model (reg : Registry) (w : World) (model_id : string)
    : bool * list VerifyLine :=
  match find_model reg model_id with
  | None => (false, [VModelNotFound model_id])
  | Some model =>
      let local_path := path_join (models_dir E) (local_path model) in
      match missing_files w local_path (files_required model) with
      | [] => (true, [VAllPresent model_id])
      | missing => (false, [VMissing model_id missing])
      end
  end.

(** The loop of [download_all]: one [download_model] per model, by its id;
    an exception of a run ends the loop.  [orders] gives the completion
    order of the fetches of each run. *)
Fixpoint download_each (st : State) (ms : list Model) (force include_optional : bool)
    (orders : list (list nat)) (success_count : nat) : State * Result nat :=
  match ms with
  | [] => (st, Ret success_count)
  | model :: rest =>
      match download_model E st (id model) force include_optional (hd [] orders) with
      | (st1, Ret ok) =>
          download_each st1 rest force include_optional (tl orders)
            (if ok then S success_count else success_count)
      | (st1, Raise e) => (st1, Raise e)
      end
  end.

(** [ModelDownloader.download_all] *)
Definition download_all (st : State) (model_type : option string)
    (force include_optional : bool) (orders : list (list nat)) : State * Result FleetReport :=
  match list_models (registry st) model_type None with
  | [] => (st, Ret (NoModelsFound model_type))
  | ms =>
      match download_each st ms force include_optional orders 0 with
      | (st', Ret success_count) => (st', Ret (Downloaded success_count (length ms)))
      | (st', Raise e) => (st', Raise e)
      end
  end.

(** [ModelDownloader.show_stats] *)
Definition show_stats (reg : Registry) : StatsReport :=
  let downloaded := length (List.filter (fun m => get_downloaded m) (models reg)) in
  {| shown_total := length (models reg);
     shown_downloaded := downloaded;
     shown_pending := (Z.of_nat (length (models reg)) - Z.of_nat downloaded)%Z;
     shown_size_mb := from_option total_size_mb 0%Z (statistics reg);
     shown_by_type := from_option by_type ∅ (statistics reg);
     shown_by_source := from_option by_source ∅ (statistics reg) |}.

End Downloader.

End SyncFleet.

(** ** Python string methods used by [tools/add_new_model.py]

    Strings are byte strings; the methods are those of Python on ASCII
    text, which is what model names and ids are. *)

Module PyStr.

Import Str.

Definition is_upper (c : ascii) : bool :=
  (65 <=? nat_of_ascii c) && (nat_of_ascii c <=? 90).

Definition is_lower (c : ascii) : bool :=
  (97 <=? nat_of_ascii c) && (nat_of_ascii c <=? 122).

Definition lower_char (c : ascii) : ascii :=
  if is_upper c then ascii_of_nat (nat_of_ascii c + 32) else c.

Definition upper_char (c : ascii) : ascii :=
  if is_lower c then ascii_of_nat (nat_of_ascii c - 32) else c.

(** [s.lower()] *)
Fixpoint lower (s : string) : string :=
  match s with
  | EmptyString => EmptyString
  | String c rest => String (lower_char c) (lower rest)
  end.

(** [s.capitalize()] *)
Definition capitalize (s : string) : string :=
  match s with
  | EmptyString => EmptyString
  | String c rest => String (upper_char c) (lower rest)
  end.

(** [s.split(sep)] for a one-character separator. *)
Fixpoint split_on (sep : ascii) (s : string) : list string :=
  match s with
  | EmptyString => [EmptyString]
  | String c rest =>
      if Ascii.eqb c sep then EmptyString :: split_on sep rest
      else match split_on sep rest with
           | head :: tail => String c head :: tail
           | [] => [String c EmptyString]
           end
  end.

(** [s.lstrip(ch)] and [s.rstrip(ch)] for one character, and [s.strip(ch)]. *)
Fixpoint lstrip (ch : ascii) (s : string) : string :=
  match s with
  | EmptyString => EmptyString
  | String c rest => if Ascii.eqb c ch then lstrip ch rest else s
  end.

Fixpoint rstrip (ch : ascii) (s : string) : string :=
  match s with
  | EmptyString => EmptyString
  | String c rest =>
      match rstrip ch rest with
      | EmptyString => if Ascii.eqb c ch then EmptyString else String c EmptyString
      | kept => String c kept
      end
  end.

Definition strip (ch : ascii) (s : string) : string := rstrip ch (lstrip ch s).

(** [s.replace(a, b)] for single characters. *)
Fixpoint replace_char (a b : ascii) (s : string) : string :=
  match s with
  | EmptyString => EmptyString
  | String c rest => String (if Ascii.eqb c a then b else c) (replace_char a b rest)
  end.

(** [s.replace(old, new)] for a non-empty [old]: the occurrences are
    taken from the left and do not overlap; [skip] counts the characters
    of an occurrence still to be dropped. *)
Fixpoint replace_from (old new : string) (skip : nat) (s : string) : string :=
  match s with
  | EmptyString => EmptyString
  | String c rest =>
      match skip with
      | S k => replace_from old new k rest
      | O =>
          if starts_with old s
          then new +:+ replace_from old new (String.length old - 1) rest
          else String c (replace_from old new 0 rest)
      end
  end.

Definition replace (old new s : string) : string := replace_from old new 0 s.

(** The characters [str.split()] splits on. *)
Definition is_space (c : ascii) : bool :=
  let n := nat_of_ascii c in
  (n =? 32) || ((9 <=? n) && (n <=? 13)) || ((28 <=? n) && (n <=? 31)).

(** [s.split()]: the words between runs of white space; [word] is the
    word being read. *)
Fixpoint split_words (word : string) (s : string) : list string :=
  match s with
  | EmptyString => match word with EmptyString => [] | _ => [word] end
  | String c rest =>
      if is_space c then
        match word with
        | EmptyString => split_words EmptyString rest
        | _ => word :: split_words EmptyString rest
        end
      else split_words (word +:+ String c EmptyString) rest
  end.

(** [sep.join(words)] *)
Fixpoint join (sep : string) (words : list string) : string :=
  match words with
  | [] => EmptyString
  | [w] => w
  | w :: rest => w +:+ sep +:+ join sep rest
  end.

(** [x in xs] for a list of strings. *)
Definition mem (x : string) (xs : list string) : bool := existsb (String.eqb x) xs.

End PyStr.

(** ** The rest of [tools/add_new_model.py] *)

(** What [download_model] of the registration tool prints, without the
    decoration. *)
Inductive RegLine :=
| RProcessing (model_id_clean : string)
| RAlreadyDownloaded
| ROutputDirectory (model_dir : string)
| RDownloadingRequired
| RDownloadingOptional
| RFile (line : ALine)
| RUpdatingExisting
| RAddedNew (model_id_short : string)
| RComplete (files_downloaded : nat) (files_failed : list string).

Module Registration.

Import Str Http AddNew_url AddNew PyStr.

Definition REQUIRED_FILES : list string :=
  ["onnx/encoder_model.onnx"; "onnx/decoder_model_merged.onnx"; "config.json";
   "tokenizer.json"; "vocab.json"; "merges.txt"; "preprocessor_config.json";
   "generation_config.json"].

Definition OPTIONAL_FILES : list string :=
  ["onnx/encoder_model_quantized.onnx"; "onnx/decoder_model_merged_quantized.onnx";
   "model_info.json"; "normalizer.json"; "added_tokens.json";
   "special_tokens_map.json"; "tokenizer_config.json"].

(** [HFModelDownloader._detect_model_type].  [task] is [config.get('task')]
    of a non-empty [config]; [None] stands for an empty [config] and for
    one without the key, which the code treats alike. *)
Definition _detect_model_type (model_name : string) (task : option string) : string :=
  let model_name_lower := lower model_name in
  if str_in "whisper" model_name_lower then "asr"
  else if existsb (fun wake => str_in wake model_name_lower)
            ["wake"; "hey"; "alexa"; "jarvis"; "mycroft"; "kmu"] then "wakeword"
  else if str_in "vad" model_name_lower
          || str_in "voice" model_name_lower && str_in "activity" model_name_lower then "vad"
  else if str_in "tts" model_name_lower
          || str_in "speech" model_name_lower && str_in "synthesis" model_name_lower then "tts"
  else if str_in "bert" model_name_lower || str_in "gpt" model_name_lower
          || str_in "nlp" model_name_lower then "nlp"
  else
    let task := lower (default EmptyString task) in
    if str_in "speech-recognition" task || str_in "asr" task then "asr"
    else if str_in "text-to-speech" task || str_in "tts" task then "tts"
    else "asr".

(** [HFModelDownloader._estimate_model_size] *)
Definition _estimate_model_size (model_name : string) : Z :=
  let name_lower := lower model_name in
  if str_in "tiny" name_lower then 39
  else if str_in "base" name_lower then 74
  else if str_in "small" name_lower then 244
  else if str_in "medium" name_lower then 769
  else if str_in "large-v3" name_lower then 1550
  else if str_in "large-v2" name_lower then 1550
  else if str_in "large" name_lower then 1550
  else 100.

(** [HFModelDownloader._format_model_name] *)
Definition _format_model_name (model_name : string) : string :=
  let name := replace_char "_" " " (replace_char "-" " " model_name) in
  let name := join " " (map capitalize (split_words EmptyString name)) in
  let name := replace "Whisper" "Whisper" name in
  let name := replace ".En" " English" name in
  let name := replace "Vad" "VAD" name in
  let name := replace "Tts" "TTS" name in
  let name := replace "V2" "V2" name in
  let name := replace "V3" "V3" name in
  name.


Definition same_repository (owner model_name : string) (m : Model) : bool :=
  String.eqb (author (source m)) owner && String.eqb (repository (source m)) model_name.

(** [HFModelDownloader.find_existing_model] *)
Definition find_existing_model (reg : Registry) (owner model_name : string) : option Model :=
  List.find (same_repository owner model_name) (models reg).

Section Downloader.

Context (E : Env).

(** [urlparse(url).path] of the standard library. *)
Context (urlparse_path : string -> string).

(** [config.get('task')] of the object [json.load] reads from the content
    of [config.json]; [None] when the content does not parse, gives an
    empty object, or has no such key. *)
Context (config_task : string -> option string).

(** [HFModelDownloader.parse_model_id] *)
Definition parse_model_id (url_or_id : string) : Result (string * string) :=
  if starts_with "http" url_or_id then
    match split_on "/" (strip "/" (urlparse_path url_or_id)) with
    | owner :: model :: _ => Ret (owner, model)
    | _ => Raise ("Invalid Hugging Face URL: " +:+ url_or_id)
    end
  else
    match split_on "/" url_or_id with
    | [owner; model] => Ret (owner, model)
    | _ => Raise ("Invalid model ID format. Expected 'owner/model' got: " +:+ url_or_id)
    end.

(** The loop over [REQUIRED_FILES]: the world, [files_downloaded],
    [files_failed] and the lines printed. *)
Fixpoint fetch_required (w : World) (owner model_name model_dir : string)
    (files files_downloaded files_failed : list string) (lines : list RegLine)
    : World * list string * list string * list RegLine :=
  match files with
  | [] => (w, files_downloaded, files_failed, lines)
  | file_path :: rest =>
      if String.eqb file_path "config.json"
         && bool_decide (is_Some (fs w !! path_join model_dir "config.json")) then
        fetch_required w owner model_name model_dir rest
          (files_downloaded ++ [file_path]) files_failed lines
      else
        let '(w1, ok, printed) :=
          download_file E w (build_file_url owner model_name file_path None)
            (path_join model_dir file_path) false in
        if ok then
          fetch_required w1 owner model_name model_dir rest
            (files_downloaded ++ [file_path]) files_failed (lines ++ map RFile printed)
        else if mem file_path ["normalizer.json"] then
          fetch_required w1 owner model_name model_dir rest
            files_downloaded files_failed (lines ++ map RFile printed)
        else
          fetch_required w1 owner model_name model_dir rest
            files_downloaded (files_failed ++ [file_path]) (lines ++ map RFile printed)
  end.

(** The loop over [OPTIONAL_FILES]. *)
Fixpoint fetch_optional (w : World) (owner model_name model_dir : string)
    (files files_downloaded : list string) (lines : list RegLine)
    : World * list string * list RegLine :=
  match files with
  | [] => (w, files_downloaded, lines)
  | file_path :: rest =>
      let '(w1, ok, printed) :=
        download_file E w (build_file_url owner model_name file_path None)
          (path_join model_dir file_path) false in
      fetch_optional w1 owner model_name model_dir rest
        (if ok then files_downloaded ++ [file_path] else files_downloaded)
        (lines ++ map RFile printed)
  end.

(** A mutation of the record [find_existing_model] returned, which is
    shared with the registry. *)
Fixpoint update_existing (owner model_name : string) (f : Model -> Model) (ms : list Model)
    : list Model :=
  match ms with
  | [] => []
  | m :: rest =>
      if same_repository owner model_name m then f m :: rest
      else m :: update_existing owner model_name f rest
  end.

(** [model_entry['status']['downloaded'] = ...] and
    [model_entry['status']['download_date'] = ...] on a status that is there. *)
Definition set_download_status (ok : bool) (s : Status) : Status :=
  {| downloaded := Some ok; verified := verified s; download_date := Some (today E) |}.

(** The record built for a model that is not in the registry; of its
    descriptive keys, the ones of [Model] are kept. *)
Definition new_entry (owner model_name model_type : string)
    (files_downloaded files_failed : list string) : Model :=
  let ok := bool_decide (files_failed = []) in
  {| id := replace_char "." "-" model_name;
     name := _format_model_name model_name;
     type := model_type;
     source := {| platform := "huggingface"; author := owner; repository := model_name;
                  branch := None; release := None |};
     local_path := "huggingface/" +:+ owner +:+ "/" +:+ model_name;
     files_required := List.filter (fun f => mem f files_downloaded) REQUIRED_FILES;
     files_optional := List.filter (fun f => mem f files_downloaded) OPTIONAL_FILES;
     status := Some {| downloaded := Some ok; verified := Some ok;
                       download_date := Some (today E) |};
     size_mb := Some (_estimate_model_size model_name) |}.

Definition with_registry (reg : Registry) (w : World) (st : State) : State :=
  {| registry := reg; registry_file := registry_file st; world := w; out := out st |}.

(** [HFModelDownloader.download_model] from the comment
    [Determine output directory] to its end. *)
Definition download_and_register (st : State) (owner model_name : string)
    (existing_model : option Model) (include_optional : bool) (lines : list RegLine)
    : State * list RegLine * Result Model :=
  let model_dir :=
    path_join (path_join (path_join (models_dir E) "huggingface") owner) model_name in
  let lines := lines ++ [ROutputDirectory model_dir] in
  let config_path := path_join model_dir "config.json" in
  let '(w, config_ok, printed) :=
    download_file E (world st) (build_file_url owner model_name "config.json" None)
      config_path false in
  let lines := lines ++ map RFile printed in
  let task :=
    if config_ok then
      match fs w !! config_path with
      | Some content => config_task content
      | None => None
      end
    else None in
  let model_type := _detect_model_type model_name task in
  let '(w, files_downloaded, files_failed, lines) :=
    fetch_required w owner model_name model_dir REQUIRED_FILES [] []
      (lines ++ [RDownloadingRequired]) in
  let '(w, files_downloaded, lines) :=
    if include_optional
    then fetch_optional w owner model_name model_dir OPTIONAL_FILES files_downloaded
           (lines ++ [RDownloadingOptional])
    else (w, files_downloaded, lines) in
  let ok := bool_decide (files_failed = []) in
  let done := [RComplete (length files_downloaded) files_failed] in
  match existing_model with
  | Some existing =>
      let lines := lines ++ [RUpdatingExisting] in
      match status existing with
      | None => (with_registry (registry st) w st, lines, Raise "KeyError: 'status'")
      | Some s =>
          let entry := Sync.with_status (Some (set_download_status ok s)) existing in
          let reg :=
            Sync.with_models
              (update_existing owner model_name (fun _ => entry) (models (registry st)))
              (registry st) in
          (_save_registry E (_update_statistics (with_registry reg w st)),
           lines ++ done, Ret entry)
      end
  | None =>
      let entry := new_entry owner model_name model_type files_downloaded files_failed in
      let reg := Sync.with_models (models (registry st) ++ [entry]) (registry st) in
      (_save_registry E (_update_statistics (with_registry reg w st)),
       lines ++ [RAddedNew (replace_char "." "-" model_name)] ++ done, Ret entry)
  end.

(** [HFModelDownloader.download_model]: the state, the lines printed and
    the record returned. *)
Definition download_model (st : State) (model_id : string) (force include_optional : bool)
    : State * list RegLine * Result Model :=
  match parse_model_id model_id with
  | Raise e => (st, [], Raise e)
  | Ret (owner, model_name) =>
      let lines := [RProcessing (owner +:+ "/" +:+ model_name)] in
      let existing_model := find_existing_model (registry st) owner model_name in
      match existing_model with
      | Some existing =>
          if negb force && get_downloaded existing
          then (st, lines ++ [RAlreadyDownloaded], Ret existing)
          else download_and_register st owner model_name existing_model include_optional lines
      | None =>
          download_and_register st owner model_name existing_model include_optional lines
      end
  end.

End Downloader.

End Registration.

(** ** Words used to state the further properties *)

Module Derived.

(** The bytes of a response body: its chunks, one after the other. *)
Definition body_bytes (r : Response) : string :=
  foldr String.append EmptyString (body r).

(** A record differs from another at most in its [status]. *)
Definition same_but_status (m m' : Model) : Prop :=
  Sync.with_status (status m) m' = m.

(** The character [ch] occurs in [s]. *)
Fixpoint has_char (ch : ascii) (s : string) : bool :=
  match s with
  | EmptyString => false
  | String c rest => Ascii.eqb c ch || has_char ch rest
  end.

(** The first [k] characters of [s]. *)
Fixpoint str_take (k : nat) (s : string) : string :=
  match k, s with
  | S k', String c rest => String c (str_take k' rest)
  | _, _ => EmptyString
  end.

(** No capital letter of [s] follows a character other than a blank;
    [after_blank] says whether the start of [s] follows a blank. *)
Fixpoint word_case (after_blank : bool) (s : string) : bool :=
  match s with
  | EmptyString => true
  | String c rest =>
      (after_blank || negb (PyStr.is_upper c)) && word_case (Ascii.eqb c " ") rest
  end.

(** The words of a model name, capitalised and joined: the value
    [_format_model_name] has before its special cases. *)
Definition capitalised_words (model_name : string) : string :=
  PyStr.join " "
    (map PyStr.capitalize
       (PyStr.split_words EmptyString
          (PyStr.replace_char "_" " " (PyStr.replace_char "-" " " model_name)))).

(** The five model types the statistics count. *)
Definition model_types : list string := ["asr"; "wakeword"; "vad"; "tts"; "nlp"].

(** The three platforms the statistics count. *)
Definition source_platforms : list string := ["huggingface"; "github"; "local"].

(** The platforms the URL resolver knows. *)
Definition supported_platform (m : Model) : Prop :=
  platform (source m) = "huggingface" \/ platform (source m) = "github".

(** A relative path made of plain names: no component is empty, [.] or
    [..].  For such a path [pathlib] builds the path [Str.path_join]
    builds, and two of them that differ name different files. *)
Definition plain_path (p : string) : bool :=
  forallb (fun c => negb (String.eqb c EmptyString || String.eqb c "." || String.eqb c ".."))
    (PyStr.split_on "/" p).

(** The tasks of a run are for plain paths, each listed once: no two
    fetches of the pool have the same destination. *)
Definition separate_files (tasks : list Task) : Prop :=
  NoDup (fst <$> tasks) /\ Forall (fun t => plain_path (fst t) = true) tasks.

End Derived.

(** ** More concrete data for the examples *)

Module Fixtures2.

(** A record of the [local] platform that lists a file. *)
Definition local_files_model : Model :=
  {| id := "silero"; name := "Silero"; type := "vad";
     source := {| platform := "local"; author := "me"; repository := "silero";
                  branch := None; release := None |};
     local_path := "local/silero";
     files_required := ["silero_vad.onnx"]; files_optional := [];
     status := None; size_mb := None |}.


(** [urlparse(...).path] is not looked at for plain ids. *)
Definition plain_urlparse : string -> string := fun _ => EmptyString.

(** A configuration without a task. *)
Definition no_task : string -> option string := fun _ => None.

(** The registration of [Xenova/whisper-tiny] into an empty registry when
    the remote lacks [tokenizer.json]. *)
Definition failed_registration : State * list RegLine * Result Model :=
  Eval vm_compute in
    Registration.download_model Fixtures.env_tokenizer_404 plain_urlparse no_task
      (Fixtures.start [] ∅) "Xenova/whisper-tiny" false false.

Definition failed_registration_entry : Model :=
  match snd failed_registration with
  | Ret entry => entry
  | Raise _ => Fixtures.whisper_tiny None false
  end.

End Fixtures2.

(** * Properties *)

(** ** Source URL resolver *)

Section UrlResolver.

Import Str Sync_url AddNew_url.

Lemma str_app_cons (a : ascii) (s t : string) : String a s +:+ t = String a (s +:+ t).
Proof. reflexivity. Qed.

Lemma str_app_nil_r (s : string) : s +:+ EmptyString = s.
Proof. induction s as [|a s IH]; [reflexivity | now rewrite str_app_cons, IH]. Qed.

Lemma str_app_assoc (s t u : string) : (s +:+ t) +:+ u = s +:+ t +:+ u.
Proof. induction s as [|a s IH]; [reflexivity | now rewrite !str_app_cons, IH]. Qed.

Lemma str_app_snoc (s rest : string) (c : ascii) :
  (s +:+ String c EmptyString) +:+ rest = s +:+ String c rest.
Proof. induction s as [|a s IH]; [reflexivity | now rewrite !str_app_cons, IH]. Qed.

Lemma str_in_slash_cons (c : ascii) (rest : string) :
  str_in "/" (String c rest) = Ascii.eqb "/"%char c || str_in "/" rest.
Proof.
  change (str_in "/" (String c rest))
    with (if Ascii.eqb "/"%char c && true then true else str_in "/" rest).
  now destruct (Ascii.eqb "/"%char c).
Qed.

Lemma last_component_no_slash (p acc : string) :
  str_in "/" p = false -> last_component acc p = acc +:+ p.
Proof.
  revert acc. induction p as [|c rest IH]; intros acc Hno.
  - simpl. now rewrite str_app_nil_r.
  - rewrite str_in_slash_cons in Hno. apply orb_false_iff in Hno as [Hc Hrest].
    simpl. rewrite Ascii.eqb_sym, Hc, IH by exact Hrest. apply str_app_snoc.
Qed.

(** A path without ["/"] is its own base name. *)
Lemma path_name_flat (p : string) : str_in "/" p = false -> path_name p = p.
Proof. intros H. unfold path_name. now rewrite last_component_no_slash. Qed.

(** C3, as stated, fails: a Hugging Face record whose [branch] is [dev]
    is resolved under [resolve/main], not under [resolve/dev]. *)
Lemma hf_branch_field_ignored :
  _get_download_url (Fixtures.whisper_tiny (Some "dev") false) "config.json"
    = Some "https://huggingface.co/Xenova/whisper-tiny/resolve/main/config.json"
  /\ UrlSpec.huggingface_url (Fixtures.whisper_tiny (Some "dev") false) "config.json"
    = "https://huggingface.co/Xenova/whisper-tiny/resolve/dev/config.json"
  /\ _get_download_url (Fixtures.whisper_tiny (Some "dev") false) "config.json"
    <> Some (UrlSpec.huggingface_url (Fixtures.whisper_tiny (Some "dev") false) "config.json").
Proof. repeat split. vm_compute. discriminate. Qed.

(** C3, amended: for a record whose platform is [huggingface], the sync
    resolver gives [https://huggingface.co/<author>/<repository>/resolve/main/<f>]
    whatever the record's [branch] says, which is the URL of the
    specification when the branch is unset or [main]; [build_file_url] of
    the registration tool puts its [branch] argument in the URL, [main]
    when it is not given. *)
Theorem hf_url_resolves_under_main (m : Model) (f : string) :
  platform (source m) = "huggingface" ->
  _get_download_url m f
    = Some ("https://huggingface.co/" +:+ author (source m) +:+ "/" +:+ repository (source m)
              +:+ "/resolve/main/" +:+ f)
  /\ (default "main" (branch (source m)) = "main" ->
      _get_download_url m f = Some (UrlSpec.huggingface_url m f))
  /\ build_file_url (author (source m)) (repository (source m)) f (branch (source m))
     = UrlSpec.huggingface_url m f.
Proof.
  intros Hp. unfold _get_download_url, UrlSpec.huggingface_url, build_file_url.
  rewrite Hp. simpl. repeat split.
  - now rewrite !str_app_assoc.
  - intros ->. now rewrite !str_app_assoc.
Qed.

Lemma hf_url_resolves_under_main_witness :
  _get_download_url (Fixtures.whisper_tiny None false) "onnx/encoder_model.onnx"
    = Some "https://huggingface.co/Xenova/whisper-tiny/resolve/main/onnx/encoder_model.onnx".
Proof.
  exact (proj1 (hf_url_resolves_under_main (Fixtures.whisper_tiny None false)
                  "onnx/encoder_model.onnx" eq_refl)).
Defined.

(** C9, as stated, fails: for the release-distributed family the whole
    relative path goes into the release URL, not the base name. *)
Lemma release_url_keeps_directories :
  _get_download_url (Fixtures.github_model "openWakeWord" (Some "v0.5.1") []) "onnx/hey_jarvis.onnx"
    = Some "https://github.com/dscripka/openWakeWord/releases/download/v0.5.1/onnx/hey_jarvis.onnx"
  /\ UrlSpec.release_asset_url (Fixtures.github_model "openWakeWord" (Some "v0.5.1") [])
       "v0.5.1" "onnx/hey_jarvis.onnx"
    = "https://github.com/dscripka/openWakeWord/releases/download/v0.5.1/hey_jarvis.onnx"
  /\ _get_download_url (Fixtures.github_model "openWakeWord" (Some "v0.5.1") []) "onnx/hey_jarvis.onnx"
    <> Some (UrlSpec.release_asset_url (Fixtures.github_model "openWakeWord" (Some "v0.5.1") [])
               "v0.5.1" "onnx/hey_jarvis.onnx").
Proof. repeat split. vm_compute. discriminate. Qed.

(** C9, amended: for a record whose platform is [github], a repository
    other than [openWakeWord] resolves [f] to
    [https://raw.githubusercontent.com/<author>/<repository>/<branch>/<f>]
    (branch [main] when unset); [openWakeWord] resolves, when a release tag
    is set and is not [latest], to
    [https://github.com/<author>/<repository>/releases/download/<tag>/<f>]
    with the relative path [f] as it is, which is the base name exactly
    when [f] has no directory part, and otherwise to
    [https://github.com/<author>/<repository>/raw/<branch>/models/<f>]. *)
Theorem github_url_cases (m : Model) (f : string) :
  platform (source m) = "github" ->
  (repository (source m) <> "openWakeWord" ->
     _get_download_url m f
       = Some ("https://raw.githubusercontent.com/" +:+ author (source m) +:+ "/"
                 +:+ repository (source m) +:+ "/" +:+ default "main" (branch (source m))
                 +:+ "/" +:+ f))
  /\ (forall tag, repository (source m) = "openWakeWord" ->
        release (source m) = Some tag -> tag <> "latest" ->
        _get_download_url m f
          = Some ("https://github.com/" +:+ author (source m) +:+ "/" +:+ repository (source m)
                    +:+ "/releases/download/" +:+ tag +:+ "/" +:+ f)
        /\ (str_in "/" f = false ->
            _get_download_url m f = Some (UrlSpec.release_asset_url m tag f)))
  /\ (repository (source m) = "openWakeWord" ->
        release (source m) = None \/ release (source m) = Some "latest" ->
        _get_download_url m f
          = Some ("https://github.com/" +:+ author (source m) +:+ "/" +:+ repository (source m)
                    +:+ "/raw/" +:+ default "main" (branch (source m)) +:+ "/models/" +:+ f)).
Proof.
  intros Hp. unfold _get_download_url. rewrite Hp. simpl.
  split; [|split].
  - intros Hrepo. destruct (String.eqb_spec (repository (source m)) "openWakeWord"); [contradiction|].
    reflexivity.
  - intros tag Hrepo Hrel Htag. rewrite Hrepo, Hrel. simpl.
    destruct (String.eqb_spec tag "latest"); [contradiction|]. simpl.
    split; [reflexivity|].
    intros Hflat. unfold UrlSpec.release_asset_url. rewrite Hrepo, path_name_flat by exact Hflat.
    reflexivity.
  - intros Hrepo Hrel. rewrite Hrepo. simpl.
    destruct Hrel as [-> | ->]; reflexivity.
Qed.

Lemma github_url_cases_witness :
  _get_download_url (Fixtures.github_model "silero-vad" None []) "files/silero_vad.onnx"
    = Some "https://raw.githubusercontent.com/dscripka/silero-vad/main/files/silero_vad.onnx"
  /\ _get_download_url (Fixtures.github_model "openWakeWord" (Some "v0.5.1") []) "hey_jarvis.onnx"
    = Some "https://github.com/dscripka/openWakeWord/releases/download/v0.5.1/hey_jarvis.onnx"
  /\ _get_download_url (Fixtures.github_model "openWakeWord" None []) "hey_jarvis.onnx"
    = Some "https://github.com/dscripka/openWakeWord/raw/main/models/hey_jarvis.onnx".
Proof.
  split; [|split].
  - apply (proj1 (github_url_cases (Fixtures.github_model "silero-vad" None [])
                    "files/silero_vad.onnx" eq_refl)).
    vm_compute. discriminate.
  - refine (proj1 (proj1 (proj2 (github_url_cases
                                    (Fixtures.github_model "openWakeWord" (Some "v0.5.1") [])
                                    "hey_jarvis.onnx" eq_refl)) "v0.5.1" eq_refl eq_refl _)).
    vm_compute. discriminate.
  - apply (proj2 (proj2 (github_url_cases (Fixtures.github_model "openWakeWord" None [])
                           "hey_jarvis.onnx" eq_refl)) eq_refl).
    left. reflexivity.
Defined.

End UrlResolver.

(** ** File fetchers *)

Section Fetchers.

Import Str Http.

Context (E : Env).

Lemma unlink_removes (w : World) (dest : string) :
  fs (unlink_if_exists w dest) !! dest = None.
Proof.
  unfold unlink_if_exists. destruct (fs w !! dest) eqn:Hd; simpl.
  - apply lookup_delete_eq.
  - exact Hd.
Qed.

Lemma unlink_other (w : World) (dest p : string) :
  p <> dest -> fs (unlink_if_exists w dest) !! p = fs w !! p.
Proof.
  intros Hne. unfold unlink_if_exists. destruct (fs w !! dest); simpl; [|reflexivity].
  now apply lookup_delete_ne.
Qed.

Lemma unlink_requests (w : World) (dest : string) :
  requests (unlink_if_exists w dest) = requests w.
Proof. unfold unlink_if_exists. now destruct (fs w !! dest). Qed.

Lemma unlink_absent (w : World) (dest : string) :
  fs w !! dest = None -> unlink_if_exists w dest = w.
Proof. intros H. unfold unlink_if_exists. now rewrite H. Qed.

Lemma get_world (w : World) (url : string) :
  fst (get E w url)
  = {| fs := fs w;
       requests := requests w ++ [{| req_url := url; req_authorization := auth_header E url |}] |}.
Proof.
  unfold get. destruct (server E _ _) as [e|r]; [reflexivity|].
  now destruct (raise_for_status r).
Qed.

Lemma save_body_other (skip : bool) (w : World) (dest p : string) (r : Response) :
  p <> dest -> fs (fst (save_body E skip w dest r)) !! p = fs w !! p.
Proof.
  intros Hne. unfold save_body. destruct (open_error E dest); [reflexivity|].
  destruct (write_chunks _ _ _ _ _ _ _) as [content ex]. simpl.
  now apply lookup_insert_ne.
Qed.

Lemma save_body_requests (skip : bool) (w : World) (dest : string) (r : Response) :
  requests (fst (save_body E skip w dest r)) = requests w.
Proof.
  unfold save_body. destruct (open_error E dest); [reflexivity|].
  now destruct (write_chunks _ _ _ _ _ _ _).
Qed.

(** The token goes out exactly when it is set and the URL contains the
    text [huggingface.co]. *)
Lemma auth_header_iff (url : string) :
  is_Some (auth_header E url)
  <-> truthy (hf_token E) = true /\ str_in "huggingface.co" url = true.
Proof.
  unfold auth_header.
  destruct (truthy (hf_token E)), (str_in "huggingface.co" url); simpl;
    split; intros H; try (destruct H as [? H]; discriminate); try (destruct H; discriminate); eauto.
Qed.

(** An existing destination ends the sync fetch at once. *)
Lemma sync_fetch_existing (w : World) (url dest content : string) :
  fs w !! dest = Some content ->
  Sync._download_file E w url dest = (w, (true, "Already exists: " +:+ path_name dest)).
Proof. intros H. unfold Sync._download_file. now rewrite H. Qed.

(** The world a sync fetch leaves, in the cases of its body. *)
Lemma sync_fetch_cases (w : World) (url dest : string) :
  (exists content, fs w !! dest = Some content /\ fst (Sync._download_file E w url dest) = w)
  \/ (fs w !! dest = None
      /\ requests (fst (Sync._download_file E w url dest))
         = requests w ++ [{| req_url := url; req_authorization := auth_header E url |}]
      /\ (forall p, p <> dest -> fs (fst (Sync._download_file E w url dest)) !! p = fs w !! p)
      /\ (fst (snd (Sync._download_file E w url dest)) = false ->
          fs (fst (Sync._download_file E w url dest)) !! dest = None)).
Proof.
  unfold Sync._download_file. destruct (fs w !! dest) as [content|] eqn:Hd.
  - left. exists content. split; reflexivity.
  - right. split; [reflexivity|].
    pose proof (get_world w url) as Hg.
    destruct (get E w url) as [w1 got]. simpl in Hg. subst w1.
    set (w1 := {| fs := fs w; requests := _ |}).
    assert (Hstep : forall (w2 : World) (raised : option Exc),
               requests w2 = requests w1 ->
               (forall p, p <> dest -> fs w2 !! p = fs w !! p) ->
               let res := match raised with
                          | None => (w2, (true, "Downloaded: " +:+ path_name dest))
                          | Some (HTTPError _ e) | Some (RequestException e) =>
                              (unlink_if_exists w2 dest,
                               (false, "Failed to download " +:+ path_name dest +:+ ": " +:+ e))
                          | Some (OtherException e) =>
                              (unlink_if_exists w2 dest,
                               (false, "Error downloading " +:+ path_name dest +:+ ": " +:+ e))
                          end in
               requests (fst res) = requests w1
               /\ (forall p, p <> dest -> fs (fst res) !! p = fs w !! p)
               /\ (fst (snd res) = false -> fs (fst res) !! dest = None)).
    { intros w2 raised Hr Hf. destruct raised as [[c e|e|e]|]; simpl;
        rewrite ?unlink_requests; repeat split; auto using unlink_removes;
        try (intros p Hp; rewrite unlink_other by exact Hp; auto);
        try discriminate. }
    destruct got as [ex|r].
    + apply (Hstep w1 (Some ex)); [reflexivity|]. intros p _. reflexivity.
    + destruct (total_size r) as [ex|n].
      * apply (Hstep w1 (Some ex)); [reflexivity|]. intros p _. reflexivity.
      * pose proof (save_body_requests true w1 dest r) as Hsr.
        pose proof (fun p => save_body_other true w1 dest p r) as Hso.
        destruct (save_body E true w1 dest r) as [w2 raised]. simpl in Hsr, Hso.
        apply (Hstep w2 raised); [exact Hsr|]. intros p Hp. now rewrite Hso.
Qed.

(** When the sync fetch fails, nothing is left at the destination. *)
Lemma sync_failed_fetch_leaves_no_file (w w' : World) (url dest message : string) :
  Sync._download_file E w url dest = (w', (false, message)) ->
  fs w' !! dest = None.
Proof.
  intros Hrun. destruct (sync_fetch_cases w url dest) as [[c [Hc _]]|[_ [_ [_ Hfail]]]].
  - rewrite (sync_fetch_existing w url dest c Hc) in Hrun. discriminate.
  - rewrite Hrun in Hfail. now apply Hfail.
Qed.

(** A sync fetch keeps every file that was there before it. *)
Lemma sync_fetch_preserves (w : World) (url dest p content : string) :
  fs w !! p = Some content ->
  fs (fst (Sync._download_file E w url dest)) !! p = Some content.
Proof.
  intros Hp. destruct (sync_fetch_cases w url dest) as [[c [_ ->]]|[Hd [_ [Hother _]]]].
  - exact Hp.
  - rewrite Hother; [exact Hp|]. intros ->. congruence.
Qed.

End Fetchers.

Section FetcherClaims.

Import Str Http.

(** C4 at a failing input: the registration tool's [download_file] gets a
    200 response whose stream breaks after the first chunk; it returns
    [False] and the truncated file stays at the destination. *)
Lemma add_new_failed_fetch_leaves_partial_file :
  let run := AddNew.download_file Fixtures.env_broken_stream
               {| fs := ∅; requests := [] |}
               Fixtures.tokenizer_url Fixtures.tokenizer_path false in
  snd (fst run) = false
  /\ fs (fst (fst run)) !! Fixtures.tokenizer_path = Some "{ trunc"
  /\ snd run = [AError "tokenizer.json" "Connection broken: IncompleteRead"].
Proof. vm_compute. repeat split. Qed.

(** The same reply through the sync tool's [_download_file]: the partial
    file is removed. *)
Lemma sync_same_failure_is_cleaned :
  let run := Sync._download_file Fixtures.env_broken_stream
               {| fs := ∅; requests := [] |}
               Fixtures.tokenizer_url Fixtures.tokenizer_path in
  fst (snd run) = false /\ fs (fst run) !! Fixtures.tokenizer_path = None.
Proof. vm_compute. repeat split. Qed.

(** C6 at a failing input: a GitHub record whose repository name contains
    the text [huggingface.co]; the request goes to
    [raw.githubusercontent.com] and carries the Hugging Face token. *)
Lemma token_sent_to_github_host :
  let st' := fst (Sync.download_model Fixtures.env_ok
                    (Fixtures.start [Fixtures.github_model "huggingface.co-mirror" None ["model.onnx"]] ∅)
                    "hey-jarvis" false false []) in
  requests (world st')
    = [{| req_url := "https://raw.githubusercontent.com/dscripka/huggingface.co-mirror/main/model.onnx";
          req_authorization := Some "Bearer hf_secret" |}]
  /\ SpecWords.url_host
       "https://raw.githubusercontent.com/dscripka/huggingface.co-mirror/main/model.onnx"
     = "raw.githubusercontent.com".
Proof. vm_compute. repeat split. Qed.

(** C7, as stated, fails: the registration tool's [download_file] returns
    the same value, [False], for a 404 and for a 500, and with the
    progress bar on it prints nothing for the 404; the sync tool's flag is
    [False] for both as well. *)
Lemma not_found_returns_like_other_failures :
  let w := {| fs := ∅; requests := [] |} in
  let on status why :=
    AddNew.download_file (Fixtures.env_status status why) w
      Fixtures.tokenizer_url Fixtures.tokenizer_path true in
  let sync_on status why :=
    Sync._download_file (Fixtures.env_status status why) w
      Fixtures.tokenizer_url Fixtures.tokenizer_path in
  snd (fst (on 404%Z "Not Found")) = snd (fst (on 500%Z "Internal Server Error"))
  /\ snd (fst (on 404%Z "Not Found")) = false
  /\ snd (on 404%Z "Not Found") = []
  /\ fst (snd (sync_on 404%Z "Not Found")) = fst (snd (sync_on 500%Z "Internal Server Error")).
Proof. vm_compute. repeat split. Qed.

(** Outside 400..599 [raise_for_status] raises nothing: a 1xx or 3xx
    response is handled like a 200. *)
Lemma other_statuses_do_not_raise (r : Response) :
  (status_code r < 400 \/ 600 <= status_code r)%Z -> raise_for_status r = None.
Proof.
  intros Hcode. unfold raise_for_status.
  destruct (Z.leb_spec 400 (status_code r)), (Z.ltb_spec (status_code r) 500),
    (Z.leb_spec 500 (status_code r)), (Z.ltb_spec (status_code r) 600);
    simpl; try reflexivity; lia.
Qed.

Lemma not_modified_counts_as_success :
  snd (Sync._download_file (Fixtures.env_status 304 "Not Modified")
         {| fs := ∅; requests := [] |} Fixtures.tokenizer_url Fixtures.tokenizer_path)
  = (true, "Downloaded: tokenizer.json").
Proof. vm_compute. reflexivity. Qed.

(** The message of the sync fetcher names the status: for a 404 and for
    a 500 the flag is the same and the messages differ. *)
Lemma sync_message_names_the_status :
  let w := {| fs := ∅; requests := [] |} in
  let sync_on status why :=
    snd (Sync._download_file (Fixtures.env_status status why) w
           Fixtures.tokenizer_url Fixtures.tokenizer_path) in
  sync_on 404%Z "Not Found"
    = (false, "Failed to download tokenizer.json: 404 Client Error: Not Found for url: "
                +:+ Fixtures.tokenizer_url)
  /\ sync_on 500%Z "Internal Server Error"
    = (false, "Failed to download tokenizer.json: 500 Server Error: Internal Server Error for url: "
                +:+ Fixtures.tokenizer_url)
  /\ snd (sync_on 404%Z "Not Found") <> snd (sync_on 500%Z "Internal Server Error").
Proof. vm_compute. repeat split. discriminate. Qed.

(** C7, amended: when the response has a status in 400..599, both
    fetchers report a failure and write nothing, and neither has a
    [not found] outcome of its own.  The registration tool's
    [download_file] returns [False] for a 404 as for every other such
    status, so its caller cannot tell them apart; only what it prints
    differs: [not found] for a 404 (and nothing at all when the progress
    bar is on), [HTTP <status>] for the others.  The sync tool's
    [_download_file] returns the flag [False] with the message
    [Failed to download <name>: <status> Client Error: <reason> for url: <url of the response>]
    ([Server Error] from 500 on): the same flag and the same form of
    message for a 404 as for the others, where a 404 shows only as the
    number in the text of the error. *)
Theorem http_error_outcomes (E : Env) (w : World) (url dest : string)
    (show_progress : bool) (r : Response) :
  let rq := {| req_url := url; req_authorization := auth_header E url |} in
  let w1 := {| fs := fs w; requests := requests w ++ [rq] |} in
  server E (length (requests w)) rq = Got r ->
  (400 <= status_code r < 600)%Z ->
  AddNew.download_file E w url dest show_progress
    = (w1, false,
       if (status_code r =? 404)%Z
       then (if negb show_progress then [ANotFound (path_name dest)] else [])
       else [AHttp (path_name dest) (status_code r)])
  /\ (fs w !! dest = None ->
      Sync._download_file E w url dest
        = (w1, (false,
                "Failed to download " +:+ path_name dest +:+ ": "
                  +:+ pretty (status_code r)
                  +:+ (if (status_code r <? 500)%Z then " Client Error: " else " Server Error: ")
                  +:+ reason r +:+ " for url: " +:+ response_url r))).
Proof.
  intros rq w1 Hsrv Hcode.
  assert (Hget : get E w url
                 = (w1, inl (HTTPError (status_code r) (http_error_text r)))).
  { unfold get. fold rq. rewrite Hsrv. unfold raise_for_status, http_error_text.
    destruct (Z.ltb_spec (status_code r) 500).
    - replace (400 <=? status_code r)%Z with true by (symmetry; apply Z.leb_le; lia).
      reflexivity.
    - replace (400 <=? status_code r)%Z with true by (symmetry; apply Z.leb_le; lia).
      replace (500 <=? status_code r)%Z with true by (symmetry; apply Z.leb_le; lia).
      replace (status_code r <? 600)%Z with true by (symmetry; apply Z.ltb_lt; lia).
      reflexivity. }
  split.
  - unfold AddNew.download_file. rewrite Hget.
    now destruct (status_code r =? 404)%Z.
  - intros Hd. unfold Sync._download_file. rewrite Hd, Hget.
    rewrite unlink_absent by exact Hd. reflexivity.
Qed.

Lemma http_error_outcomes_witness :
  AddNew.download_file (Fixtures.env_status 403 "Forbidden") {| fs := ∅; requests := [] |}
    Fixtures.tokenizer_url Fixtures.tokenizer_path false
  = ({| fs := ∅;
        requests := [{| req_url := Fixtures.tokenizer_url; req_authorization := None |}] |},
     false, [AHttp "tokenizer.json" 403]).
Proof.
  refine (proj1 (http_error_outcomes (Fixtures.env_status 403 "Forbidden")
                   {| fs := ∅; requests := [] |}
                   Fixtures.tokenizer_url Fixtures.tokenizer_path false
                   (Fixtures.error_response Fixtures.tokenizer_url 403 "Forbidden") eq_refl _)).
  simpl. lia.
Defined.

End FetcherClaims.

(** ** Download orchestrator *)

Section Orchestrator.

Import Str Http Sync_url Sync SpecWords.

Context (E : Env).

(** Whatever the scheduler does, every future is yielded once. *)
Lemma as_completed_perm {A} (futures : list A) (order : list nat) :
  as_completed order futures (length futures) ≡ₚ futures.
Proof.
  remember (length futures) as n eqn:Hn.
  revert futures order Hn. induction n as [|n IH]; intros futures order Hn.
  - destruct futures; [reflexivity | discriminate].
  - destruct futures as [|x rest]; [discriminate|].
    cbn [as_completed]. set (l := x :: rest) in *.
    set (k := hd 0 order `mod` length l).
    assert (Hk : k < length l).
    { apply Nat.mod_upper_bound. rewrite <- Hn. discriminate. }
    destruct (lookup_lt_is_Some_2 l k Hk) as [y Hy].
    rewrite (nth_lookup_Some l k x y Hy).
    rewrite IH.
    + rewrite <- (take_drop_middle l k y Hy) at 3. apply Permutation_middle.
    + rewrite length_app, length_take_le, length_drop by lia. lia.
Qed.

Lemma failed_required_perm (l l' : list Outcome) :
  l ≡ₚ l' -> failed_required l ≡ₚ failed_required l'.
Proof. intros H. unfold failed_required. now rewrite H. Qed.

Lemma failed_required_nil_iff (l : list Outcome) :
  failed_required l = []
  <-> forall o, o ∈ l -> snd (fst o) = true -> fst (snd o) = true.
Proof.
  unfold failed_required. split.
  - intros H o Ho Hreq. apply fmap_nil_inv in H.
    destruct (fst (snd o)) eqn:Hs; [reflexivity|].
    exfalso. eapply (filter_nil_not_elem_of required_failure); [exact H| |exact Ho].
    split; assumption.
  - intros H. destruct (filter required_failure l) as [|o rest] eqn:Hf; [reflexivity|].
    assert (Ho : o ∈ filter required_failure l) by (rewrite Hf; left).
    apply list_elem_of_filter in Ho as [Hrf Hin]. destruct Hrf as [Hreq Hfail].
    exfalso. specialize (H o Hin Hreq). destruct o as [[? ?] [? ?]]; simpl in *; congruence.
Qed.

(** The loop over the completed futures, in closed form. *)
Lemma process_completed_spec (done : list Outcome) (n : nat)
    (failed : list string) (lines : list Line) :
  process_completed done n failed lines
  = (n + successes done, failed ++ failed_required done, lines ++ (outcome_line <$> done)).
Proof.
  revert n failed lines. induction done as [|[[file_path is_required] [success message]] rest IH];
    intros n failed lines.
  - cbn. now rewrite Nat.add_0_r, !app_nil_r.
  - cbn [process_completed]. unfold successes, failed_required in *.
    destruct success.
    + rewrite IH. rewrite filter_cons_True by reflexivity.
      rewrite (filter_cons_False required_failure) by (intros [_ ?]; discriminate).
      cbn. rewrite <- app_assoc, Nat.add_succ_r. reflexivity.
    + rewrite IH. rewrite filter_cons_False by discriminate.
      destruct is_required.
      * rewrite (filter_cons_True required_failure) by (split; reflexivity).
        cbn. now rewrite <- !app_assoc.
      * rewrite (filter_cons_False required_failure) by (intros [? _]; discriminate).
        cbn. now rewrite <- !app_assoc.
Qed.

(** Submission keeps every file that was there. *)
Lemma submit_all_preserves (model : Model) (lp : string) (tasks : list Task)
    (w : World) (p content : string) :
  fs w !! p = Some content ->
  fs (fst (submit_all E w model lp tasks)) !! p = Some content.
Proof.
  revert w. induction tasks as [|[file_path is_required] rest IH]; intros w Hp; [exact Hp|].
  cbn [submit_all]. destruct (_get_download_url model file_path) as [url|]; [|exact Hp].
  pose proof (sync_fetch_preserves E w url (path_join lp file_path) p content Hp) as H1.
  destruct (_download_file E w url (path_join lp file_path)) as [w1 res]. simpl in H1.
  specialize (IH w1 H1).
  destruct (submit_all E w1 model lp rest) as [w2 more]. exact IH.
Qed.

(** Every request of a submission is for a task whose destination was
    missing when the submission began. *)
Lemma submit_all_requests (model : Model) (lp : string) (tasks : list Task)
    (w0 w : World) (rq : Request) :
  (forall p, is_Some (fs w0 !! p) -> is_Some (fs w !! p)) ->
  rq ∈ requests (fst (submit_all E w model lp tasks)) ->
  rq ∈ requests w
  \/ exists task, task ∈ tasks
       /\ _get_download_url model (fst task) = Some (req_url rq)
       /\ fs w0 !! path_join lp (fst task) = None.
Proof.
  revert w. induction tasks as [|[file_path is_required] rest IH]; intros w Hmono Hin;
    [left; exact Hin|].
  cbn [submit_all] in Hin.
  destruct (_get_download_url model file_path) as [url|] eqn:Hurl; [|left; exact Hin].
  pose proof (sync_fetch_cases E w url (path_join lp file_path)) as Hcases.
  pose proof (fun p c => sync_fetch_preserves E w url (path_join lp file_path) p c) as Hkeep.
  destruct (_download_file E w url (path_join lp file_path)) as [w1 res]. simpl in Hcases, Hkeep.
  assert (Hmono1 : forall p, is_Some (fs w0 !! p) -> is_Some (fs w1 !! p)).
  { intros p Hp0. destruct (Hmono p Hp0) as [c Hc]. exists c. now apply Hkeep. }
  specialize (IH w1 Hmono1).
  destruct (submit_all E w1 model lp rest) as [w2 more]. simpl in Hin, IH.
  destruct (IH Hin) as [Hold | [task [Ht [Hu Hf]]]].
  - destruct Hcases as [[c [_ ->]] | [Hd [Hreq _]]]; [left; exact Hold|].
    rewrite Hreq in Hold. apply elem_of_app in Hold as [Hold | Hnew]; [left; exact Hold|].
    apply list_elem_of_singleton in Hnew. subst rq. right.
    exists (file_path, is_required). split; [left|]. split; [exact Hurl|].
    simpl. destruct (fs w0 !! path_join lp file_path) eqn:H0; [|reflexivity].
    destruct (Hmono (path_join lp file_path)) as [c Hc]; [eauto|]. congruence.
  - right. exists task. split; [right; exact Ht|]. split; assumption.
Qed.

(** The outcomes come one per task, in submission order. *)
Lemma submit_all_tasks (model : Model) (lp : string) (tasks : list Task)
    (w w' : World) (outcomes : list Outcome) :
  submit_all E w model lp tasks = (w', Some outcomes) -> fst <$> outcomes = tasks.
Proof.
  revert w w' outcomes. induction tasks as [|[file_path is_required] rest IH];
    intros w w' outcomes Hrun.
  - cbn in Hrun. now inversion Hrun.
  - cbn [submit_all] in Hrun.
    destruct (_get_download_url model file_path) as [url|]; [|discriminate].
    destruct (_download_file E w url (path_join lp file_path)) as [w1 res].
    destruct (submit_all E w1 model lp rest) as [w2 [more|]] eqn:Hrest; [|discriminate].
    inversion Hrun; subst. cbn. f_equal. eapply IH. exact Hrest.
Qed.

End Orchestrator.

Section Runs.

Import Str Http Sync_url Sync SpecWords Closed.

Context (E : Env).

(** The five ways a call of [download_model] ends. *)
Lemma download_model_cases (st : State) (model_id : string) (force include_optional : bool)
    (order : list nat) :
  let run := download_model E st model_id force include_optional order in
  (find_model (registry st) model_id = None
   /\ run = (print [LModelNotFound model_id] st, Ret false))
  \/ exists model, find_model (registry st) model_id = Some model /\
       let st1 := print [LDownloadingModel (name model) (platform (source model)) (type model)] st in
       let tasks := files_to_download model include_optional in
       let lp := path_join (models_dir E) (local_path model) in
       ((negb force && get_downloaded model = true
         /\ run = (print [LAlreadyDownloaded] st1, Ret true))
        \/ (negb force && get_downloaded model = false /\ tasks = []
            /\ run = (print [LNoFiles model_id] st1, Ret false))
        \/ (negb force && get_downloaded model = false /\ tasks <> []
            /\ exists w, submit_all E (world st) model lp tasks = (w, None)
                 /\ run = (with_world w (print [LDownloadingFiles (length tasks)] st1),
                           Raise ("Unsupported platform: " +:+ platform (source model))))
        \/ (negb force && get_downloaded model = false /\ tasks <> []
            /\ exists w outcomes, submit_all E (world st) model lp tasks = (w, Some outcomes)
                 /\ run = settled E st model model_id include_optional order w outcomes)).
Proof.
  unfold download_model.
  destruct (find_model (registry st) model_id) as [model|] eqn:Hfind; [|left; split; reflexivity].
  right. exists model. split; [reflexivity|]. cbv zeta.
  destruct (negb force && get_downloaded model) eqn:Hsc.
  { left. split; reflexivity. }
  right.
  destruct (files_to_download model include_optional) as [|t rest] eqn:Htasks.
  { left. repeat split. }
  right.
  change (world (print [LDownloadingFiles (length (t :: rest))]
                   (print [LDownloadingModel (name model) (platform (source model)) (type model)] st)))
    with (world st).
  destruct (submit_all E (world st) model _ (t :: rest)) as [w [outcomes|]] eqn:Hsub.
  - right. split; [reflexivity|]. split; [discriminate|].
    exists w, outcomes. split; [reflexivity|].
    rewrite process_completed_spec. unfold settled. rewrite Htasks. cbn [app].
    destruct (failed_required _); reflexivity.
  - left. split; [reflexivity|]. split; [discriminate|]. exists w. split; reflexivity.
Qed.

Lemma find_update_model (f : Model -> Model) (model_id : string) (ms : list Model) (m : Model) :
  (forall x, id (f x) = id x) ->
  List.find (fun x => String.eqb (id x) model_id) ms = Some m ->
  List.find (fun x => String.eqb (id x) model_id) (update_model model_id f ms) = Some (f m).
Proof.
  intros Hid. induction ms as [|x rest IH]; [discriminate|]. cbn.
  destruct (String.eqb (id x) model_id) eqn:Hx.
  - intros [= ->]. cbn. now rewrite Hid, Hx.
  - intros Hrest. cbn. rewrite Hx. now apply IH.
Qed.

Lemma update_model_keeps_flags (f : Model -> Model) (model_id : string) (ms : list Model) :
  (forall x, get_downloaded (f x) = get_downloaded x) ->
  get_downloaded <$> update_model model_id f ms = get_downloaded <$> ms.
Proof.
  intros Hf. induction ms as [|x rest IH]; [reflexivity|]. cbn.
  destruct (String.eqb (id x) model_id); cbn; [now rewrite Hf | now rewrite IH].
Qed.

Lemma ensure_status_flag (m : Model) : get_downloaded (ensure_status m) = get_downloaded m.
Proof.
  unfold ensure_status, get_downloaded.
  destruct (status m) eqn:Hs; cbn; rewrite ?Hs; reflexivity.
Qed.

Lemma ensure_status_id (m : Model) : id (ensure_status m) = id m.
Proof. unfold ensure_status. now destruct (status m). Qed.

(** A run that returns [True] leaves the model marked as downloaded. *)
Lemma successful_run_marks (st st' : State) (model_id : string) (force include_optional : bool)
    (order : list nat) :
  download_model E st model_id force include_optional order = (st', Ret true) ->
  exists m, find_model (registry st') model_id = Some m /\ get_downloaded m = true.
Proof.
  intros Hrun.
  destruct (download_model_cases st model_id force include_optional order)
    as [[_ H]|[model [Hfind [[Hsc H]|[[_ [_ H]]|[[_ [_ [w [_ H]]]]|[_ [_ [w [outs [_ H]]]]]]]]]]];
    cbv zeta in H; rewrite Hrun in H; try discriminate.
  - inversion H; subst. exists model. split; [exact Hfind|].
    now apply andb_true_iff in Hsc as [_ ?].
  - unfold settled in H. destruct (failed_required _); [|discriminate].
    inversion H; subst. exists (mark_downloaded E (ensure_status model)). split; [|reflexivity].
    unfold find_model. cbn.
    apply (find_update_model (mark_downloaded E)); [reflexivity|].
    apply (find_update_model ensure_status); [apply ensure_status_id|exact Hfind].
Qed.

End Runs.

Section OrchestratorClaims.

Import Str Http Sync_url Sync SpecWords Closed.

(** C2: for a run that gets as far as fetching (the model is known, the
    short-circuit does not apply, the task list is not empty), with any
    outcomes of the fetches and any order of completion: the run returns
    [True] exactly when no required file failed, that is, whatever the
    optional files did; otherwise it returns [False] and its last line
    reports the failed required files. *)
Theorem model_outcome_rule (E : Env) (st : State) (model_id : string)
    (force include_optional : bool) (order : list nat)
    (model : Model) (w : World) (outcomes : list Outcome) :
  find_model (registry st) model_id = Some model ->
  negb force && get_downloaded model = false ->
  files_to_download model include_optional <> [] ->
  submit_all E (world st) model (path_join (models_dir E) (local_path model))
    (files_to_download model include_optional) = (w, Some outcomes) ->
  let run := download_model E st model_id force include_optional order in
  fst <$> outcomes = files_to_download model include_optional
  /\ (snd run = Ret true <-> failed_required outcomes = [])
  /\ (snd run = Ret true
      <-> forall o : Outcome, o ∈ outcomes -> snd (fst o) = true -> fst (snd o) = true)
  /\ (snd run = Ret true
      \/ exists failed, snd run = Ret false /\ failed <> []
           /\ failed ≡ₚ failed_required outcomes
           /\ last (out (fst run)) = Some (LFailedRequired failed)).
Proof.
  intros Hfind Hsc Htasks Hsub run.
  assert (Hrun : run = settled E st model model_id include_optional order w outcomes).
  { destruct (download_model_cases E st model_id force include_optional order)
      as [[H _]|[model' [Hfind' H]]]; [congruence|].
    assert (model' = model) by congruence. subst model'. cbv zeta in H.
    destruct H as [[H _]|[[_ [H _]]|[[_ [_ [w' [H _]]]]|[_ [_ [w' [outs [H1 H2]]]]]]]];
      try congruence.
    rewrite Hsub in H1. inversion H1; subst. exact H2. }
  pose proof (failed_required_perm _ _ (as_completed_perm outcomes order)) as Hperm.
  assert (Hret : snd run = Ret true <-> failed_required outcomes = []).
  { rewrite Hrun. unfold settled.
    destruct (failed_required (as_completed order outcomes (length outcomes))) as [|f fl] eqn:Hf.
    - split; [intros _|reflexivity]. symmetry in Hperm. now apply Permutation_nil_r in Hperm.
    - split; [discriminate|]. intros Hnil. rewrite Hnil in Hperm.
      apply Permutation_nil_r in Hperm. discriminate. }
  split; [eapply submit_all_tasks; exact Hsub|].
  split; [exact Hret|].
  split; [rewrite Hret; apply failed_required_nil_iff|].
  rewrite Hrun. unfold settled.
  destruct (failed_required (as_completed order outcomes (length outcomes))) as [|f fl] eqn:Hf.
  - left. reflexivity.
  - right. exists (f :: fl). split; [reflexivity|]. split; [discriminate|].
    split; [exact Hperm|]. cbn. apply last_snoc.
Qed.

Lemma model_outcome_rule_witness :
  snd (download_model (Fixtures.env_missing Fixtures.normalizer_url)
         (Fixtures.start [Fixtures.whisper_tiny None false] ∅) "whisper-tiny" false true [2; 0])
  = Ret true.
Proof.
  refine (proj2 (proj1 (proj2 (model_outcome_rule
            (Fixtures.env_missing Fixtures.normalizer_url)
            (Fixtures.start [Fixtures.whisper_tiny None false] ∅) "whisper-tiny" false true [2; 0]
            (Fixtures.whisper_tiny None false)
            (fst Fixtures.optional_missing_fetches)
            (default [] (snd Fixtures.optional_missing_fetches))
            eq_refl eq_refl _ _))) _).
  - discriminate.
  - vm_compute. reflexivity.
  - vm_compute. reflexivity.
Defined.

(** C5: when the model's [status.downloaded] is already true, a run with
    [force=False] sends no request, returns [True] and leaves the world,
    the registry in memory and the registry file as they were (the file is
    not written at all); and after any run that returned [True], a further
    run with [force=False] is such a run. *)
Theorem already_downloaded_is_noop (E : Env) (st : State) (model_id : string) :
  (forall model include_optional order,
     find_model (registry st) model_id = Some model ->
     get_downloaded model = true ->
     let run := download_model E st model_id false include_optional order in
     snd run = Ret true
     /\ requests (world (fst run)) = requests (world st)
     /\ world (fst run) = world st
     /\ registry (fst run) = registry st
     /\ registry_file (fst run) = registry_file st)
  /\ (forall force include_optional order st1,
        download_model E st model_id force include_optional order = (st1, Ret true) ->
        forall include_optional' order',
          let again := download_model E st1 model_id false include_optional' order' in
          snd again = Ret true
          /\ requests (world (fst again)) = requests (world st1)
          /\ world (fst again) = world st1
          /\ registry (fst again) = registry st1
          /\ registry_file (fst again) = registry_file st1).
Proof.
  assert (Hnoop : forall s model include_optional order,
            find_model (registry s) model_id = Some model ->
            get_downloaded model = true ->
            let run := download_model E s model_id false include_optional order in
            snd run = Ret true
            /\ requests (world (fst run)) = requests (world s)
            /\ world (fst run) = world s
            /\ registry (fst run) = registry s
            /\ registry_file (fst run) = registry_file s).
  { intros s model include_optional order Hfind Hd run. subst run.
    unfold download_model. rewrite Hfind, Hd. cbn. repeat split. }
  split; [apply Hnoop|].
  intros force include_optional order st1 Hrun include_optional' order'.
  destruct (successful_run_marks E st st1 model_id force include_optional order Hrun)
    as [m [Hfind Hd]].
  now apply (Hnoop st1 m).
Qed.

Lemma already_downloaded_is_noop_witness :
  (let run := download_model Fixtures.env_ok
                (Fixtures.start [Fixtures.whisper_tiny None true] Fixtures.both_files)
                "whisper-tiny" false false [] in
   snd run = Ret true /\ requests (world (fst run)) = [])
  /\ (let first := download_model Fixtures.env_ok
                     (Fixtures.start [Fixtures.whisper_tiny None false] ∅)
                     "whisper-tiny" false false [] in
      let again := download_model Fixtures.env_ok (fst first) "whisper-tiny" false false [] in
      snd again = Ret true /\ world (fst again) = world (fst first)
      /\ registry_file (fst again) = registry_file (fst first)).
Proof.
  split.
  - pose proof (proj1 (already_downloaded_is_noop Fixtures.env_ok
                         (Fixtures.start [Fixtures.whisper_tiny None true] Fixtures.both_files)
                         "whisper-tiny")
                  (Fixtures.whisper_tiny None true) false [] eq_refl eq_refl) as H.
    cbv zeta in H. cbv zeta. destruct H as [H1 [H2 _]]. split; [exact H1|exact H2].
  - cbv zeta.
    assert (Hfirst : download_model Fixtures.env_ok
                       (Fixtures.start [Fixtures.whisper_tiny None false] ∅)
                       "whisper-tiny" false false []
                     = (fst (download_model Fixtures.env_ok
                               (Fixtures.start [Fixtures.whisper_tiny None false] ∅)
                               "whisper-tiny" false false []), Ret true)).
    { vm_compute. reflexivity. }
    pose proof (proj2 (already_downloaded_is_noop Fixtures.env_ok
                         (Fixtures.start [Fixtures.whisper_tiny None false] ∅)
                         "whisper-tiny")
                  false false [] _ Hfirst false []) as H.
    cbv zeta in H. destruct H as [H1 [_ [H3 [_ H5]]]]. repeat split; assumption.
Defined.

(** C8, as stated, fails: the model is marked as downloaded,
    [tokenizer.json] is gone from the disk and the remote answers 404.
    With [force=True] the run returns [False] and names [tokenizer.json];
    [pending_models] is 0 before and 0 after, in memory and in the file,
    and the file is not written.  (With [force=False] the run does not
    fetch at all and returns [True].) *)
Lemma failed_run_leaves_pending_count :
  let st := Fixtures.start [Fixtures.whisper_tiny None true] Fixtures.only_config in
  let run := download_model Fixtures.env_tokenizer_404 st "whisper-tiny" true false [] in
  snd run = Ret false
  /\ last (out (fst run)) = Some (LFailedRequired ["tokenizer.json"])
  /\ pending_models <$> statistics (registry_file st) = Some 0%Z
  /\ pending_models <$> statistics (registry_file (fst run)) = Some 0%Z
  /\ pending_models <$> statistics (registry (fst run)) = Some 0%Z
  /\ registry_file (fst run) = registry_file st
  /\ get_downloaded <$> models (registry (fst run)) = [true]
  /\ snd (download_model Fixtures.env_tokenizer_404 st "whisper-tiny" false false []) = Ret true.
Proof. vm_compute. repeat split. Qed.

(** C8, amended: when a run returns [False], every model's
    [status.downloaded] reads as before (a true flag is never set to
    false), the failure is reported by the last line printed (the unknown
    id, the empty file list, or the failed required files), the
    statistics are left as they were and the registry file is not
    written. *)
Theorem failed_run_keeps_registry (E : Env) (st st' : State) (model_id : string)
    (force include_optional : bool) (order : list nat) :
  download_model E st model_id force include_optional order = (st', Ret false) ->
  get_downloaded <$> models (registry st') = get_downloaded <$> models (registry st)
  /\ statistics (registry st') = statistics (registry st)
  /\ registry_file st' = registry_file st
  /\ (last (out st') = Some (LModelNotFound model_id)
      \/ last (out st') = Some (LNoFiles model_id)
      \/ exists failed, failed <> [] /\ last (out st') = Some (LFailedRequired failed)).
Proof.
  intros Hrun.
  destruct (download_model_cases E st model_id force include_optional order)
    as [[_ H]|[model [Hfind [[Hsc H]|[[_ [_ H]]|[[_ [_ [w [_ H]]]]|[_ [_ [w [outs [_ H]]]]]]]]]]];
    cbv zeta in H; rewrite Hrun in H; try discriminate.
  - inversion H; subst. cbn. repeat split. left. apply last_snoc.
  - inversion H; subst. cbn. repeat split. right. left. apply last_snoc.
  - unfold settled in H. destruct (failed_required _) as [|f fl] eqn:Hf; [discriminate|].
    inversion H; subst. cbn. split; [|repeat split].
    + apply update_model_keeps_flags, ensure_status_flag.
    + right. right. exists (f :: fl). split; [discriminate|]. apply last_snoc.
Qed.

Lemma failed_run_keeps_registry_witness :
  let st := Fixtures.start [Fixtures.whisper_tiny None true] Fixtures.only_config in
  let st' := fst (download_model Fixtures.env_tokenizer_404 st "whisper-tiny" true false []) in
  get_downloaded <$> models (registry st') = get_downloaded <$> models (registry st)
  /\ registry_file st' = registry_file st.
Proof.
  cbv zeta.
  pose proof (failed_run_keeps_registry Fixtures.env_tokenizer_404
                (Fixtures.start [Fixtures.whisper_tiny None true] Fixtures.only_config)
                (fst (download_model Fixtures.env_tokenizer_404
                        (Fixtures.start [Fixtures.whisper_tiny None true] Fixtures.only_config)
                        "whisper-tiny" true false []))
                "whisper-tiny" true false []) as H.
  destruct H as [H1 [_ [H3 _]]]; [vm_compute; reflexivity|].
  split; [exact H1|exact H3].
Defined.

(** Whatever [force] is, a run keeps every file that was on the disk. *)
Lemma run_preserves_files (E : Env) (st : State) (model_id : string)
    (force include_optional : bool) (order : list nat) (p content : string) :
  fs (world st) !! p = Some content ->
  fs (world (fst (download_model E st model_id force include_optional order))) !! p
    = Some content.
Proof.
  intros Hp.
  destruct (download_model_cases E st model_id force include_optional order)
    as [[_ H]|[model [Hfind [[Hsc H]|[[_ [_ H]]|[[_ [_ [w [Hsub H]]]]|[_ [_ [w [outs [Hsub H]]]]]]]]]]];
    cbv zeta in H; rewrite H; try exact Hp.
  - pose proof (submit_all_preserves E model (path_join (models_dir E) (local_path model))
                  (files_to_download model include_optional) (world st) p content Hp) as Hk.
    rewrite Hsub in Hk. exact Hk.
  - pose proof (submit_all_preserves E model (path_join (models_dir E) (local_path model))
                  (files_to_download model include_optional) (world st) p content Hp) as Hk.
    rewrite Hsub in Hk. unfold settled. destruct (failed_required _); exact Hk.
Qed.

(** Whatever [force] is, a run only requests files that were missing. *)
Lemma run_requests_missing_only (E : Env) (st : State) (model_id : string)
    (force include_optional : bool) (order : list nat) (rq : Request) :
  rq ∈ requests (world (fst (download_model E st model_id force include_optional order))) ->
  rq ∈ requests (world st)
  \/ exists model file,
       find_model (registry st) model_id = Some model
       /\ file ∈ files_required model ++ files_optional model
       /\ _get_download_url model file = Some (req_url rq)
       /\ fs (world st) !! path_join (path_join (models_dir E) (local_path model)) file = None.
Proof.
  intros Hin.
  assert (Hsubmit : forall model w res,
            find_model (registry st) model_id = Some model ->
            submit_all E (world st) model (path_join (models_dir E) (local_path model))
              (files_to_download model include_optional) = (w, res) ->
            rq ∈ requests w ->
            rq ∈ requests (world st)
            \/ exists model file,
                 find_model (registry st) model_id = Some model
                 /\ file ∈ files_required model ++ files_optional model
                 /\ _get_download_url model file = Some (req_url rq)
                 /\ fs (world st) !! path_join (path_join (models_dir E) (local_path model)) file
                    = None).
  { intros model w res Hfind Hsub Hw.
    destruct (submit_all_requests E model (path_join (models_dir E) (local_path model))
                (files_to_download model include_optional) (world st) (world st) rq)
      as [Hold|[[file req] [Ht [Hu Hf]]]]; [auto|now rewrite Hsub|left; exact Hold|].
    right. exists model, file. split; [exact Hfind|]. split; [|split; assumption].
    unfold files_to_download in Ht. apply elem_of_app in Ht as [Ht|Ht].
    - apply elem_of_app. left. apply list_elem_of_fmap in Ht as [x [[= -> _] Hx]]. exact Hx.
    - apply elem_of_app. right. destruct include_optional; [|now apply elem_of_nil in Ht].
      apply list_elem_of_fmap in Ht as [x [[= -> _] Hx]]. exact Hx. }
  destruct (download_model_cases E st model_id force include_optional order)
    as [[_ H]|[model [Hfind [[Hsc H]|[[_ [_ H]]|[[_ [_ [w [Hsub H]]]]|[_ [_ [w [outs [Hsub H]]]]]]]]]]];
    cbv zeta in H; rewrite H in Hin; try (left; exact Hin).
  - eapply Hsubmit; eauto.
  - eapply Hsubmit; eauto. unfold settled in Hin. destruct (failed_required _); exact Hin.
Qed.

(** C10: a fetch whose destination exists returns the success
    [Already exists: <name>] and leaves the world, requests included, as
    it was; [_download_file] has no [force] parameter, and in a run of
    [download_model], with [force] true or false, every file on the disk
    keeps its content and every request sent is for a file of the model
    that was missing when the run began. *)
Theorem existing_file_never_fetched (E : Env) :
  (forall w url dest content,
     fs w !! dest = Some content ->
     _download_file E w url dest = (w, (true, "Already exists: " +:+ path_name dest)))
  /\ (forall st model_id force include_optional order p content,
        fs (world st) !! p = Some content ->
        fs (world (fst (download_model E st model_id force include_optional order))) !! p
          = Some content)
  /\ (forall st model_id force include_optional order rq,
        rq ∈ requests (world (fst (download_model E st model_id force include_optional order))) ->
        rq ∈ requests (world st)
        \/ exists model file,
             find_model (registry st) model_id = Some model
             /\ file ∈ files_required model ++ files_optional model
             /\ _get_download_url model file = Some (req_url rq)
             /\ fs (world st) !! path_join (path_join (models_dir E) (local_path model)) file
                = None).
Proof.
  split; [|split].
  - intros w url dest content. apply sync_fetch_existing.
  - intros st model_id force include_optional order p content. apply run_preserves_files.
  - intros st model_id force include_optional order rq. apply run_requests_missing_only.
Qed.

Lemma existing_file_never_fetched_witness :
  let w := {| fs := Fixtures.only_config; requests := [] |} in
  let st := Fixtures.start [Fixtures.whisper_tiny None true] Fixtures.only_config in
  _download_file Fixtures.env_ok w
      "https://huggingface.co/Xenova/whisper-tiny/resolve/main/config.json" Fixtures.config_path
    = (w, (true, "Already exists: config.json"))
  /\ fs (world (fst (download_model Fixtures.env_ok st "whisper-tiny" true true [])))
       !! Fixtures.config_path = Some "{}".
Proof.
  cbv zeta. split.
  - exact (proj1 (existing_file_never_fetched Fixtures.env_ok)
             {| fs := Fixtures.only_config; requests := [] |}
             "https://huggingface.co/Xenova/whisper-tiny/resolve/main/config.json"
             Fixtures.config_path "{}" eq_refl).
  - exact (proj1 (proj2 (existing_file_never_fetched Fixtures.env_ok))
             (Fixtures.start [Fixtures.whisper_tiny None true] Fixtures.only_config)
             "whisper-tiny" true true [] Fixtures.config_path "{}" eq_refl).
Defined.

End OrchestratorClaims.

(** ** Statistics of the registry *)

Section Statistics.

Import Sync SpecWords Closed.

Lemma count_downloaded_bounds (ms : list Model) :
  (0 <= AddNew.count_downloaded ms <= Z.of_nat (length ms))%Z.
Proof.
  induction ms as [|m rest IH]; [cbn; lia|].
  change (AddNew.count_downloaded (m :: rest))
    with ((if get_downloaded m then 1 else 0) + AddNew.count_downloaded rest)%Z.
  rewrite length_cons, Nat2Z.inj_succ.
  destruct (get_downloaded m); lia.
Qed.

(** The two counters [_update_statistics] writes add up to the number of
    model records. *)
Lemma compute_statistics_sum (ms : list Model) :
  (downloaded_models (AddNew.compute_statistics ms)
     + pending_models (AddNew.compute_statistics ms))%Z
  = Z.of_nat (length ms).
Proof. cbn. lia. Qed.

(** The registration tool's persist, [_update_statistics] followed by
    [_save_registry]: the file holds the models with their statistics,
    stamped with the day. *)
Lemma add_new_persist_is_fresh (E : Env) (st : State) :
  let st' := AddNew._save_registry E (AddNew._update_statistics st) in
  models (registry_file st') = models (registry st)
  /\ statistics_fresh (registry_file st')
  /\ last_updated (registry_file st') = today E
  /\ exists s, statistics (registry_file st') = Some s
       /\ (downloaded_models s + pending_models s)%Z
          = Z.of_nat (length (models (registry_file st'))).
Proof.
  cbn. repeat split. eexists. split; [reflexivity|]. apply compute_statistics_sum.
Qed.

(** The sync tool never touches the statistics in memory, so its persist
    writes the ones that were loaded. *)
Lemma sync_run_keeps_statistics (E : Env) (st : State) (model_id : string)
    (force include_optional : bool) (order : list nat) :
  let st' := fst (download_model E st model_id force include_optional order) in
  statistics (registry st') = statistics (registry st)
  /\ last_updated (registry st') = last_updated (registry st).
Proof.
  destruct (download_model_cases E st model_id force include_optional order)
    as [[_ H]|[model [Hfind [[Hsc H]|[[_ [_ H]]|[[_ [_ [w [Hsub H]]]]|[_ [_ [w [outs [Hsub H]]]]]]]]]]];
    cbv zeta in H; cbv zeta; rewrite H; try (split; reflexivity).
  unfold settled. destruct (failed_required _); split; reflexivity.
Qed.

(** C1 at a failing input: a registry with one pending model and fresh
    statistics; the sync run fetches both required files, marks the model
    as downloaded and writes the file.  The file then says
    [downloaded_models = 0] and [pending_models = 1] for a model list whose
    only record is downloaded, and [last_updated] is the old date. *)
Lemma sync_persists_stale_statistics :
  let st := Fixtures.start [Fixtures.whisper_tiny None false] ∅ in
  let run := download_model Fixtures.env_ok st "whisper-tiny" false false [] in
  snd run = Ret true
  /\ statistics_fresh (registry_file st)
  /\ get_downloaded <$> models (registry_file (fst run)) = [true]
  /\ downloaded_models <$> statistics (registry_file (fst run)) = Some 0%Z
  /\ pending_models <$> statistics (registry_file (fst run)) = Some 1%Z
  /\ AddNew.count_downloaded (models (registry_file (fst run))) = 1%Z
  /\ ~ statistics_fresh (registry_file (fst run))
  /\ last_updated (registry_file (fst run)) = "2025-11-02".
Proof.
  cbv zeta. repeat split; try (vm_compute; reflexivity).
  unfold statistics_fresh. intros Hfresh.
  apply (f_equal (fmap downloaded_models)) in Hfresh.
  vm_compute in Hfresh. discriminate.
Qed.

End Statistics.

(** * Further properties of the code *)

(** ** Listing and verifying models *)

Section Listing.

Import Str Http Sync_url Sync SyncFleet SpecWords Closed.

Lemma bool_filter_sublist {A} (f : A -> bool) (l : list A) : List.filter f l `sublist_of` l.
Proof.
  induction l as [|x l IH]; cbn; [constructor|].
  destruct (f x); [now apply sublist_skip | now apply sublist_cons].
Qed.

Lemma bool_filter_elem_of {A} (f : A -> bool) (l : list A) (x : A) :
  x ∈ List.filter f l <-> x ∈ l /\ f x = true.
Proof. rewrite !list_elem_of_In. apply filter_In. Qed.

Lemma bool_filter_split {A} (f : A -> bool) (l : list A) :
  List.filter f l ++ List.filter (fun x => negb (f x)) l ≡ₚ l.
Proof.
  induction l as [|x l IH]; cbn; [reflexivity|].
  destruct (f x); cbn.
  - now rewrite IH.
  - rewrite <- Permutation_middle. now rewrite IH.
Qed.

(** X1: [list_models] returns, in registry order, exactly the records
    that pass the filters: a non-empty [filter_type] keeps the records of
    that type, [downloaded] keeps the records whose flag is set, [pending]
    the others, and any other status word (or none) filters nothing. *)
Theorem list_models_spec (reg : Registry) (filter_type filter_status : option string) :
  list_models reg filter_type filter_status `sublist_of` models reg
  /\ forall m, m ∈ list_models reg filter_type filter_status
       <-> m ∈ models reg
           /\ (truthy filter_type = true -> Some (type m) = filter_type)
           /\ (filter_status = Some "downloaded" -> get_downloaded m = true)
           /\ (filter_status = Some "pending" -> get_downloaded m = false).
Proof.
  unfold list_models.
  set (typed := if truthy filter_type then _ else _).
  assert (Hsub : typed `sublist_of` models reg).
  { subst typed. destruct (truthy filter_type); [apply bool_filter_sublist|reflexivity]. }
  assert (Htyped : forall m, m ∈ typed
             <-> m ∈ models reg /\ (truthy filter_type = true -> Some (type m) = filter_type)).
  { intros m. subst typed. destruct (truthy filter_type) eqn:Ht.
    - rewrite bool_filter_elem_of. destruct filter_type as [t|]; [|discriminate]. cbn.
      rewrite String.eqb_eq. split; intros [Hin H]; split; auto.
      + intros _. now rewrite H.
      + specialize (H eq_refl). now inversion H.
    - split; [intros H; split; [exact H|discriminate] | now intros [H _]]. }
  destruct filter_status as [s|].
  - destruct (String.eqb_spec s "downloaded") as [->|Hd].
    + split; [etransitivity; [apply bool_filter_sublist|exact Hsub]|].
      intros m. rewrite bool_filter_elem_of, Htyped. split.
      * intros [[Hin Hty] Hdl]. repeat split; auto. discriminate.
      * intros [Hin [Hty [Hdl _]]]. repeat split; auto.
    + destruct (String.eqb_spec s "pending") as [->|Hp].
      * split; [etransitivity; [apply bool_filter_sublist|exact Hsub]|].
        intros m. rewrite bool_filter_elem_of, Htyped, negb_true_iff. split.
        -- intros [[Hin Hty] Hdl]. repeat split; auto. discriminate.
        -- intros [Hin [Hty [_ Hdl]]]. repeat split; auto.
      * split; [exact Hsub|]. intros m. rewrite Htyped. split.
        -- intros [Hin Hty]. repeat split; auto; intros [= ?]; congruence.
        -- intros [Hin [Hty _]]. split; auto.
  - split; [exact Hsub|]. intros m. rewrite Htyped. split.
    + intros [Hin Hty]. repeat split; auto; discriminate.
    + intros [Hin [Hty _]]. split; auto.
Qed.

Lemma list_models_spec_witness :
  Fixtures.whisper_tiny None true
    ∈ list_models (Fixtures.registry_of
                     [Fixtures.local_model; Fixtures.whisper_tiny None true])
        (Some "asr") (Some "downloaded").
Proof.
  apply (proj2 (list_models_spec _ (Some "asr") (Some "downloaded"))).
  split; [right; left|]. split; [intros _; reflexivity|].
  split; [intros _; reflexivity|discriminate].
Defined.

(** X2: for every type filter, the [downloaded] list and the [pending]
    list split the unfiltered list: together they are a rearrangement of
    it, so their lengths add up to its length. *)
Theorem list_models_partition (reg : Registry) (filter_type : option string) :
  list_models reg filter_type (Some "downloaded")
    ++ list_models reg filter_type (Some "pending")
    ≡ₚ list_models reg filter_type None
  /\ length (list_models reg filter_type (Some "downloaded"))
     + length (list_models reg filter_type (Some "pending"))
     = length (list_models reg filter_type None).
Proof.
  assert (H : list_models reg filter_type (Some "downloaded")
                ++ list_models reg filter_type (Some "pending")
                ≡ₚ list_models reg filter_type None).
  { unfold list_models. cbn. apply bool_filter_split. }
  split; [exact H|]. rewrite <- length_app. now rewrite H.
Qed.

Section Verify.

Context (E : Env).

Lemma missing_files_nil (w : World) (lp : string) (files : list string) :
  missing_files w lp files = []
  <-> forall f, f ∈ files -> is_Some (fs w !! path_join lp f).
Proof.
  unfold missing_files. induction files as [|f rest IH]; cbn.
  - split; [intros _ f Hf; now apply elem_of_nil in Hf|reflexivity].
  - destruct (bool_decide_reflect (is_Some (fs w !! path_join lp f))) as [Hs|Hn]; cbn.
    + rewrite IH. split.
      * intros H x Hx. apply elem_of_cons in Hx as [->|Hx]; auto.
      * intros H x Hx. apply H. now right.
    + split; [discriminate|]. intros H. exfalso. apply Hn, H. now left.
Qed.

(** X3: [verify_model] returns [True] exactly when the id is in the
    registry and every required file of the first record with that id is on
    disk under the model's directory; otherwise it returns [False] and
    reports the unknown id or the missing files, in manifest order. *)
Theorem verify_model_spec (reg : Registry) (w : World) (model_id : string) :
  (fst (verify_model E reg w model_id) = true
   <-> exists model, find_model reg model_id = Some model
         /\ forall f, f ∈ files_required model ->
              is_Some (fs w !! path_join (path_join (models_dir E) (local_path model)) f))
  /\ (find_model reg model_id = None ->
      verify_model E reg w model_id = (false, [VModelNotFound model_id]))
  /\ (forall model, find_model reg model_id = Some model ->
      fst (verify_model E reg w model_id) = false ->
      snd (verify_model E reg w model_id)
      = [VMissing model_id
           (List.filter
              (fun f => negb (bool_decide (is_Some
                 (fs w !! path_join (path_join (models_dir E) (local_path model)) f))))
              (files_required model))]).
Proof.
  unfold verify_model. destruct (find_model reg model_id) as [model|] eqn:Hfind.
  - split; [|split; [discriminate|]].
    + pose proof (missing_files_nil w (path_join (models_dir E) (local_path model))
                    (files_required model)) as Hnil.
      destruct (missing_files w _ (files_required model)) as [|x l] eqn:Hm; cbn.
      * split; [intros _; exists model; split; [reflexivity|now apply Hnil]|reflexivity].
      * split; [discriminate|]. intros [m' [[= <-] H]]. apply Hnil in H. discriminate.
    + intros m' [= <-]. fold (missing_files w (path_join (models_dir E) (local_path model))
                               (files_required model)).
      destruct (missing_files w _ (files_required model)); cbn; [discriminate|reflexivity].
  - split; [|split; [reflexivity|discriminate]].
    cbn. split; [discriminate|]. intros [m' [H _]]. discriminate.
Qed.

End Verify.

Lemma verify_model_spec_witness :
  snd (verify_model Fixtures.env_ok
         (Fixtures.registry_of [Fixtures.whisper_tiny None true])
         {| fs := Fixtures.only_config; requests := [] |} "whisper-tiny")
  = [VMissing "whisper-tiny" ["tokenizer.json"]].
Proof.
  refine (proj2 (proj2 (verify_model_spec Fixtures.env_ok
            (Fixtures.registry_of [Fixtures.whisper_tiny None true])
            {| fs := Fixtures.only_config; requests := [] |} "whisper-tiny"))
          (Fixtures.whisper_tiny None true) eq_refl _).
  vm_compute. reflexivity.
Defined.

End Listing.

(** ** What a fetch leaves on disk *)

Section FetchedBytes.

Import Str Http Sync_url Sync SpecWords Closed Derived.

Context (E : Env).

Lemma write_chunks_ok (skip : bool) (dest : string) (chunks : list string)
    (err : option string) (i : nat) (content written : string) :
  write_chunks E skip dest i chunks err content = (written, None) ->
  written = content +:+ foldr String.append EmptyString chunks /\ err = None.
Proof.
  revert i content. induction chunks as [|chunk rest IH]; intros i content Hw.
  - cbn in Hw. destruct err; [discriminate|]. inversion Hw; subst.
    cbn. now rewrite str_app_nil_r.
  - cbn [write_chunks] in Hw. cbn [foldr].
    destruct (skip && String.eqb chunk EmptyString) eqn:Hskip.
    + apply andb_true_iff in Hskip as [_ Hempty]. apply String.eqb_eq in Hempty. subst chunk.
      exact (IH _ _ Hw).
    + destruct (write_error E dest i); [discriminate|].
      destruct (IH _ _ Hw) as [-> ->]. split; [|reflexivity]. now rewrite str_app_assoc.
Qed.

Lemma save_body_ok (skip : bool) (w w' : World) (dest : string) (r : Response) :
  save_body E skip w dest r = (w', None) ->
  w' = {| fs := <[dest := body_bytes r]> (fs w); requests := requests w |}
  /\ stream_error r = None.
Proof.
  unfold save_body. destruct (open_error E dest); [discriminate|].
  destruct (write_chunks _ _ _ _ _ _ _) as [content ex] eqn:Hw. intros [= <- ->].
  apply write_chunks_ok in Hw as [-> Herr]. split; [reflexivity|exact Herr].
Qed.

Lemma get_ok (w w1 : World) (url : string) (r : Response) :
  get E w url = (w1, inr r) ->
  server E (length (requests w)) {| req_url := url; req_authorization := auth_header E url |}
    = Got r
  /\ raise_for_status r = None.
Proof.
  unfold get. destruct (server E _ _) as [e|r']; [discriminate|].
  destruct (raise_for_status r') eqn:Hr; [discriminate|]. now intros [= _ <-].
Qed.

(** X4: when the sync fetcher reports a download, the destination holds
    exactly the bytes of the response body, in order; the response was not
    a 4xx or 5xx and its stream did not break; one request was sent, and
    no other file changed. *)
Theorem sync_fetch_stores_body (w w' : World) (url dest message : string) :
  fs w !! dest = None ->
  _download_file E w url dest = (w', (true, message)) ->
  exists r,
    server E (length (requests w)) {| req_url := url; req_authorization := auth_header E url |}
      = Got r
    /\ raise_for_status r = None
    /\ stream_error r = None
    /\ fs w' !! dest = Some (body_bytes r)
    /\ (forall p, p <> dest -> fs w' !! p = fs w !! p)
    /\ requests w'
       = requests w ++ [{| req_url := url; req_authorization := auth_header E url |}]
    /\ message = "Downloaded: " +:+ path_name dest.
Proof.
  intros Hd. unfold _download_file. rewrite Hd.
  pose proof (get_world E w url) as Hw1.
  destruct (get E w url) as [w1 [ex|r]] eqn:Hget; simpl in Hw1.
  - destruct ex; discriminate.
  - destruct (total_size r) as [ex|n]; [destruct ex; discriminate|].
    destruct (save_body E true w1 dest r) as [w2 [ex|]] eqn:Hsave; [destruct ex; discriminate|].
    intros [= <- <-]. apply save_body_ok in Hsave as [-> Hstream].
    apply get_ok in Hget as [Hsrv Hraise]. exists r. subst w1. cbn.
    repeat split; auto.
    + apply lookup_insert_eq.
    + intros p Hp. now apply lookup_insert_ne.
Qed.

(** X5: the registration tool's [download_file] never looks at the
    destination first: every call sends exactly one request, and when it
    returns [True] the destination holds exactly the bytes of the response
    body, whatever was there before. *)
Theorem add_new_fetch_overwrites (w : World) (url dest : string) (show_progress : bool) :
  let run := AddNew.download_file E w url dest show_progress in
  requests (fst (fst run))
    = requests w ++ [{| req_url := url; req_authorization := auth_header E url |}]
  /\ (snd (fst run) = true ->
      exists r,
        server E (length (requests w))
          {| req_url := url; req_authorization := auth_header E url |} = Got r
        /\ fs (fst (fst run)) !! dest = Some (body_bytes r)
        /\ forall p, p <> dest -> fs (fst (fst run)) !! p = fs w !! p).
Proof.
  unfold AddNew.download_file.
  pose proof (get_world E w url) as Hw1.
  destruct (get E w url) as [w1 [ex|r]] eqn:Hget; simpl in Hw1.
  - subst w1. destruct ex as [code e|e|e]; [destruct (code =? 404)%Z|..];
      (split; [reflexivity|discriminate]).
  - apply get_ok in Hget as [Hsrv _].
    destruct (total_size r) as [ex|total].
    { subst w1. destruct ex as [code e|e|e]; [destruct (code =? 404)%Z|..];
        (split; [reflexivity|discriminate]). }
    assert (Hany : forall skip printed,
              let '(w2, ex) := save_body E skip w1 dest r in
              let run :=
                match ex with
                | None => (w2, true, printed)
                | Some (HTTPError code _) =>
                    if (code =? 404)%Z
                    then (w2, false, if negb show_progress then [ANotFound (path_name dest)] else [])
                    else (w2, false, [AHttp (path_name dest) code])
                | Some (RequestException e) | Some (OtherException e) =>
                    (w2, false, [AError (path_name dest) e])
                end in
              requests (fst (fst run))
                = requests w ++ [{| req_url := url; req_authorization := auth_header E url |}]
              /\ (snd (fst run) = true ->
                  exists r,
                    server E (length (requests w))
                      {| req_url := url; req_authorization := auth_header E url |} = Got r
                    /\ fs (fst (fst run)) !! dest = Some (body_bytes r)
                    /\ forall p, p <> dest -> fs (fst (fst run)) !! p = fs w !! p)).
    { intros skip printed.
      pose proof (save_body_requests E skip w1 dest r) as Hreq.
      destruct (save_body E skip w1 dest r) as [w2 [ex|]] eqn:Hsave; simpl in Hreq.
      - rewrite Hw1 in Hreq. simpl in Hreq.
        destruct ex as [code e|e|e]; [destruct (code =? 404)%Z|..];
          (split; [exact Hreq|discriminate]).
      - apply save_body_ok in Hsave as [-> _]. subst w1. cbn. split; [reflexivity|].
        intros _. exists r. split; [exact Hsrv|]. split; [apply lookup_insert_eq|].
        intros p Hp. now apply lookup_insert_ne. }
    destruct (show_progress && (0 <? total)%Z).
    + specialize (Hany true []). destruct (save_body E true w1 dest r) as [w2 ex]. exact Hany.
    + specialize (Hany false (if negb show_progress then [AOk (path_name dest)] else [])).
      destruct (save_body E false w1 dest r) as [w2 ex]. exact Hany.
Qed.

End FetchedBytes.

Lemma sync_fetch_stores_body_witness :
  fs (fst (Sync._download_file Fixtures.env_ok {| fs := ∅; requests := [] |}
             Fixtures.tokenizer_url Fixtures.tokenizer_path))
    !! Fixtures.tokenizer_path = Some "onnx".
Proof.
  destruct (sync_fetch_stores_body Fixtures.env_ok {| fs := ∅; requests := [] |}
              (fst (Sync._download_file Fixtures.env_ok {| fs := ∅; requests := [] |}
                      Fixtures.tokenizer_url Fixtures.tokenizer_path))
              Fixtures.tokenizer_url Fixtures.tokenizer_path
              "Downloaded: tokenizer.json")
    as [r [Hsrv [_ [_ [Hfile _]]]]].
  - vm_compute. reflexivity.
  - vm_compute. reflexivity.
  - rewrite Hfile. injection Hsrv as <-. reflexivity.
Defined.

Lemma add_new_fetch_overwrites_witness :
  fs (fst (fst (AddNew.download_file Fixtures.env_ok
                  {| fs := Fixtures.only_config; requests := [] |}
                  Fixtures.tokenizer_url Fixtures.config_path false)))
    !! Fixtures.config_path = Some "onnx".
Proof.
  destruct (proj2 (add_new_fetch_overwrites Fixtures.env_ok
                     {| fs := Fixtures.only_config; requests := [] |}
                     Fixtures.tokenizer_url Fixtures.config_path false))
    as [r [Hsrv [Hfile _]]].
  - vm_compute. reflexivity.
  - rewrite Hfile. injection Hsrv as <-. reflexivity.
Defined.

(** ** Runs of the sync tool *)

Section SyncRuns.

Import Str Http Sync_url Sync SyncFleet SpecWords Closed Derived.

Context (E : Env).

Lemma sync_fetch_success_exists (w w' : World) (url dest message : string) :
  _download_file E w url dest = (w', (true, message)) -> is_Some (fs w' !! dest).
Proof.
  unfold _download_file. destruct (fs w !! dest) as [content|] eqn:Hd.
  - intros [= <- _]. eauto.
  - destruct (get E w url) as [w1 [ex|r]].
    + destruct ex; discriminate.
    + destruct (total_size r) as [ex|n]; [destruct ex; discriminate|].
      destruct (save_body E true w1 dest r) as [w2 [ex|]] eqn:Hsave; [destruct ex; discriminate|].
      intros [= <- _]. unfold save_body in Hsave.
      destruct (open_error E dest); [discriminate|].
      destruct (write_chunks _ _ _ _ _ _ _) as [content ex]. inversion Hsave; subst.
      cbn. rewrite lookup_insert_eq. eauto.
Qed.

Lemma path_join_inj (lp a b : string) : path_join lp a = path_join lp b -> a = b.
Proof.
  unfold path_join. induction lp as [|c lp IH]; intros H.
  - change (String "/" a = String "/" b) in H. now injection H.
  - rewrite !str_app_cons in H. injection H as H. now apply IH.
Qed.

(** A submission leaves alone every path that is not the destination of
    one of its tasks. *)
Lemma submit_all_other_paths (model : Model) (lp : string) (tasks : list Task)
    (w : World) (p : string) :
  (forall t, t ∈ tasks -> path_join lp (fst t) <> p) ->
  fs (fst (submit_all E w model lp tasks)) !! p = fs w !! p.
Proof.
  revert w. induction tasks as [|[file_path is_required] rest IH]; intros w Hne; [reflexivity|].
  cbn [submit_all]. destruct (_get_download_url model file_path) as [url|]; [|reflexivity].
  assert (H1 : fs (fst (_download_file E w url (path_join lp file_path))) !! p = fs w !! p).
  { destruct (sync_fetch_cases E w url (path_join lp file_path))
      as [[c [_ ->]]|[_ [_ [Hother _]]]]; [reflexivity|].
    apply Hother. intros ->. apply (Hne (file_path, is_required)); [left|reflexivity]. }
  destruct (_download_file E w url (path_join lp file_path)) as [w1 res]. simpl in H1.
  specialize (IH w1).
  destruct (submit_all E w1 model lp rest) as [w2 more]. simpl in *.
  rewrite IH; [exact H1|]. intros t Ht. apply Hne. now right.
Qed.

(** When no two tasks have the same destination, every fetch of a
    submission that succeeded has its file on disk when the submission
    ends: the fetch left it there, and no other fetch touches its path. *)
Lemma submit_all_success_written (model : Model) (lp : string) (tasks : list Task)
    (w w' : World) (outcomes : list Outcome) (o : Outcome) :
  NoDup (fst <$> tasks) ->
  submit_all E w model lp tasks = (w', Some outcomes) ->
  o ∈ outcomes -> fst (snd o) = true ->
  is_Some (fs w' !! path_join lp (fst (fst o))).
Proof.
  revert w w' outcomes. induction tasks as [|[file_path is_required] rest IH];
    intros w w' outcomes Hnd Hrun Ho Hok.
  - cbn in Hrun. inversion Hrun; subst. now apply elem_of_nil in Ho.
  - cbn [fmap list_fmap fst] in Hnd. apply NoDup_cons in Hnd as [Hfresh Hnd].
    cbn [submit_all] in Hrun.
    destruct (_get_download_url model file_path) as [url|]; [|discriminate].
    destruct (_download_file E w url (path_join lp file_path)) as [w1 [ok message]] eqn:Hfetch.
    pose proof (submit_all_other_paths model lp rest w1 (path_join lp file_path)) as Hkeep.
    destruct (submit_all E w1 model lp rest) as [w2 [more|]] eqn:Hrest; [|discriminate].
    simpl in Hkeep. inversion Hrun; subst.
    apply elem_of_cons in Ho as [->|Ho].
    + simpl in Hok. subst ok. simpl. rewrite Hkeep.
      * exact (sync_fetch_success_exists _ _ _ _ _ Hfetch).
      * intros t Ht Heq. apply path_join_inj in Heq. apply Hfresh.
        rewrite <- Heq. now apply (list_elem_of_fmap_2 fst).
    + eapply IH; eauto.
Qed.

(** X6: for a model whose files to fetch are plain paths, each listed
    once (so that no two fetches of the pool have the same destination),
    a run that fetched and returned [True] has put every required file of
    the model on disk: [verify_model] on the state it leaves returns
    [True]. *)
Theorem downloaded_model_verifies (st st' : State) (model_id : string)
    (force include_optional : bool) (order : list nat) (model : Model) :
  find_model (registry st) model_id = Some model ->
  negb force && get_downloaded model = false ->
  separate_files (files_to_download model include_optional) ->
  download_model E st model_id force include_optional order = (st', Ret true) ->
  verify_model E (registry st') (world st') model_id = (true, [VAllPresent model_id]).
Proof.
  intros Hfind Hsc [Hnodup _] Hrun.
  destruct (download_model_cases E st model_id force include_optional order)
    as [[H _]|[model' [Hfind' H]]]; [congruence|].
  assert (model' = model) by congruence. subst model'. cbv zeta in H.
  destruct H as [[H _]|[[_ [_ H]]|[[_ [_ [w' [_ H]]]]|[_ [_ [w [outs [Hsub H]]]]]]]];
    try congruence.
  rewrite Hrun in H. unfold settled in H.
  destruct (failed_required (as_completed order outs (length outs))) as [|f fl] eqn:Hfailed;
    [|discriminate].
  inversion H; subst st'. clear H.
  assert (Hall : forall o : Outcome, o ∈ outs -> snd (fst o) = true -> fst (snd o) = true).
  { apply failed_required_nil_iff.
    pose proof (failed_required_perm _ _ (as_completed_perm outs order)) as Hperm.
    rewrite Hfailed in Hperm. symmetry in Hperm. now apply Permutation_nil_r in Hperm. }
  unfold verify_model. cbn [registry world print _save_registry mutate_model with_world].
  assert (Hfind2 : find_model
            (with_models
               (update_model model_id (mark_downloaded E)
                  (update_model model_id ensure_status (models (registry st))))
               (registry st)) model_id
            = Some (mark_downloaded E (ensure_status model))).
  { unfold find_model. cbn.
    apply (find_update_model (mark_downloaded E)); [reflexivity|].
    apply (find_update_model ensure_status); [apply ensure_status_id|exact Hfind]. }
  cbn in Hfind2. unfold find_model in *. cbn. rewrite Hfind2.
  assert (Hfiles : files_required (mark_downloaded E (ensure_status model)) = files_required model).
  { unfold ensure_status. now destruct (status model). }
  assert (Hlp : local_path (mark_downloaded E (ensure_status model)) = local_path model).
  { unfold ensure_status. now destruct (status model). }
  rewrite Hfiles, Hlp.
  assert (Hnone : missing_files w (path_join (models_dir E) (local_path model))
                    (files_required model) = []).
  { apply missing_files_nil. intros f Hf.
    assert (Htask : (f, true) ∈ fst <$> outs).
    { rewrite (submit_all_tasks E _ _ _ _ _ _ Hsub). unfold files_to_download.
      apply elem_of_app. left. now apply (list_elem_of_fmap_2 (fun file => (file, true))). }
    apply list_elem_of_fmap in Htask as [o [Ho Hin]].
    pose proof (submit_all_success_written _ _ _ _ _ _ o Hnodup Hsub Hin) as Hex.
    rewrite <- Ho in Hex. apply Hex. apply Hall; [exact Hin|]. now rewrite <- Ho. }
  now rewrite Hnone.
Qed.

(** X7: a run never adds, drops or reorders records, and changes at most
    the [status] of records with the given id: every other record, and
    every other field, is as before. *)
Theorem run_changes_only_status (st : State) (model_id : string)
    (force include_optional : bool) (order : list nat) :
  Forall2 (fun m m' => same_but_status m m' /\ (id m <> model_id -> m' = m))
    (models (registry st))
    (models (registry (fst (download_model E st model_id force include_optional order)))).
Proof.
  assert (Hsame : forall ms : list Model,
            Forall2 (fun m m' => same_but_status m m' /\ (id m <> model_id -> m' = m)) ms ms).
  { intros ms. apply Forall2_same_length_lookup_2; [reflexivity|].
    intros i m m' H1 H2. assert (m' = m) by congruence. subst. split; [|reflexivity].
    unfold same_but_status. now destruct m. }
  assert (Hupd : forall (f : Model -> Model) (ms : list Model),
            (forall m, same_but_status m (f m)) ->
            Forall2 (fun m m' => same_but_status m m' /\ (id m <> model_id -> m' = m))
              ms (update_model model_id f ms)).
  { intros f ms Hf. induction ms as [|m rest IH]; cbn; [constructor|].
    destruct (String.eqb_spec (id m) model_id) as [Heq|Hne].
    - constructor; [|apply Hsame]. split; [apply Hf|]. intros Hne. contradiction.
    - constructor; [|exact IH]. split; [|reflexivity]. unfold same_but_status. now destruct m. }
  destruct (download_model_cases E st model_id force include_optional order)
    as [[_ H]|[model [Hfind [[Hsc H]|[[_ [_ H]]|[[_ [_ [w [Hsub H]]]]|[_ [_ [w [outs [Hsub H]]]]]]]]]]];
    cbv zeta in H; rewrite H; try apply Hsame.
  unfold settled.
  assert (Hensure : forall m, same_but_status m (ensure_status m)).
  { intros m. unfold same_but_status, ensure_status. destruct m as [? ? ? ? ? ? ? [s|] ?]; reflexivity. }
  destruct (failed_required _); cbn.
  - assert (Hboth : update_model model_id (mark_downloaded E)
                      (update_model model_id ensure_status (models (registry st)))
                    = update_model model_id (fun m => mark_downloaded E (ensure_status m))
                        (models (registry st))).
    { induction (models (registry st)) as [|m rest IH]; cbn; [reflexivity|].
      destruct (String.eqb (id m) model_id) eqn:Hm; cbn.
      - rewrite ensure_status_id, Hm. reflexivity.
      - rewrite Hm. now rewrite IH. }
    rewrite Hboth. apply Hupd. intros m. unfold same_but_status.
    destruct m as [? ? ? ? ? ? ? [s|] ?]; reflexivity.
  - apply Hupd, Hensure.
Qed.

(** X8: a model whose platform is neither [huggingface] nor [github],
    once the run gets to its files (it is found, not short-circuited, and
    has files to fetch), makes [download_model] raise the [ValueError] of
    the URL resolver; no request was sent, and disk, registry and registry
    file are untouched. *)
Theorem unsupported_platform_raises (st : State) (model_id : string)
    (force include_optional : bool) (order : list nat) (model : Model) :
  find_model (registry st) model_id = Some model ->
  negb force && get_downloaded model = false ->
  files_to_download model include_optional <> [] ->
  ~ supported_platform model ->
  let run := download_model E st model_id force include_optional order in
  snd run = Raise ("Unsupported platform: " +:+ platform (source model))
  /\ world (fst run) = world st
  /\ registry (fst run) = registry st
  /\ registry_file (fst run) = registry_file st.
Proof.
  intros Hfind Hsc Htasks Hplat run. subst run.
  assert (Hurl : forall f, _get_download_url model f = None).
  { intros f. unfold _get_download_url.
    destruct (String.eqb_spec (platform (source model)) "huggingface") as [Hh|_];
      [exfalso; apply Hplat; now left|].
    destruct (String.eqb_spec (platform (source model)) "github") as [Hg|_];
      [exfalso; apply Hplat; now right|reflexivity]. }
  unfold download_model. rewrite Hfind, Hsc.
  destruct (files_to_download model include_optional) as [|[f req] rest]; [congruence|].
  cbn [submit_all]. rewrite Hurl. cbn. repeat split.
Qed.

End SyncRuns.

Lemma downloaded_model_verifies_witness :
  let run := Sync.download_model Fixtures.env_ok
               (Fixtures.start [Fixtures.whisper_tiny None false] ∅)
               "whisper-tiny" false true [1] in
  SyncFleet.verify_model Fixtures.env_ok (registry (fst run)) (world (fst run)) "whisper-tiny"
  = (true, [VAllPresent "whisper-tiny"]).
Proof.
  cbv zeta.
  refine (downloaded_model_verifies Fixtures.env_ok
            (Fixtures.start [Fixtures.whisper_tiny None false] ∅) _
            "whisper-tiny" false true [1] (Fixtures.whisper_tiny None false)
            eq_refl eq_refl _ _).
  - split; [apply (bool_decide_unpack _); vm_compute; exact I|].
    repeat constructor.
  - vm_compute. reflexivity.
Defined.

Lemma unsupported_platform_raises_witness :
  snd (Sync.download_model Fixtures.env_ok
         (Fixtures.start [Fixtures2.local_files_model] ∅) "silero" false false [])
  = Raise "Unsupported platform: local".
Proof.
  refine (proj1 (unsupported_platform_raises Fixtures.env_ok
                   (Fixtures.start [Fixtures2.local_files_model] ∅) "silero" false false []
                   Fixtures2.local_files_model eq_refl eq_refl _ _)).
  - discriminate.
  - intros [H|H]; discriminate.
Defined.

(** ** Fleet runs and the statistics shown *)

Section Fleet.

Import Str Http Sync_url Sync SyncFleet SpecWords Closed Derived.

Context (E : Env).













(** X11: [download_all] does not catch what [download_model] raises: when
    the first model it lists is on an unknown platform and the run gets to
    its files, [download_all] ends with that [ValueError]; no request was
    sent and the models after it are not attempted. *)
Theorem download_all_aborts (st : State) (model_type : option string)
    (force include_optional : bool) (orders : list (list nat)) (m : Model) (rest : list Model) :
  list_models (registry st) model_type None = m :: rest ->
  find_model (registry st) (id m) = Some m ->
  negb force && get_downloaded m = false ->
  files_to_download m include_optional <> [] ->
  ~ supported_platform m ->
  let run := download_all E st model_type force include_optional orders in
  snd run = Raise ("Unsupported platform: " +:+ platform (source m))
  /\ world (fst run) = world st
  /\ registry (fst run) = registry st
  /\ registry_file (fst run) = registry_file st.
Proof.
  intros Hms Hfind Hsc Htasks Hplat run. subst run. unfold download_all. rewrite Hms.
  cbn [download_each].
  assert (Hurl : forall f, _get_download_url m f = None).
  { intros f. unfold _get_download_url.
    destruct (String.eqb_spec (platform (source m)) "huggingface") as [Hh|_];
      [exfalso; apply Hplat; now left|].
    destruct (String.eqb_spec (platform (source m)) "github") as [Hg|_];
      [exfalso; apply Hplat; now right|reflexivity]. }
  unfold download_model. rewrite Hfind, Hsc.
  destruct (files_to_download m include_optional) as [|[f req] more]; [congruence|].
  cbn [submit_all]. rewrite Hurl. cbn. repeat split.
Qed.

Lemma count_downloaded_filter (ms : list Model) :
  Z.of_nat (length (List.filter (fun m => get_downloaded m) ms)) = AddNew.count_downloaded ms.
Proof.
  induction ms as [|m rest IH]; [reflexivity|].
  change (AddNew.count_downloaded (m :: rest))
    with ((if get_downloaded m then 1 else 0) + AddNew.count_downloaded rest)%Z.
  cbn [List.filter]. destruct (get_downloaded m); cbn [length]; lia.
Qed.

(** X12: the counts [show_stats] prints are counted from the model
    records, not read from the stored statistics: whatever the
    [statistics] field holds, they are the counts [_update_statistics]
    would store, and downloaded plus pending is the total.  Only the size
    and the two breakdowns are read from the stored statistics. *)
Theorem show_stats_counts_models (reg : Registry) :
  Z.of_nat (shown_total (show_stats reg))
    = total_models (AddNew.compute_statistics (models reg))
  /\ Z.of_nat (shown_downloaded (show_stats reg))
     = downloaded_models (AddNew.compute_statistics (models reg))
  /\ shown_pending (show_stats reg) = pending_models (AddNew.compute_statistics (models reg))
  /\ (Z.of_nat (shown_downloaded (show_stats reg)) + shown_pending (show_stats reg))%Z
     = Z.of_nat (length (models reg))
  /\ (0 <= shown_pending (show_stats reg))%Z
  /\ (SpecWords.statistics_fresh reg ->
      shown_size_mb (show_stats reg) = total_size_mb (AddNew.compute_statistics (models reg))).
Proof.
  pose proof (count_downloaded_filter (models reg)) as Hc.
  pose proof (count_downloaded_bounds (models reg)) as Hb.
  unfold show_stats. cbn. rewrite Hc. repeat split; try lia.
  unfold SpecWords.statistics_fresh. intros ->. reflexivity.
Qed.

End Fleet.



Lemma download_all_aborts_witness :
  snd (SyncFleet.download_all Fixtures.env_ok
         (Fixtures.start [Fixtures2.local_files_model; Fixtures.whisper_tiny None false] ∅)
         None false false [])
  = Raise "Unsupported platform: local".
Proof.
  refine (proj1 (download_all_aborts Fixtures.env_ok
            (Fixtures.start [Fixtures2.local_files_model; Fixtures.whisper_tiny None false] ∅)
            None false false [] Fixtures2.local_files_model [Fixtures.whisper_tiny None false]
            eq_refl eq_refl eq_refl _ _)).
  - discriminate.
  - intros [H|H]; discriminate.
Defined.

Lemma show_stats_counts_models_witness :
  let reg := Fixtures.registry_of [Fixtures.whisper_tiny None true; Fixtures.local_model] in
  shown_size_mb (SyncFleet.show_stats reg) = 39%Z.
Proof.
  cbv zeta.
  rewrite (proj2 (proj2 (proj2 (proj2 (proj2 (show_stats_counts_models
             (Fixtures.registry_of [Fixtures.whisper_tiny None true; Fixtures.local_model])))))));
    reflexivity.
Defined.

(** ** Model ids and model types of the registration tool *)

Section ModelIds.

Import Str PyStr Registration Derived.

Lemma split_on_nonempty (sep : ascii) (s : string) : split_on sep s <> [].
Proof.
  induction s as [|c rest IH]; cbn; [discriminate|].
  destruct (Ascii.eqb c sep); [discriminate|].
  destruct (split_on sep rest); discriminate.
Qed.

(** Joining the pieces of a split with the separator gives the string back. *)
Lemma join_split (sep : ascii) (s : string) :
  join (String sep EmptyString) (split_on sep s) = s.
Proof.
  induction s as [|c rest IH]; [reflexivity|]. cbn [split_on].
  pose proof (split_on_nonempty sep rest) as Hne.
  destruct (Ascii.eqb_spec c sep) as [->|Hc].
  - destruct (split_on sep rest) as [|h t]; [contradiction|].
    change (join (String sep EmptyString) (EmptyString :: h :: t))
      with (String sep (join (String sep EmptyString) (h :: t))).
    now rewrite IH.
  - destruct (split_on sep rest) as [|h t]; [contradiction|].
    destruct t as [|h' t'].
    + cbn in *. now rewrite IH.
    + change (join (String sep EmptyString) (String c h :: h' :: t'))
        with (String c (join (String sep EmptyString) (h :: h' :: t'))).
      now rewrite IH.
Qed.

Lemma split_on_pieces (sep : ascii) (s piece : string) :
  piece ∈ split_on sep s -> has_char sep piece = false.
Proof.
  revert piece. induction s as [|c rest IH]; intros piece Hin.
  - cbn in Hin. apply list_elem_of_singleton in Hin as ->. reflexivity.
  - cbn [split_on] in Hin. destruct (Ascii.eqb c sep) eqn:Hc.
    + apply elem_of_cons in Hin as [->|Hin]; [reflexivity|now apply IH].
    + destruct (split_on sep rest) as [|h t] eqn:Hs.
      * apply list_elem_of_singleton in Hin as ->. cbn. now rewrite Hc.
      * apply elem_of_cons in Hin as [->|Hin].
        -- cbn. rewrite Hc. cbn. apply IH. now left.
        -- apply IH. now right.
Qed.

Lemma split_on_none (sep : ascii) (s : string) :
  has_char sep s = false -> split_on sep s = [s].
Proof.
  induction s as [|c rest IH]; [reflexivity|]. cbn. intros H.
  apply orb_false_iff in H as [Hc Hrest]. rewrite Hc, IH by exact Hrest. reflexivity.
Qed.

Lemma split_on_app (sep : ascii) (a b : string) :
  has_char sep a = false ->
  split_on sep (a +:+ String sep b) = a :: split_on sep b.
Proof.
  induction a as [|c rest IH]; intros H.
  - change (split_on sep (String sep b) = EmptyString :: split_on sep b).
    cbn. now rewrite Ascii.eqb_refl.
  - cbn in H. apply orb_false_iff in H as [Hc Hrest].
    rewrite str_app_cons. cbn [split_on]. rewrite Hc, IH by exact Hrest. reflexivity.
Qed.

Lemma slash_app (s : string) : "/" +:+ s = String "/"%char s.
Proof. reflexivity. Qed.

Section Parse.

Context (urlparse_path : string -> string).

(** X13: for an argument that does not begin with [http],
    [parse_model_id] returns [(owner, model)] exactly when the argument is
    [owner/model] with no other slash; every other argument (no slash, or
    more than one) raises the [ValueError]. *)
Theorem parse_plain_model_id (s owner model : string) :
  starts_with "http" s = false ->
  (parse_model_id urlparse_path s = Ret (owner, model)
   <-> s = owner +:+ "/" +:+ model
       /\ has_char "/" owner = false /\ has_char "/" model = false)
  /\ (parse_model_id urlparse_path s
      = Raise ("Invalid model ID format. Expected 'owner/model' got: " +:+ s)
      \/ exists o m, parse_model_id urlparse_path s = Ret (o, m)).
Proof.
  intros Hplain. unfold parse_model_id. rewrite Hplain. split.
  - split.
    + intros Hret.
      pose proof (join_split "/" s) as Hjoin.
      pose proof (split_on_pieces "/" s) as Hpieces.
      destruct (split_on "/" s) as [|o [|m [|x l]]]; try discriminate.
      inversion Hret; subst o m. split; [now rewrite <- Hjoin|].
      split; apply Hpieces; [now left|right; now left].
    + intros [-> [Ho Hm]]. rewrite slash_app, split_on_app by exact Ho.
      now rewrite split_on_none by exact Hm.
  - destruct (split_on "/" s) as [|o [|m [|x l]]]; eauto.
Qed.

(** X14: for an argument that begins with [http], only the path of the
    URL counts, without its leading and trailing slashes: a path with no
    slash left raises the [ValueError]; otherwise the first two components
    are the owner and the model, and whatever follows them is dropped. *)
Theorem parse_url_model_id (url owner model : string) :
  starts_with "http" url = true ->
  (has_char "/" (strip "/" (urlparse_path url)) = false ->
   parse_model_id urlparse_path url = Raise ("Invalid Hugging Face URL: " +:+ url))
  /\ (has_char "/" owner = false -> has_char "/" model = false ->
      (strip "/" (urlparse_path url) = owner +:+ "/" +:+ model ->
       parse_model_id urlparse_path url = Ret (owner, model))
      /\ (forall tail,
           strip "/" (urlparse_path url) = owner +:+ "/" +:+ model +:+ "/" +:+ tail ->
           parse_model_id urlparse_path url = Ret (owner, model))).
Proof.
  intros Hurl. unfold parse_model_id. rewrite Hurl. split.
  - intros Hnone. now rewrite split_on_none by exact Hnone.
  - intros Ho Hm. split.
    + intros ->. rewrite slash_app, split_on_app by exact Ho.
      now rewrite split_on_none by exact Hm.
    + intros tail ->. rewrite !slash_app, split_on_app by exact Ho.
      rewrite split_on_app by exact Hm.
      pose proof (split_on_nonempty "/" tail).
      now destruct (split_on "/" tail).
Qed.

End Parse.

(** X15: whatever the name and the task of the configuration, the type
    [_detect_model_type] gives is one of the five types [_update_statistics]
    counts; and a name with [whisper] in it, in any letter case, is [asr]
    whatever else the name and the configuration say. *)
Theorem detected_type_is_counted (model_name : string) (task : option string) :
  _detect_model_type model_name task ∈ model_types
  /\ AddNew.by_type_zero !! _detect_model_type model_name task = Some 0%Z
  /\ (str_in "whisper" (lower model_name) = true ->
      _detect_model_type model_name task = "asr").
Proof.
  unfold _detect_model_type, model_types.
  destruct (str_in "whisper" (lower model_name)).
  { split; [left|split; [reflexivity|reflexivity]]. }
  destruct (existsb _ _).
  { split; [right; left|split; [reflexivity|discriminate]]. }
  destruct (str_in "vad" (lower model_name)
            || str_in "voice" (lower model_name) && str_in "activity" (lower model_name)).
  { split; [do 2 right; left|split; [reflexivity|discriminate]]. }
  destruct (str_in "tts" (lower model_name)
            || str_in "speech" (lower model_name) && str_in "synthesis" (lower model_name)).
  { split; [do 3 right; left|split; [reflexivity|discriminate]]. }
  destruct (str_in "bert" (lower model_name) || str_in "gpt" (lower model_name)
            || str_in "nlp" (lower model_name)).
  { split; [do 4 right; left|split; [reflexivity|discriminate]]. }
  cbv zeta.
  destruct (str_in "speech-recognition" _ || str_in "asr" _).
  { split; [left|split; [reflexivity|discriminate]]. }
  destruct (str_in "text-to-speech" _ || str_in "tts" _).
  { split; [do 3 right; left|split; [reflexivity|discriminate]]. }
  split; [left|split; [reflexivity|discriminate]].
Qed.

End ModelIds.

Lemma parse_plain_model_id_witness :
  Registration.parse_model_id (fun _ => EmptyString) "Xenova/whisper-tiny"
  = Ret ("Xenova", "whisper-tiny").
Proof.
  apply (proj1 (parse_plain_model_id (fun _ => EmptyString)
                  "Xenova/whisper-tiny" "Xenova" "whisper-tiny" eq_refl)).
  repeat split.
Defined.

Lemma parse_url_model_id_witness :
  Registration.parse_model_id (fun _ => "/Xenova/whisper-tiny/tree/main/")
    "https://huggingface.co/Xenova/whisper-tiny/tree/main/"
  = Ret ("Xenova", "whisper-tiny").
Proof.
  apply (proj2 (proj2 (parse_url_model_id (fun _ => "/Xenova/whisper-tiny/tree/main/")
                         "https://huggingface.co/Xenova/whisper-tiny/tree/main/"
                         "Xenova" "whisper-tiny" eq_refl) eq_refl eq_refl) "tree/main").
  reflexivity.
Defined.

Lemma detected_type_is_counted_witness :
  Registration._detect_model_type "Hey-Whisper-VAD" (Some "text-to-speech") = "asr".
Proof.
  apply (proj2 (proj2 (detected_type_is_counted "Hey-Whisper-VAD" (Some "text-to-speech")))).
  reflexivity.
Defined.

(** ** The statistics the registration tool stores *)

Section Breakdowns.

Import Str PyStr AddNew Derived.

Lemma count_key_lookup (k k' : string) (counts : gmap string Z) :
  count_key k' counts !! k
  = if String.eqb k' k then (fun n => (n + 1)%Z) <$> counts !! k else counts !! k.
Proof.
  unfold count_key. destruct (String.eqb_spec k' k) as [->|Hne].
  - destruct (counts !! k) as [n|] eqn:Hk; [now rewrite lookup_insert_eq|now rewrite Hk].
  - destruct (counts !! k') as [n|]; [now rewrite lookup_insert_ne|reflexivity].
Qed.

Lemma foldl_count_lookup (key : Model -> string) (ms : list Model)
    (counts : gmap string Z) (k : string) :
  foldl (fun acc m => count_key (key m) acc) counts ms !! k
  = (fun n => (n + Z.of_nat (length (List.filter (fun m => String.eqb (key m) k) ms)))%Z)
      <$> counts !! k.
Proof.
  revert counts. induction ms as [|m rest IH]; intros counts.
  - cbn. destruct (counts !! k); cbn; [f_equal; lia|reflexivity].
  - cbn [foldl List.filter]. rewrite IH, count_key_lookup.
    destruct (String.eqb (key m) k); destruct (counts !! k); cbn; try reflexivity.
    f_equal. lia.
Qed.

Lemma by_type_zero_lookup (k : string) :
  by_type_zero !! k = if mem k model_types then Some 0%Z else None.
Proof.
  unfold by_type_zero, mem, model_types. cbn [existsb].
  repeat (rewrite lookup_insert; case_decide;
          [subst k; reflexivity
          |match goal with
           | |- context [String.eqb k ?s] =>
               destruct (String.eqb_spec k s) as [He|_]; [congruence|]
           end]).
  cbn. apply lookup_empty.
Qed.

Lemma by_source_zero_lookup (k : string) :
  by_source_zero !! k = if mem k source_platforms then Some 0%Z else None.
Proof.
  unfold by_source_zero, mem, source_platforms. cbn [existsb].
  repeat (rewrite lookup_insert; case_decide;
          [subst k; reflexivity
          |match goal with
           | |- context [String.eqb k ?s] =>
               destruct (String.eqb_spec k s) as [He|_]; [congruence|]
           end]).
  cbn. apply lookup_empty.
Qed.

(** X16: the two breakdowns [_update_statistics] stores have exactly the
    five type keys and the three platform keys, each with the number of
    records of that type or platform; a record of any other type or
    platform is in [total_models] but in no breakdown. *)
Theorem statistics_breakdowns (ms : list Model) (k : string) :
  by_type (compute_statistics ms) !! k
  = (if mem k model_types
     then Some (Z.of_nat (length (List.filter (fun m => String.eqb (type m) k) ms)))
     else None)
  /\ by_source (compute_statistics ms) !! k
     = (if mem k source_platforms
        then Some (Z.of_nat (length
                     (List.filter (fun m => String.eqb (platform (source m)) k) ms)))
        else None).
Proof.
  unfold compute_statistics. cbn [by_type by_source]. split.
  - rewrite (foldl_count_lookup type), by_type_zero_lookup.
    now destruct (mem k model_types).
  - rewrite (foldl_count_lookup (fun m => platform (source m))), by_source_zero_lookup.
    now destruct (mem k source_platforms).
Qed.

Lemma count_downloaded_all (ms : list Model) :
  count_downloaded ms = Z.of_nat (length ms) <-> forall m, m ∈ ms -> get_downloaded m = true.
Proof.
  induction ms as [|m rest IH].
  - cbn. split; [intros _ m Hm; now apply elem_of_nil in Hm|reflexivity].
  - change (count_downloaded (m :: rest))
      with ((if get_downloaded m then 1 else 0) + count_downloaded rest)%Z.
    pose proof (count_downloaded_bounds rest) as Hb.
    rewrite length_cons, Nat2Z.inj_succ. split.
    + intros H x Hx. destruct (get_downloaded m) eqn:Hm; [|lia].
      apply elem_of_cons in Hx as [->|Hx]; [exact Hm|]. apply IH; [lia|exact Hx].
    + intros H. rewrite (H m) by now left.
      assert (count_downloaded rest = Z.of_nat (length rest)) as ->; [|lia].
      apply IH. intros x Hx. apply H. now right.
Qed.

(** X17: the counters [_update_statistics] stores are within bounds:
    downloaded and pending are between 0 and the number of records and add
    up to it, and pending is 0 exactly when every record is marked as
    downloaded. *)
Theorem statistics_counters (ms : list Model) :
  let s := compute_statistics ms in
  total_models s = Z.of_nat (length ms)
  /\ (0 <= downloaded_models s <= total_models s)%Z
  /\ (0 <= pending_models s <= total_models s)%Z
  /\ (downloaded_models s + pending_models s = total_models s)%Z
  /\ (pending_models s = 0%Z <-> forall m, m ∈ ms -> get_downloaded m = true).
Proof.
  pose proof (count_downloaded_bounds ms) as Hb.
  pose proof (count_downloaded_all ms) as Hall.
  cbn. repeat split; try lia.
  - intros H. apply Hall. lia.
  - intros H. apply Hall in H. lia.
Qed.

End Breakdowns.

(** ** Runs of the registration tool *)

Section RegistrationRuns.

Import Str Http AddNew_url AddNew PyStr Registration SpecWords Derived.

Context (E : Env).
Context (urlparse_path : string -> string).
Context (config_task : string -> option string).

(** What every call of the registration tool's [download_file] does to
    the world. *)
Lemma add_new_fetch_facts (w : World) (url dest : string) (show_progress : bool) :
  let run := download_file E w url dest show_progress in
  length (requests (fst (fst run))) = S (length (requests w))
  /\ (forall p, is_Some (fs w !! p) -> is_Some (fs (fst (fst run)) !! p))
  /\ (snd (fst run) = true -> is_Some (fs (fst (fst run)) !! dest)).
Proof.
  unfold download_file.
  pose proof (get_world E w url) as Hw1.
  destruct (get E w url) as [w1 [ex|r]]; simpl in Hw1; subst w1.
  - destruct ex as [code e|e|e]; [destruct (code =? 404)%Z|..]; cbn;
      (split; [rewrite length_app; cbn; lia|split; [auto|discriminate]]).
  - destruct (total_size r) as [ex|total].
    { destruct ex as [code e|e|e]; [destruct (code =? 404)%Z|..]; cbn;
        (split; [rewrite length_app; cbn; lia|split; [auto|discriminate]]). }
    set (w1 := {| fs := fs w; requests := _ |}).
    assert (Hsave : forall skip,
              let '(w2, ex) := save_body E skip w1 dest r in
              length (requests w2) = S (length (requests w))
              /\ (forall p, is_Some (fs w !! p) -> is_Some (fs w2 !! p))
              /\ (ex = None -> is_Some (fs w2 !! dest))).
    { intros skip. unfold save_body. destruct (open_error E dest).
      - cbn. split; [rewrite length_app; cbn; lia|split; [auto|discriminate]].
      - destruct (write_chunks _ _ _ _ _ _ _) as [content ex]. cbn.
        split; [rewrite length_app; cbn; lia|]. split.
        + intros p Hp. destruct (decide (p = dest)) as [->|Hne].
          * rewrite lookup_insert_eq. eauto.
          * now rewrite lookup_insert_ne.
        + intros _. rewrite lookup_insert_eq. eauto. }
    destruct (show_progress && (0 <? total)%Z).
    + specialize (Hsave true). destruct (save_body E true w1 dest r) as [w2 [ex|]].
      * destruct Hsave as [H1 [H2 _]].
        destruct ex as [code e|e|e]; [destruct (code =? 404)%Z|..]; cbn;
          (split; [exact H1|split; [exact H2|discriminate]]).
      * destruct Hsave as [H1 [H2 H3]]. cbn. split; [exact H1|split; [exact H2|auto]].
    + specialize (Hsave false). destruct (save_body E false w1 dest r) as [w2 [ex|]].
      * destruct Hsave as [H1 [H2 _]].
        destruct ex as [code e|e|e]; [destruct (code =? 404)%Z|..]; cbn;
          (split; [exact H1|split; [exact H2|discriminate]]).
      * destruct Hsave as [H1 [H2 H3]]. cbn. split; [exact H1|split; [exact H2|auto]].
Qed.


(** The loop over the required files: every file ends in exactly one of
    the two lists, the files fetched are on disk, nothing on disk is lost,
    and one request is sent per file, but for [config.json] when it is
    there already. *)
Lemma fetch_required_facts (owner model_name model_dir : string) (files : list string)
    (w : World) (downloaded failed : list string) (lines : list RegLine) :
  "normalizer.json" ∉ files ->
  exists w' got lost lines',
    fetch_required E w owner model_name model_dir files downloaded failed lines
      = (w', downloaded ++ got, failed ++ lost, lines')
    /\ got ++ lost ≡ₚ files
    /\ (forall p, is_Some (fs w !! p) -> is_Some (fs w' !! p))
    /\ (forall f, f ∈ got -> is_Some (fs w' !! path_join model_dir f))
    /\ (forall f, f ∈ got ->
          f = "config.json"
          \/ exists w0, snd (fst (download_file E w0 (build_file_url owner model_name f None)
                                    (path_join model_dir f) false)) = true)
    /\ length (requests w)
         + length (List.filter (fun f => negb (String.eqb f "config.json")) files)
       <= length (requests w') <= length (requests w) + length files.
Proof.
  revert w downloaded failed lines.
  induction files as [|f rest IH]; intros w downloaded failed lines Hnorm.
  - exists w, [], [], lines. cbn. rewrite !app_nil_r. repeat split; auto; try lia;
      intros f Hf; now apply elem_of_nil in Hf.
  - apply not_elem_of_cons in Hnorm as [Hf Hrest]. cbn [fetch_required].
    destruct (String.eqb f "config.json"
              && bool_decide (is_Some (fs w !! path_join model_dir "config.json"))) eqn:Hskip.
    + apply andb_true_iff in Hskip as [Hcfg Hthere].
      apply String.eqb_eq in Hcfg. subst f. apply bool_decide_eq_true in Hthere.
      destruct (IH w (downloaded ++ ["config.json"]) failed lines Hrest)
        as [w' [got [lost [lines' [Hrun [Hperm [Hmono [Hdisk [Hwhy Hreq]]]]]]]]].
      exists w', ("config.json" :: got), lost, lines'.
      rewrite Hrun, <- app_assoc. cbn [app]. split; [reflexivity|].
      split; [cbn; now rewrite Hperm|]. split; [exact Hmono|]. split; [|split].
      * intros f Hin. apply elem_of_cons in Hin as [->|Hin]; [now apply Hmono|now apply Hdisk].
      * intros f Hin. apply elem_of_cons in Hin as [->|Hin]; [now left|now apply Hwhy].
      * cbn [List.filter length]. cbn. lia.
    + pose proof (add_new_fetch_facts w (build_file_url owner model_name f None)
                    (path_join model_dir f) false) as Hfetch.
      destruct (download_file E w (build_file_url owner model_name f None)
                  (path_join model_dir f) false) as [[w1 ok] printed] eqn:Hcall.
      cbv zeta in Hfetch. cbn [fst snd] in Hfetch. destruct Hfetch as [Hreq1 [Hmono1 Hok]].
      assert (Hcount : length (List.filter (fun f => negb (String.eqb f "config.json")) (f :: rest))
                       <= S (length (List.filter (fun f => negb (String.eqb f "config.json")) rest))).
      { cbn [List.filter]. destruct (negb _); cbn; lia. }
      destruct ok.
      * destruct (IH w1 (downloaded ++ [f]) failed (lines ++ map RFile printed) Hrest)
          as [w' [got [lost [lines' [Hrun [Hperm [Hmono [Hdisk [Hwhy Hreq]]]]]]]]].
        exists w', (f :: got), lost, lines'.
        rewrite Hrun, <- app_assoc. cbn [app]. split; [reflexivity|].
        split; [cbn; now rewrite Hperm|]. split; [auto|]. split; [|split].
        -- intros x Hin. apply elem_of_cons in Hin as [->|Hin]; [auto|now apply Hdisk].
        -- intros x Hin. apply elem_of_cons in Hin as [->|Hin]; [|now apply Hwhy].
           right. exists w. now rewrite Hcall.
        -- cbn [length]. lia.
      * assert (Hmem : mem f ["normalizer.json"] = false).
        { cbn. destruct (String.eqb_spec f "normalizer.json"); [congruence|reflexivity]. }
        rewrite Hmem.
        destruct (IH w1 downloaded (failed ++ [f]) (lines ++ map RFile printed) Hrest)
          as [w' [got [lost [lines' [Hrun [Hperm [Hmono [Hdisk [Hwhy Hreq]]]]]]]]].
        exists w', got, (f :: lost), lines'.
        rewrite Hrun, <- app_assoc. cbn [app]. split; [reflexivity|].
        split; [rewrite <- Permutation_middle; now rewrite Hperm|]. split; [auto|].
        split; [exact Hdisk|]. split; [exact Hwhy|]. cbn [length]. lia.
Qed.

(** The loop over the optional files: the files fetched are on disk,
    nothing on disk is lost, and one request is sent per file. *)
Lemma fetch_optional_facts (owner model_name model_dir : string) (files : list string)
    (w : World) (downloaded : list string) (lines : list RegLine) :
  exists w' got lines',
    fetch_optional E w owner model_name model_dir files downloaded lines
      = (w', downloaded ++ got, lines')
    /\ got `sublist_of` files
    /\ (forall p, is_Some (fs w !! p) -> is_Some (fs w' !! p))
    /\ (forall f, f ∈ got -> is_Some (fs w' !! path_join model_dir f))
    /\ length (requests w') = length (requests w) + length files.
Proof.
  revert w downloaded lines. induction files as [|f rest IH]; intros w downloaded lines.
  - exists w, [], lines. cbn. rewrite app_nil_r. repeat split; auto.
    intros f Hf. now apply elem_of_nil in Hf.
  - cbn [fetch_optional].
    pose proof (add_new_fetch_facts w (build_file_url owner model_name f None)
                  (path_join model_dir f) false) as Hfetch.
    destruct (download_file E w (build_file_url owner model_name f None)
                (path_join model_dir f) false) as [[w1 ok] printed].
    cbv zeta in Hfetch. cbn [fst snd] in Hfetch. destruct Hfetch as [Hreq1 [Hmono1 Hok]].
    destruct ok.
    + destruct (IH w1 (downloaded ++ [f]) (lines ++ map RFile printed))
        as [w' [got [lines' [Hrun [Hsub [Hmono [Hdisk Hreq]]]]]]].
      exists w', (f :: got), lines'. rewrite Hrun, <- app_assoc. cbn [app].
      split; [reflexivity|]. split; [now apply sublist_skip|]. split; [auto|]. split.
      * intros x Hin. apply elem_of_cons in Hin as [->|Hin]; [auto|now apply Hdisk].
      * cbn [length]. lia.
    + destruct (IH w1 downloaded (lines ++ map RFile printed))
        as [w' [got [lines' [Hrun [Hsub [Hmono [Hdisk Hreq]]]]]]].
      exists w', got, lines'. rewrite Hrun. split; [reflexivity|].
      split; [now apply sublist_cons|]. split; [auto|]. split; [exact Hdisk|].
      cbn [length]. lia.
Qed.

(** The state and the result of [download_model] once it has decided to
    download: what was fetched, and the record it writes. *)
Lemma register_steps (st : State) (owner model_name : string)
    (existing_model : option Model) (include_optional : bool) (lines : list RegLine) :
  let model_dir :=
    path_join (path_join (path_join (models_dir E) "huggingface") owner) model_name in
  let run := download_and_register E config_task st owner model_name existing_model
               include_optional lines in
  exists w got lost opt model_type,
    got ++ lost ≡ₚ REQUIRED_FILES
    /\ opt `sublist_of` (if include_optional then OPTIONAL_FILES else [])
    /\ (forall p, is_Some (fs (world st) !! p) -> is_Some (fs w !! p))
    /\ (forall f, f ∈ got ++ opt -> is_Some (fs w !! path_join model_dir f))
    /\ (forall f, f ∈ got ->
          f = "config.json"
          \/ exists w0, snd (fst (download_file E w0 (build_file_url owner model_name f None)
                                    (path_join model_dir f) false)) = true)
    /\ length (requests (world st)) + 8 + (if include_optional then 7 else 0)
       <= length (requests w)
       <= length (requests (world st)) + 9 + (if include_optional then 7 else 0)
    /\ (fst (fst run), snd run)
       = match existing_model with
         | Some existing =>
             match status existing with
             | None => (with_registry (registry st) w st, Raise "KeyError: 'status'")
             | Some s =>
                 let entry :=
                   Sync.with_status
                     (Some (set_download_status E (bool_decide (lost = [])) s)) existing in
                 (_save_registry E (_update_statistics
                    (with_registry
                       (Sync.with_models
                          (update_existing owner model_name (fun _ => entry)
                             (models (registry st)))
                          (registry st)) w st)),
                  Ret entry)
             end
         | None =>
             let entry := new_entry E owner model_name model_type (got ++ opt) lost in
             (_save_registry E (_update_statistics
                (with_registry
                   (Sync.with_models (models (registry st) ++ [entry]) (registry st)) w st)),
              Ret entry)
         end.
Proof.
  intros model_dir run. subst run. unfold download_and_register. fold model_dir.
  pose proof (add_new_fetch_facts (world st)
                (build_file_url owner model_name "config.json" None)
                (path_join model_dir "config.json") false) as Hcfg.
  destruct (download_file E (world st) (build_file_url owner model_name "config.json" None)
              (path_join model_dir "config.json") false) as [[w1 config_ok] printed].
  cbv zeta in Hcfg. cbn [fst snd] in Hcfg. destruct Hcfg as [Hreq1 [Hmono1 _]].
  set (model_type := _detect_model_type model_name _).
  set (lines1 := (lines ++ [ROutputDirectory model_dir]) ++ map RFile printed).
  destruct (fetch_required_facts owner model_name model_dir REQUIRED_FILES w1 [] []
              (lines1 ++ [RDownloadingRequired]))
    as [w2 [got [lost [lines2 [Hrun2 [Hperm [Hmono2 [Hdisk2 [Hwhy Hreq2]]]]]]]]].
  { unfold REQUIRED_FILES. rewrite !not_elem_of_cons. repeat split; try discriminate.
    apply not_elem_of_nil. }
  rewrite Hrun2. cbn [app].
  assert (Hopt : exists w3 opt lines3,
            (if include_optional
             then fetch_optional E w2 owner model_name model_dir OPTIONAL_FILES got
                    (lines2 ++ [RDownloadingOptional])
             else (w2, got, lines2)) = (w3, got ++ opt, lines3)
            /\ opt `sublist_of` (if include_optional then OPTIONAL_FILES else [])
            /\ (forall p, is_Some (fs w2 !! p) -> is_Some (fs w3 !! p))
            /\ (forall f, f ∈ opt -> is_Some (fs w3 !! path_join model_dir f))
            /\ length (requests w3)
               = length (requests w2) + (if include_optional then 7 else 0)).
  { destruct include_optional.
    - destruct (fetch_optional_facts owner model_name model_dir OPTIONAL_FILES w2 got
                  (lines2 ++ [RDownloadingOptional]))
        as [w3 [opt [lines3 [Hrun3 [Hsub [Hmono3 [Hdisk3 Hreq3]]]]]]].
      exists w3, opt, lines3. repeat split; auto.
    - exists w2, [], lines2. rewrite app_nil_r. repeat split; auto.
      intros f Hf. now apply elem_of_nil in Hf. }
  destruct Hopt as [w3 [opt [lines3 [Hrun3 [Hsub [Hmono3 [Hdisk3 Hreq3]]]]]]].
  rewrite Hrun3.
  exists w3, got, lost, opt, model_type.
  split; [exact Hperm|]. split; [exact Hsub|]. split; [auto|]. split.
  { intros f Hf. apply elem_of_app in Hf as [Hf|Hf]; [apply Hmono3; now apply Hdisk2|now apply Hdisk3]. }
  split; [exact Hwhy|]. split.
  { cbn in Hreq2. lia. }
  destruct existing_model as [existing|]; [destruct (status existing)|]; reflexivity.
Qed.

Lemma find_existing_appended (ms : list Model) (owner model_name : string) (entry : Model) :
  List.find (same_repository owner model_name) ms = None ->
  same_repository owner model_name entry = true ->
  List.find (same_repository owner model_name) (ms ++ [entry]) = Some entry.
Proof.
  intros Hnone Hentry. induction ms as [|x rest IH]; cbn in *; [now rewrite Hentry|].
  destruct (same_repository owner model_name x); [discriminate|now apply IH].
Qed.

Lemma find_existing_updated (ms : list Model) (owner model_name : string)
    (existing entry : Model) :
  List.find (same_repository owner model_name) ms = Some existing ->
  same_repository owner model_name entry = true ->
  List.find (same_repository owner model_name)
    (update_existing owner model_name (fun _ => entry) ms) = Some entry.
Proof.
  intros Hfind Hentry. induction ms as [|x rest IH]; cbn in *; [discriminate|].
  destruct (same_repository owner model_name x) eqn:Hx; cbn.
  - now rewrite Hentry.
  - rewrite Hx. now apply IH.
Qed.

Lemma same_repository_new_entry (owner model_name model_type : string)
    (files_downloaded files_failed : list string) :
  same_repository owner model_name
    (new_entry E owner model_name model_type files_downloaded files_failed) = true.
Proof. unfold same_repository. cbn. now rewrite !String.eqb_refl. Qed.

(** After a run that returned a record, the record is the one
    [find_existing_model] finds. *)
Lemma registered_is_found (st st' : State) (model_id owner model_name : string)
    (force include_optional : bool) (lines : list RegLine) (entry : Model) :
  parse_model_id urlparse_path model_id = Ret (owner, model_name) ->
  download_model E urlparse_path config_task st model_id force include_optional
    = (st', lines, Ret entry) ->
  find_existing_model (registry st') owner model_name = Some entry.
Proof.
  intros Hparse Hrun. unfold download_model in Hrun. rewrite Hparse in Hrun.
  destruct (find_existing_model (registry st) owner model_name) as [existing|] eqn:Hfind.
  - destruct (negb force && get_downloaded existing).
    { inversion Hrun; subst. exact Hfind. }
    destruct (register_steps st owner model_name (Some existing) include_optional
                [RProcessing (owner +:+ "/" +:+ model_name)])
      as [w [got [lost [opt [ty [_ [_ [_ [_ [_ [_ Heq]]]]]]]]]]].
    cbv zeta in Heq. rewrite Hrun in Heq. cbn [fst snd] in Heq.
    destruct (status existing) as [s|]; [|discriminate].
    inversion Heq; subst. unfold find_existing_model. cbn.
    apply (find_existing_updated _ _ _ existing); [exact Hfind|].
    unfold find_existing_model in Hfind. apply find_some in Hfind as [_ Hsame]. exact Hsame.
  - destruct (register_steps st owner model_name None include_optional
                [RProcessing (owner +:+ "/" +:+ model_name)])
      as [w [got [lost [opt [ty [_ [_ [_ [_ [_ [_ Heq]]]]]]]]]]].
    cbv zeta in Heq. rewrite Hrun in Heq. cbn [fst snd] in Heq.
    inversion Heq; subst. unfold find_existing_model. cbn.
    apply find_existing_appended; [exact Hfind|apply same_repository_new_entry].
Qed.

(** X18: a model that is in the registry and marked as downloaded is not
    fetched again without [force]: the call returns the record and leaves
    the state as it was; and after any call that returned a record marked
    as downloaded, a further call without [force] is such a no-op. *)
Theorem registration_is_idempotent (st : State) (model_id owner model_name : string) :
  parse_model_id urlparse_path model_id = Ret (owner, model_name) ->
  (forall existing include_optional,
     find_existing_model (registry st) owner model_name = Some existing ->
     get_downloaded existing = true ->
     download_model E urlparse_path config_task st model_id false include_optional
     = (st, [RProcessing (owner +:+ "/" +:+ model_name); RAlreadyDownloaded], Ret existing))
  /\ (forall force include_optional st1 lines entry,
        download_model E urlparse_path config_task st model_id force include_optional
          = (st1, lines, Ret entry) ->
        get_downloaded entry = true ->
        forall include_optional',
          download_model E urlparse_path config_task st1 model_id false include_optional'
          = (st1, [RProcessing (owner +:+ "/" +:+ model_name); RAlreadyDownloaded], Ret entry)).
Proof.
  intros Hparse.
  assert (Hnoop : forall s existing include_optional,
            find_existing_model (registry s) owner model_name = Some existing ->
            get_downloaded existing = true ->
            download_model E urlparse_path config_task s model_id false include_optional
            = (s, [RProcessing (owner +:+ "/" +:+ model_name); RAlreadyDownloaded],
               Ret existing)).
  { intros s existing include_optional Hfind Hd. unfold download_model.
    rewrite Hparse, Hfind, Hd. reflexivity. }
  split; [apply Hnoop|].
  intros force include_optional st1 lines entry Hrun Hd include_optional'.
  apply Hnoop; [|exact Hd]. eapply registered_is_found; eauto.
Qed.


(** X20: whenever [download_model] returns a record after fetching, the
    registry file it leaves is the registry in memory, its statistics are
    those of its models, its date is today's, and it holds the record. *)
Theorem registration_persists_fresh (st st' : State) (model_id owner model_name : string)
    (force include_optional : bool) (lines : list RegLine) (entry : Model) :
  parse_model_id urlparse_path model_id = Ret (owner, model_name) ->
  download_model E urlparse_path config_task st model_id force include_optional
    = (st', lines, Ret entry) ->
  st' = st
  \/ (registry_file st' = registry st'
      /\ statistics_fresh (registry_file st')
      /\ last_updated (registry_file st') = today E
      /\ entry ∈ models (registry_file st')
      /\ length (models (registry st)) <= length (models (registry_file st'))).
Proof.
  intros Hparse Hrun.
  pose proof (registered_is_found st st' model_id owner model_name force include_optional
                lines entry Hparse Hrun) as Hfound.
  unfold download_model in Hrun. rewrite Hparse in Hrun.
  assert (Hin : entry ∈ models (registry st')).
  { unfold find_existing_model in Hfound. apply find_some in Hfound as [Hin _].
    now apply list_elem_of_In. }
  assert (Hsteps : forall existing_model,
            download_and_register E config_task st owner model_name existing_model
              include_optional [RProcessing (owner +:+ "/" +:+ model_name)]
            = (st', lines, Ret entry) ->
            registry_file st' = registry st'
            /\ statistics_fresh (registry_file st')
            /\ last_updated (registry_file st') = today E
            /\ length (models (registry st)) <= length (models (registry st'))).
  { intros existing_model Hreg.
    destruct (register_steps st owner model_name existing_model include_optional
                [RProcessing (owner +:+ "/" +:+ model_name)])
      as [w [got [lost [opt [ty [_ [_ [_ [_ [_ [_ Heq]]]]]]]]]]].
    cbv zeta in Heq. rewrite Hreg in Heq. cbn [fst snd] in Heq.
    destruct existing_model as [existing|]; [destruct (status existing) as [s|]|];
      inversion Heq; subst; cbn; repeat split.
    - clear. induction (models (registry st)) as [|x rest IH]; cbn; [lia|].
      destruct (same_repository owner model_name x); cbn; lia.
    - rewrite length_app. lia. }
  destruct (find_existing_model (registry st) owner model_name) as [existing|].
  - destruct (negb force && get_downloaded existing).
    + left. now inversion Hrun.
    + right. destruct (Hsteps _ Hrun) as [H1 [H2 [H3 H4]]].
      rewrite H1 in *. repeat split; assumption.
  - right. destruct (Hsteps _ Hrun) as [H1 [H2 [H3 H4]]].
    rewrite H1 in *. repeat split; assumption.
Qed.

Lemma mem_elem_of (x : string) (xs : list string) : mem x xs = true <-> x ∈ xs.
Proof.
  unfold mem. rewrite existsb_exists. split.
  - intros [y [Hin Heq]]. apply String.eqb_eq in Heq. subst. now apply list_elem_of_In.
  - intros Hin. exists x. split; [now apply list_elem_of_In|apply String.eqb_refl].
Qed.




Lemma model_dir_eq (owner model_name : string) :
  path_join (models_dir E) ("huggingface/" +:+ owner +:+ "/" +:+ model_name)
  = path_join (path_join (path_join (models_dir E) "huggingface") owner) model_name.
Proof. unfold path_join. now rewrite !str_app_assoc. Qed.


Lemma new_entry_required (owner model_name model_type : string)
    (files_downloaded files_failed : list string) :
  files_required (new_entry E owner model_name model_type files_downloaded files_failed)
  = List.filter (fun f => mem f files_downloaded) REQUIRED_FILES.
Proof. reflexivity. Qed.

Lemma new_entry_optional (owner model_name model_type : string)
    (files_downloaded files_failed : list string) :
  files_optional (new_entry E owner model_name model_type files_downloaded files_failed)
  = List.filter (fun f => mem f files_downloaded) OPTIONAL_FILES.
Proof. reflexivity. Qed.


Lemma new_entry_local_path (owner model_name model_type : string)
    (files_downloaded files_failed : list string) :
  local_path (new_entry E owner model_name model_type files_downloaded files_failed)
  = "huggingface/" +:+ owner +:+ "/" +:+ model_name.
Proof. reflexivity. Qed.

(** A run for a model that is not in the registry: what is fetched and
    the record appended. *)
Lemma new_model_run (st : State) (model_id owner model_name : string)
    (force include_optional : bool) :
  parse_model_id urlparse_path model_id = Ret (owner, model_name) ->
  find_existing_model (registry st) owner model_name = None ->
  let model_dir :=
    path_join (path_join (path_join (models_dir E) "huggingface") owner) model_name in
  let run := download_model E urlparse_path config_task st model_id force include_optional in
  exists w got lost opt model_type,
    got ++ lost ≡ₚ REQUIRED_FILES
    /\ opt `sublist_of` (if include_optional then OPTIONAL_FILES else [])
    /\ (forall f, f ∈ got ++ opt -> is_Some (fs w !! path_join model_dir f))
    /\ (forall f, f ∈ got ->
          f = "config.json"
          \/ exists w0, snd (fst (download_file E w0 (build_file_url owner model_name f None)
                                    (path_join model_dir f) false)) = true)
    /\ snd run = Ret (new_entry E owner model_name model_type (got ++ opt) lost)
    /\ world (fst (fst run)) = w
    /\ models (registry (fst (fst run)))
       = models (registry st) ++ [new_entry E owner model_name model_type (got ++ opt) lost].
Proof.
  intros Hparse Hfind model_dir run. subst run. unfold download_model. rewrite Hparse, Hfind.
  destruct (register_steps st owner model_name None include_optional
              [RProcessing (owner +:+ "/" +:+ model_name)])
    as [w [got [lost [opt [ty [Hperm [Hsub [_ [Hdisk [Hwhy [_ Heq]]]]]]]]]]].
  cbv zeta in Heq.
  destruct (download_and_register E config_task st owner model_name None include_optional _)
    as [[st' lines] res].
  cbn [fst snd] in *. inversion Heq; subst.
  exists w, got, lost, opt, ty. repeat split; auto.
Qed.





Lemma supported_url (model : Model) (file_path : string) :
  supported_platform model -> is_Some (Sync_url._get_download_url model file_path).
Proof.
  intros Hsup. unfold Sync_url._get_download_url. destruct Hsup as [-> | ->]; cbn; [eauto|].
  destruct (String.eqb (repository (source model)) "openWakeWord"); [|eauto].
  destruct (negb _); eauto.
Qed.

(** When every file of the tasks is on disk, the sync submission sends
    nothing and every fetch succeeds. *)
Lemma submit_all_existing (model : Model) (lp : string) (tasks : list Task) (w : World) :
  supported_platform model ->
  (forall t, t ∈ tasks -> is_Some (fs w !! path_join lp (fst t))) ->
  exists outcomes,
    Sync.submit_all E w model lp tasks = (w, Some outcomes)
    /\ forall o : Outcome, o ∈ outcomes -> fst (snd o) = true.
Proof.
  intros Hsup. induction tasks as [|[file_path is_required] rest IH]; intros Hall.
  - exists []. split; [reflexivity|]. intros o Ho. now apply elem_of_nil in Ho.
  - cbn [Sync.submit_all].
    destruct (supported_url model file_path Hsup) as [url ->].
    destruct (Hall (file_path, is_required)) as [content Hc]; [now left|]. cbn in Hc.
    rewrite (sync_fetch_existing E w url _ content Hc).
    destruct IH as [outs [Hrun Hok]]; [intros t Ht; apply Hall; now right|].
    rewrite Hrun. eexists. split; [reflexivity|].
    intros o Ho. apply elem_of_cons in Ho as [->|Ho]; [reflexivity|now apply Hok].
Qed.

Lemma find_appended_by_id (ms : list Model) (e : Model) :
  List.find (fun m => String.eqb (id m) (id e)) ms = None ->
  List.find (fun m => String.eqb (id m) (id e)) (ms ++ [e]) = Some e.
Proof.
  induction ms as [|x rest IH]; cbn; intros Hnone.
  - now rewrite String.eqb_refl.
  - destruct (String.eqb (id x) (id e)); [discriminate|now apply IH].
Qed.

(** X24: the two tools together.  After the registration of a new model
    whose id is not taken and of which at least one required file was
    fetched, a sync run for that id, without [force], returns [True]
    without sending a request and leaves the record marked as downloaded:
    also when the registration had failed for some standard required
    files, because the manifest of the record lists only what was fetched. *)
Theorem sync_after_registration (st st1 : State) (model_id owner model_name : string)
    (force include_optional : bool) (lines : list RegLine) (entry : Model)
    (include_optional' : bool) (order : list nat) :
  parse_model_id urlparse_path model_id = Ret (owner, model_name) ->
  find_existing_model (registry st) owner model_name = None ->
  (forall x, x ∈ models (registry st) -> id x <> replace_char "." "-" model_name) ->
  download_model E urlparse_path config_task st model_id force include_optional
    = (st1, lines, Ret entry) ->
  files_required entry <> [] ->
  let sync := Sync.download_model E st1 (id entry) false include_optional' order in
  snd sync = Ret true
  /\ world (fst sync) = world st1
  /\ exists m, Sync.find_model (registry (fst sync)) (id entry) = Some m
              /\ get_downloaded m = true.
Proof.
  intros Hparse Hfind Hfree Hrun Hfiles sync.
  destruct (new_model_run st model_id owner model_name force include_optional Hparse Hfind)
    as [w [got [lost [opt [ty [Hperm [Hsub [Hdisk [_ [Hres [Hworld Hmodels]]]]]]]]]]].
  cbv zeta in Hres, Hworld, Hmodels. rewrite Hrun in Hres, Hworld, Hmodels.
  cbn [fst snd] in Hres, Hworld, Hmodels.
  assert (Hentry : entry = new_entry E owner model_name ty (got ++ opt) lost) by congruence.
  assert (Hid : id entry = replace_char "." "-" model_name) by (now subst entry).
  assert (Hplat : supported_platform entry) by (subst entry; now left).
  assert (Hfound : Sync.find_model (registry st1) (id entry) = Some entry).
  { unfold Sync.find_model. rewrite Hmodels.
    assert (Hnone : List.find (fun m => String.eqb (id m) (id entry)) (models (registry st))
                    = None).
    { destruct (List.find _ (models (registry st))) as [x|] eqn:Hx; [|reflexivity].
      apply find_some in Hx as [Hin Hidx]. apply String.eqb_eq in Hidx.
      exfalso. apply (Hfree x); [now apply list_elem_of_In|]. congruence. }
    rewrite <- Hentry. now apply find_appended_by_id. }
  assert (Hmarked : forall st2, Sync.download_model E st1 (id entry) false include_optional' order
                                = (st2, Ret true) ->
            exists m, Sync.find_model (registry st2) (id entry) = Some m
                      /\ get_downloaded m = true).
  { intros st2. apply successful_run_marks. }
  assert (Hgoal : snd sync = Ret true /\ world (fst sync) = world st1).
  { subst sync.
    destruct (download_model_cases E st1 (id entry) false include_optional' order)
      as [[H _]|[model [Hfind' H]]]; [congruence|].
    assert (model = entry) by congruence. subst model. cbv zeta in H.
    destruct H as [[_ H]|[[_ [Hno _]]|[[_ [_ [w' [Hsub' _]]]]|[_ [_ [w' [outs [Hsub' H]]]]]]]].
    - rewrite H. split; reflexivity.
    - exfalso. unfold Sync.files_to_download in Hno.
      apply app_eq_nil in Hno as [Hno _]. apply fmap_nil_inv in Hno. contradiction.
    - exfalso.
      destruct (submit_all_existing entry (path_join (models_dir E) (local_path entry))
                  (Sync.files_to_download entry include_optional') (world st1))
        as [outs [Hrun' _]].
      + exact Hplat.
      + intros [file req] Ht. cbn [fst]. rewrite Hworld. subst entry.
        rewrite new_entry_local_path, model_dir_eq.
        apply Hdisk. unfold Sync.files_to_download in Ht.
        rewrite new_entry_required, new_entry_optional in Ht.
        apply elem_of_app in Ht as [Ht|Ht].
        * apply list_elem_of_fmap in Ht as [x [[= -> _] Hx]].
          apply bool_filter_elem_of in Hx as [_ Hx]. now apply mem_elem_of.
        * destruct include_optional'; [|now apply elem_of_nil in Ht].
          apply list_elem_of_fmap in Ht as [x [[= -> _] Hx]].
          apply bool_filter_elem_of in Hx as [_ Hx]. now apply mem_elem_of.
      + rewrite Hrun' in Hsub'. discriminate.
    - destruct (submit_all_existing entry (path_join (models_dir E) (local_path entry))
                  (Sync.files_to_download entry include_optional') (world st1))
        as [outs' [Hrun' Hok]].
      + exact Hplat.
      + intros [file req] Ht. cbn [fst]. rewrite Hworld. subst entry.
        rewrite new_entry_local_path, model_dir_eq.
        apply Hdisk. unfold Sync.files_to_download in Ht.
        rewrite new_entry_required, new_entry_optional in Ht.
        apply elem_of_app in Ht as [Ht|Ht].
        * apply list_elem_of_fmap in Ht as [x [[= -> _] Hx]].
          apply bool_filter_elem_of in Hx as [_ Hx]. now apply mem_elem_of.
        * destruct include_optional'; [|now apply elem_of_nil in Ht].
          apply list_elem_of_fmap in Ht as [x [[= -> _] Hx]].
          apply bool_filter_elem_of in Hx as [_ Hx]. now apply mem_elem_of.
      + rewrite Hrun' in Hsub'. inversion Hsub'; subst w' outs. rewrite H.
        unfold Closed.settled.
        assert (Hnil : failed_required
                         (Sync.as_completed order outs' (length outs')) = []).
        { pose proof (failed_required_perm _ _ (as_completed_perm outs' order)) as Hp.
          assert (Hzero : failed_required outs' = []).
          { apply failed_required_nil_iff. intros o Ho _. now apply Hok. }
          rewrite Hzero in Hp. now apply Permutation_nil_r in Hp. }
        rewrite Hnil. split; reflexivity. }
  destruct Hgoal as [Hret Hw]. split; [exact Hret|]. split; [exact Hw|].
  apply Hmarked. subst sync.
  destruct (Sync.download_model E st1 (id entry) false include_optional' order) as [st2 res].
  cbn in Hret. now subst res.
Qed.

End RegistrationRuns.

Lemma run_changes_only_status_witness :
  Forall2 (fun m m' => Derived.same_but_status m m' /\ (id m <> "whisper-tiny" -> m' = m))
    [Fixtures.local_model; Fixtures.whisper_tiny None false]
    (models (registry (fst (Sync.download_model Fixtures.env_ok
                              (Fixtures.start [Fixtures.local_model;
                                               Fixtures.whisper_tiny None false] ∅)
                              "whisper-tiny" false false [])))).
Proof.
  exact (run_changes_only_status Fixtures.env_ok
           (Fixtures.start [Fixtures.local_model; Fixtures.whisper_tiny None false] ∅)
           "whisper-tiny" false false []).
Defined.

Lemma statistics_counters_witness :
  get_downloaded (Fixtures.whisper_tiny None true) = true.
Proof.
  apply (proj1 (proj2 (proj2 (proj2 (proj2
           (statistics_counters [Fixtures.whisper_tiny None true])))))).
  - reflexivity.
  - left.
Defined.

Lemma registration_is_idempotent_witness :
  Registration.download_model Fixtures.env_ok Fixtures2.plain_urlparse Fixtures2.no_task
    (Fixtures.start [Fixtures.whisper_tiny None true] ∅) "Xenova/whisper-tiny" false true
  = (Fixtures.start [Fixtures.whisper_tiny None true] ∅,
     [RProcessing "Xenova/whisper-tiny"; RAlreadyDownloaded],
     Ret (Fixtures.whisper_tiny None true)).
Proof.
  exact (proj1 (registration_is_idempotent Fixtures.env_ok Fixtures2.plain_urlparse
                  Fixtures2.no_task (Fixtures.start [Fixtures.whisper_tiny None true] ∅)
                  "Xenova/whisper-tiny" "Xenova" "whisper-tiny" eq_refl)
           (Fixtures.whisper_tiny None true) true eq_refl eq_refl).
Defined.


Lemma registration_persists_fresh_witness :
  fst (fst Fixtures2.failed_registration) = Fixtures.start [] ∅
  \/ (registry_file (fst (fst Fixtures2.failed_registration))
        = registry (fst (fst Fixtures2.failed_registration))
      /\ SpecWords.statistics_fresh (registry_file (fst (fst Fixtures2.failed_registration)))
      /\ last_updated (registry_file (fst (fst Fixtures2.failed_registration))) = "2026-01-15"
      /\ Fixtures2.failed_registration_entry
           ∈ models (registry_file (fst (fst Fixtures2.failed_registration)))
      /\ 0 <= length (models (registry_file (fst (fst Fixtures2.failed_registration))))).
Proof.
  apply (registration_persists_fresh Fixtures.env_tokenizer_404 Fixtures2.plain_urlparse
           Fixtures2.no_task (Fixtures.start [] ∅) _ "Xenova/whisper-tiny" "Xenova"
           "whisper-tiny" false false (snd (fst Fixtures2.failed_registration))
           Fixtures2.failed_registration_entry eq_refl).
  vm_compute. reflexivity.
Defined.




Lemma sync_after_registration_witness :
  get_downloaded Fixtures2.failed_registration_entry = false
  /\ snd (Sync.download_model Fixtures.env_tokenizer_404
            (fst (fst Fixtures2.failed_registration))
            (id Fixtures2.failed_registration_entry) false false [])
     = Ret true.
Proof.
  split; [reflexivity|].
  refine (proj1 (sync_after_registration Fixtures.env_tokenizer_404 Fixtures2.plain_urlparse
                   Fixtures2.no_task (Fixtures.start [] ∅) _ "Xenova/whisper-tiny" "Xenova"
                   "whisper-tiny" false false (snd (fst Fixtures2.failed_registration))
                   Fixtures2.failed_registration_entry false [] eq_refl eq_refl _ _ _)).
  - intros x Hx. now apply elem_of_nil in Hx.
  - vm_compute. reflexivity.
  - discriminate.
Defined.

(** ** The display name of a model *)

Section DisplayName.

Import Str PyStr Registration Derived.

Lemma starts_with_take (p s : string) :
  starts_with p s = true -> str_take (String.length p) s = p.
Proof.
  revert s. induction p as [|a p IH]; intros s H; [now destruct s|].
  destruct s as [|b s]; [discriminate|]. cbn in H.
  apply andb_true_iff in H as [Hab Hrest]. apply Ascii.eqb_eq in Hab. subst b.
  cbn. now rewrite IH.
Qed.

(** What was skipped and what is produced make the string, when a piece
    is replaced by itself. *)
Lemma replace_same_from (old : string) (s : string) (k : nat) :
  old <> EmptyString ->
  str_take k s +:+ replace_from old old k s = s.
Proof.
  intros Hold. revert k. induction s as [|c rest IH]; intros k.
  - now destruct k.
  - destruct k as [|k].
    + cbn [str_take replace_from].
      destruct (starts_with old (String c rest)) eqn:Hs.
      * destruct old as [|a old']; [contradiction|]. cbn in Hs.
        apply andb_true_iff in Hs as [Hac Hrest]. apply Ascii.eqb_eq in Hac. subst a.
        cbn [String.length]. rewrite Nat.sub_succ, Nat.sub_0_r.
        change (EmptyString +:+ (String c old' +:+ replace_from (String c old') (String c old')
                                   (String.length old') rest))
          with (String c (old' +:+ replace_from (String c old') (String c old')
                            (String.length old') rest)).
        f_equal. rewrite <- (starts_with_take old' rest Hrest) at 1. apply IH.
      * change (String c (EmptyString +:+ replace_from old old 0 rest) = String c rest).
        f_equal. apply (IH 0).
    + cbn [str_take replace_from]. rewrite str_app_cons. f_equal. apply IH.
Qed.

Lemma replace_same (old s : string) : old <> EmptyString -> replace old old s = s.
Proof. intros Hold. exact (replace_same_from old s 0 Hold). Qed.

Lemma replace_absent (old new s : string) : str_in old s = false -> replace old new s = s.
Proof.
  unfold replace. induction s as [|c rest IH]; intros H; [reflexivity|].
  cbn [str_in] in H. cbn [replace_from].
  destruct (starts_with old (String c rest)); [discriminate|].
  f_equal. now apply IH.
Qed.

Lemma lower_char_not_upper (c : ascii) : is_upper (lower_char c) = false.
Proof. destruct c as [[] [] [] [] [] [] [] []]; reflexivity. Qed.

Lemma word_case_lower_then (s rest : string) (b : bool) :
  word_case b (lower s +:+ String " " rest) = word_case true rest.
Proof.
  revert b. induction s as [|c s IH]; intros b.
  - change (word_case b (String " " rest) = word_case true rest). cbn.
    now rewrite orb_true_r.
  - cbn [lower]. rewrite str_app_cons. cbn [word_case].
    rewrite lower_char_not_upper, orb_true_r. cbn. apply IH.
Qed.

Lemma word_case_lower (s : string) (b : bool) : word_case b (lower s) = true.
Proof.
  revert b. induction s as [|c s IH]; intros b; [reflexivity|].
  cbn. rewrite lower_char_not_upper, orb_true_r. cbn. apply IH.
Qed.

Lemma word_case_join (ws : list string) :
  word_case true (join " " (map capitalize ws)) = true.
Proof.
  induction ws as [|w rest IH]; [reflexivity|].
  destruct rest as [|w' rest'].
  - cbn. destruct w as [|c w]; [reflexivity|]. cbn. apply word_case_lower.
  - change (join " " (map capitalize (w :: w' :: rest')))
      with (capitalize w +:+ String " " (join " " (map capitalize (w' :: rest')))).
    destruct w as [|c w].
    + change (word_case true (String " " (join " " (map capitalize (w' :: rest')))) = true).
      cbn [word_case]. cbn. exact IH.
    + cbn [capitalize]. rewrite str_app_cons. cbn [word_case]. cbn [orb andb].
      rewrite word_case_lower_then. exact IH.
Qed.

Lemma starts_with_cons (a b : ascii) (p s : string) :
  starts_with (String a p) (String b s) = Ascii.eqb a b && starts_with p s.
Proof. reflexivity. Qed.

Lemma word_case_cons (b : bool) (c : ascii) (s : string) :
  word_case b (String c s) = (b || negb (is_upper c)) && word_case (Ascii.eqb c " ") s.
Proof. reflexivity. Qed.

Lemma word_case_no_dot_capital (s : string) (b : bool) :
  word_case b s = true -> str_in ".En" s = false.
Proof.
  revert b. induction s as [|c rest IH]; intros b H; [reflexivity|].
  cbn [word_case] in H. apply andb_true_iff in H as [_ Hrest].
  cbn [str_in]. rewrite (IH _ Hrest).
  destruct (starts_with ".En" (String c rest)) eqn:Hs; [|reflexivity].
  exfalso. change ".En" with (String "."%char "En") in Hs.
  destruct rest as [|e rest']; [rewrite starts_with_cons in Hs; now destruct (Ascii.eqb "." c)|].
  rewrite starts_with_cons in Hs. apply andb_true_iff in Hs as [Hdot Hs].
  apply Ascii.eqb_eq in Hdot. subst c.
  change "En" with (String "E"%char "n") in Hs. rewrite starts_with_cons in Hs.
  apply andb_true_iff in Hs as [He _]. apply Ascii.eqb_eq in He. subst e.
  rewrite word_case_cons in Hrest. apply andb_true_iff in Hrest as [Hup _].
  vm_compute in Hup. discriminate.
Qed.

(** X25: the display name is the words of the model name (split at
    dashes, underscores and blanks), each capitalised, joined by blanks,
    with only [Vad] turned into [VAD] and [Tts] into [TTS]: the rules for
    [Whisper], [V2] and [V3] replace a text by itself, and the rule that
    turns [.En] into [ English] never applies, since no capital letter
    follows a dot in the capitalised words. *)
Theorem format_model_name_rules (model_name : string) :
  _format_model_name model_name
    = replace "Tts" "TTS" (replace "Vad" "VAD" (capitalised_words model_name))
  /\ str_in ".En" (capitalised_words model_name) = false.
Proof.
  assert (Hno : str_in ".En" (capitalised_words model_name) = false).
  { apply (word_case_no_dot_capital _ true). apply word_case_join. }
  split; [|exact Hno].
  unfold _format_model_name. fold (capitalised_words model_name).
  rewrite (replace_same "Whisper") by discriminate.
  rewrite (replace_absent ".En") by exact Hno.
  rewrite (replace_same "V2") by discriminate.
  rewrite (replace_same "V3") by discriminate.
  reflexivity.
Qed.

End DisplayName.
